(** * Spaceship trajectory engine: a shallow embedding and its properties

    The development follows the TypeScript sources under [src/core] and
    [src/utils] (the classes [Vec2], [FlightPath], [CompositePath],
    [BreakFlightPath], [LineFlightPath], [DirectedInitialVFlightPath],
    [InitialVFlightPath], the function [combinePath] and the class
    [PerformanceMonitor]), and the older [trajectory.js] (module [Legacy])
    where the two differ.

    JavaScript numbers are read as real numbers: the kinematic equations are
    embedded over [R], every thrown [Error] is a value of [error], and every
    method that can throw returns a [result].  The one place where the
    engine divides by a quantity that can be zero without a guard
    ([getStateAtTime]) is modelled with the JavaScript outcome of that
    division written out.  Module [Double] embeds the vector arithmetic over
    IEEE-754 binary64 numbers, for the statement that is about exact
    component equality of computed numbers. *)

From Stdlib Require Import Reals Lra Lia List ZArith Bool.
From Stdlib Require PrimFloat.
Import ListNotations.

Local Open Scope R_scope.

(** ** Errors and the error monad *)

(** The [Error]s the engine throws, one constructor per message, and
    [TypeError] for the runtime's own error on reading a property of
    [undefined]. *)
Inductive error : Type :=
| CoordinatesNotFinite        (* 'Vec2 coordinates must be finite numbers' *)
| DivisionByZero              (* 'Division by zero' *)
| CannotNormalizeZeroVector   (* 'Cannot normalize zero vector' *)
| AMaxNotPositive             (* 'a_max must be positive number' *)
| TimeNegative                (* 'Time cannot be negative' *)
| TimeOutsideRange (t t_max : R) (* `Time ${t} is outside valid range [0, ${t_max}]` *)
| TypeError.                  (* Cannot read properties of undefined *)

Inductive result (A : Type) : Type :=
| Ok (a : A)
| Throw (e : error).

Arguments Ok {A} a.
Arguments Throw {A} e.

Definition bind {A B : Type} (m : result A) (k : A -> result B) : result B :=
  match m with
  | Ok a => k a
  | Throw e => Throw e
  end.

Notation "x <- m ;; k" := (bind m (fun x => k))
  (at level 61, m at next level, right associativity).

(** [Array.from({length: n}, f)]: the callback runs on the indices in order
    and the first exception aborts the whole construction. *)
Fixpoint mapM {A B : Type} (f : A -> result B) (l : list A) : result (list B) :=
  match l with
  | [] => Ok []
  | a :: l' => b <- f a ;; bs <- mapM f l' ;; Ok (b :: bs)
  end.

Definition succeeds {A : Type} (m : result A) : Prop := exists a, m = Ok a.

(** ** Comparisons of numbers, as the booleans JavaScript computes *)

Definition Rltb (a b : R) : bool := if Rlt_dec a b then true else false.
Definition Rleb (a b : R) : bool := if Rle_dec a b then true else false.
Definition Reqb (a b : R) : bool := if Req_dec_T a b then true else false.

Notation "a <? b" := (Rltb a b) (at level 70, no associativity) : R_scope.
Notation "a <=? b" := (Rleb a b) (at level 70, no associativity) : R_scope.
Notation "a >? b" := (Rltb b a)
  (at level 70, no associativity, only parsing) : R_scope.
Notation "a >=? b" := (Rleb b a)
  (at level 70, no associativity, only parsing) : R_scope.
Notation "a === b" := (Reqb a b) (at level 70, no associativity) : R_scope.

(** ** Vec2 *)

Module Vec2.

(** The constructor rejects components that are not finite numbers; every
    real number is one, so construction is total here. *)
Record t : Type := mk { x : R; y : R }.

Definition zero : t := mk 0 0.

Definition add (a v : t) : t := mk (x a + x v) (y a + y v).

Definition sub (a v : t) : t := mk (x a - x v) (y a - y v).

Definition mul (a : t) (s : R) : t := mk (x a * s) (y a * s).

Definition div (a : t) (s : R) : result t :=
  if s === 0 then Throw DivisionByZero
  else Ok (mk (x a / s) (y a / s)).

Definition length (a : t) : R := sqrt (x a * x a + y a * y a).

Definition norm (a : t) : result t :=
  let len := length a in
  if len === 0 then Throw CannotNormalizeZeroVector
  else div a len.

Definition normOrZero (a : t) : result t :=
  let l := length a in
  if l === 0 then Ok zero else div a l.

Definition dot (a v : t) : R := x a * x v + y a * y v.

Definition cross (a v : t) : R := x a * y v - y a * x v.

Definition equals (a v : t) : bool := (x a === x v) && (y a === y v).

End Vec2.

(** ** TrajectoryState *)

Record TrajectoryState : Type := mkState {
  position : Vec2.t;
  velocity : Vec2.t;
  time : R
}.

(** ** FlightPath: the abstract base class *)

(** The value of [Math.floor(t / timeStep)]: an integer, or what JavaScript
    yields when the divisor is zero. *)
Inductive jsindex : Type :=
| Int (z : Z)
| NaN
| PosInfinity
| NegInfinity.

Definition floor_div (t timeStep : R) : jsindex :=
  if timeStep === 0 then
    if t === 0 then NaN else if 0 <? t then PosInfinity else NegInfinity
  else Int (Zfloor (t / timeStep)).

(** [index >= n] and [index < n] for an array length [n]; every comparison
    with [NaN] is false. *)
Definition index_ge (i : jsindex) (n : Z) : bool :=
  match i with
  | Int z => (n <=? z)%Z
  | PosInfinity => true
  | NaN | NegInfinity => false
  end.

Definition index_lt (i : jsindex) (n : Z) : bool :=
  match i with
  | Int z => (z <? n)%Z
  | NegInfinity => true
  | NaN | PosInfinity => false
  end.

(** [points[i]]: [None] is [undefined]. *)
Definition get {A : Type} (points : list A) (z : Z) : option A :=
  if (z <? 0)%Z then None else nth_error points (Z.to_nat z).

Definition index_get {A : Type} (points : list A) (i : jsindex) : option A :=
  match i with
  | Int z => get points z
  | _ => None
  end.

Definition index_succ (i : jsindex) : jsindex :=
  match i with
  | Int z => Int (z + 1)
  | other => other
  end.

(** Reading a property of a value that may be [undefined]. *)
Definition deref {A : Type} (o : option A) : result A :=
  match o with
  | Some a => Ok a
  | None => Throw TypeError
  end.

Module FlightPath.

(** An instance seen through the base class: the duration, the two
    abstract methods as supplied by the subclass, and the private cache
    ([None] is [null]). *)
Record instance : Type := mk {
  t_max : R;
  rocketPosition : R -> result Vec2.t;
  rocketVelocity : R -> result Vec2.t;
  _cachedPoints : option (list TrajectoryState)
}.

Definition _cacheResolution : nat := 50.

Definition getMaxTime (self : instance) : R := t_max self.

Definition with_cache (self : instance) (points : list TrajectoryState) : instance :=
  mk (t_max self) (rocketPosition self) (rocketVelocity self) (Some points).

(** The callback of [Array.from] in [getCachedPoints]. *)
Definition sample (self : instance) (i : nat) : result TrajectoryState :=
  let t := (t_max self / INR _cacheResolution) * INR i in
  p <- rocketPosition self t ;;
  v <- rocketVelocity self t ;;
  Ok (mkState p v t).

(** Returns the points and the instance after the call (the cache is
    filled in on the first successful call). *)
Definition getCachedPoints (self : instance)
  : result (list TrajectoryState * instance) :=
  match _cachedPoints self with
  | Some points => Ok (points, self)
  | None =>
      points <- mapM (sample self) (seq 0 (_cacheResolution + 1)) ;;
      Ok (points, with_cache self points)
  end.

(** The returned state is an [option] because [points[points.length - 1]]
    is returned as it is, also when it is [undefined]. *)
Definition getStateAtTime (self : instance) (t : R)
  : result (option TrajectoryState * instance) :=
  if (t <? 0) || (t >? t_max self) then
    Throw (TimeOutsideRange t (t_max self))
  else
    r <- getCachedPoints self ;;
    let points := fst r in
    let self' := snd r in
    let timeStep := t_max self / INR _cacheResolution in
    let index := floor_div t timeStep in
    let len := Z.of_nat (List.length points) in
    if index_ge index (len - 1) then Ok (get points (len - 1), self')
    else if index_lt index 0 then Ok (get points 0, self')
    else
      p1 <- deref (index_get points index) ;;
      p2 <- deref (index_get points (index_succ index)) ;;
      let alpha := (t - time p1) / timeStep in
      Ok (Some (mkState
            (Vec2.add (position p1)
               (Vec2.mul (Vec2.sub (position p2) (position p1)) alpha))
            (Vec2.add (velocity p1)
               (Vec2.mul (Vec2.sub (velocity p2) (velocity p1)) alpha))
            t),
          self').

End FlightPath.

(** ** CompositePath *)

Module CompositePath.

Definition new (maxTime : R)
    (positionFn velocityFn : R -> result Vec2.t) : FlightPath.instance :=
  FlightPath.mk maxTime positionFn velocityFn None.

End CompositePath.

(** ** BreakFlightPath *)

Module BreakFlightPath.

Record instance : Type := mk {
  time_to_break : R;
  dist_to_break : R;
  norm : Vec2.t;
  p_end : Vec2.t;
  a_max : R;
  t_max : R
}.

Definition new (p_start : Vec2.t) (a_max : R) (initial_v : Vec2.t)
  : result instance :=
  if a_max <=? 0 then Throw AMaxNotPositive
  else
    let time_to_break := Vec2.length initial_v / a_max in
    let dist_to_break := 0.5 * a_max * time_to_break * time_to_break in
    norm <- Vec2.normOrZero initial_v ;;
    let p_end := Vec2.add p_start (Vec2.mul norm dist_to_break) in
    Ok (mk time_to_break dist_to_break norm p_end a_max time_to_break).

Definition rocketPosition (self : instance) (t : R) : result Vec2.t :=
  if t <? 0 then Throw TimeNegative
  else if t <=? time_to_break self then
    let remaining := time_to_break self - t in
    Ok (Vec2.sub (p_end self)
          (Vec2.mul (norm self) (0.5 * a_max self * remaining * remaining)))
  else Ok (p_end self).

Definition rocketVelocity (self : instance) (t : R) : result Vec2.t :=
  if t <? 0 then Throw TimeNegative
  else if t <=? time_to_break self then
    let remaining := time_to_break self - t in
    Ok (Vec2.mul (norm self) (a_max self * remaining))
  else Ok Vec2.zero.

Definition getMaxTime (self : instance) : R := t_max self.
Definition getEndPosition (self : instance) : Vec2.t := p_end self.
Definition getTimeToBreak (self : instance) : R := time_to_break self.
Definition getDistanceToBreak (self : instance) : R := dist_to_break self.

(** The instance as a [FlightPath] (a freshly constructed one: no cache). *)
Definition upcast (self : instance) : FlightPath.instance :=
  FlightPath.mk (t_max self) (rocketPosition self) (rocketVelocity self) None.

End BreakFlightPath.

(** ** LineFlightPath *)

Module LineFlightPath.

Record instance : Type := mk {
  p_start : Vec2.t;
  p_end : Vec2.t;
  a_max : R;
  distance : R;
  direction : Vec2.t;
  t_max : R
}.

Definition new (p_start p_end : Vec2.t) (a_max : R) : result instance :=
  if a_max <=? 0 then Throw AMaxNotPositive
  else
    let dd := Vec2.sub p_end p_start in
    let distance := Vec2.length dd in
    if distance === 0 then
      Ok (mk p_start p_end a_max distance Vec2.zero 0)
    else
      direction <- Vec2.div dd distance ;;
      Ok (mk p_start p_end a_max distance direction
            (2 * sqrt (distance / a_max))).

Definition rocketPosition (self : instance) (t : R) : result Vec2.t :=
  if t <? 0 then Throw TimeNegative
  else if distance self === 0 then Ok (p_start self)
  else if t <=? t_max self / 2 then
    Ok (Vec2.add (p_start self)
          (Vec2.mul (direction self) (0.5 * a_max self * t * t)))
  else if t <=? t_max self then
    let t_decel := t_max self - t in
    Ok (Vec2.add (p_end self)
          (Vec2.mul (direction self) (-0.5 * a_max self * t_decel * t_decel)))
  else Ok (p_end self).

Definition rocketVelocity (self : instance) (t : R) : result Vec2.t :=
  if t <? 0 then Throw TimeNegative
  else if distance self === 0 then Ok Vec2.zero
  else if t <=? t_max self / 2 then
    Ok (Vec2.mul (direction self) (a_max self * t))
  else if t <=? t_max self then
    let t_decel := t - t_max self / 2 in
    Ok (Vec2.mul (direction self) (a_max self * (t_max self / 2 - t_decel)))
  else Ok Vec2.zero.

Definition getMaxTime (self : instance) : R := t_max self.
Definition getDistance (self : instance) : R := distance self.
Definition getDirection (self : instance) : Vec2.t := direction self.

Definition upcast (self : instance) : FlightPath.instance :=
  FlightPath.mk (t_max self) (rocketPosition self) (rocketVelocity self) None.

End LineFlightPath.

(** ** combinePath *)

Definition combinePath (path1 path2 : FlightPath.instance)
  : FlightPath.instance :=
  FlightPath.mk
    (FlightPath.getMaxTime path1 + FlightPath.getMaxTime path2)
    (fun t =>
       if t <? 0 then Throw TimeNegative
       else if t <=? FlightPath.getMaxTime path1 then
         FlightPath.rocketPosition path1 t
       else FlightPath.rocketPosition path2 (t - FlightPath.getMaxTime path1))
    (fun t =>
       if t <? 0 then Throw TimeNegative
       else if t <=? FlightPath.getMaxTime path1 then
         FlightPath.rocketVelocity path1 t
       else FlightPath.rocketVelocity path2 (t - FlightPath.getMaxTime path1))
    None.

(** ** DirectedInitialVFlightPath *)

Module DirectedInitialVFlightPath.

Record instance : Type := mk {
  implementation : FlightPath.instance;
  t_max : R
}.

Definition new (p_start p_end : Vec2.t) (a_max initial_v : R)
  : result instance :=
  if a_max <=? 0 then Throw AMaxNotPositive
  else
    let dd := Vec2.sub p_end p_start in
    let distance := Vec2.length dd in
    if distance === 0 then
      break_path <- BreakFlightPath.new p_start a_max (Vec2.mk initial_v 0) ;;
      let implementation := BreakFlightPath.upcast break_path in
      Ok (mk implementation (FlightPath.getMaxTime implementation))
    else
      direction <- Vec2.div dd distance ;;
      break_path <-
        BreakFlightPath.new p_start a_max (Vec2.mul direction initial_v) ;;
      if (initial_v <? 0)
         || (BreakFlightPath.getDistanceToBreak break_path >? distance)
      then
        final_path <-
          LineFlightPath.new
            (BreakFlightPath.getEndPosition break_path) p_end a_max ;;
        let implementation :=
          combinePath (BreakFlightPath.upcast break_path)
                      (LineFlightPath.upcast final_path) in
        Ok (mk implementation (FlightPath.getMaxTime implementation))
      else
        let fictive_start :=
          Vec2.sub p_start
            (Vec2.mul direction
               (BreakFlightPath.getDistanceToBreak break_path)) in
        let time_to_initial_v := BreakFlightPath.getTimeToBreak break_path in
        actual_path <- LineFlightPath.new fictive_start p_end a_max ;;
        Ok (mk (LineFlightPath.upcast actual_path)
              (LineFlightPath.getMaxTime actual_path - time_to_initial_v)).

Definition rocketPosition (self : instance) (t : R) : result Vec2.t :=
  FlightPath.rocketPosition (implementation self) t.

Definition rocketVelocity (self : instance) (t : R) : result Vec2.t :=
  FlightPath.rocketVelocity (implementation self) t.

Definition getMaxTime (self : instance) : R := t_max self.

Definition upcast (self : instance) : FlightPath.instance :=
  FlightPath.mk (t_max self) (rocketPosition self) (rocketVelocity self) None.

End DirectedInitialVFlightPath.

(** ** InitialVFlightPath *)

Module InitialVFlightPath.

Record instance : Type := mk {
  implementation : FlightPath.instance;
  t_max : R
}.

Definition calculatePositionAfterCancel
    (cancelPath : BreakFlightPath.instance) (v0_parallel : Vec2.t) (time : R)
  : Vec2.t :=
  Vec2.add (BreakFlightPath.getEndPosition cancelPath)
           (Vec2.mul v0_parallel time).

Definition calculatePositionAfterAlign
    (startPos v0_parallel v0_perp_direction : Vec2.t) (a_max time : R)
  : Vec2.t :=
  Vec2.sub (Vec2.add startPos (Vec2.mul v0_parallel time))
           (Vec2.mul v0_perp_direction (0.5 * a_max * time * time)).

Definition calculateVelocityAfterAlign
    (v0_parallel v0_perp_direction : Vec2.t) (a_max time : R) : Vec2.t :=
  Vec2.sub v0_parallel (Vec2.mul v0_perp_direction (a_max * time)).

(** [None] is [undefined]. *)
Definition calculateAlignmentTime
    (p_end pos_after_cancel_v0 : Vec2.t) (v0_parallel_len : R)
    (u v0_perp_u : Vec2.t) (a_max : R) : option R :=
  if v0_parallel_len === 0 then None
  else
    let changeBase := fun v => Vec2.mk (Vec2.dot v u) (Vec2.dot v v0_perp_u) in
    let start := changeBase pos_after_cancel_v0 in
    let end_ := Vec2.sub (changeBase p_end) start in
    let inner :=
      (a_max * Vec2.x end_) ^ 2
      + 2 * a_max * v0_parallel_len * v0_parallel_len * Vec2.y end_ in
    if inner <? 0 then None
    else
      let q := ((- a_max * Vec2.x end_) + sqrt inner)
               / (- a_max * v0_parallel_len) in
      let x := v0_parallel_len * q in
      if (q <? 0) || (x <? 0) then None else Some q.

Definition new (p_start p_end : Vec2.t) (a_max : R) (v0 : Vec2.t)
  : result instance :=
  if a_max <=? 0 then Throw AMaxNotPositive
  else
    let dd := Vec2.sub p_end p_start in
    if Vec2.length dd === 0 then
      break_path <- BreakFlightPath.new p_start a_max v0 ;;
      let implementation :=
        CompositePath.new
          (BreakFlightPath.getMaxTime break_path)
          (fun t =>
             if t <? 0 then Throw TimeNegative
             else
               pos <- BreakFlightPath.rocketPosition break_path t ;;
               Ok (if t >=? BreakFlightPath.getMaxTime break_path
                   then p_start else pos))
          (fun t => BreakFlightPath.rocketVelocity break_path t) in
      Ok (mk implementation (BreakFlightPath.getMaxTime break_path))
    else
      direction <- Vec2.div dd (Vec2.length dd) ;;
      let v0_parallel_len := Vec2.dot v0 direction in
      let v0_parallel := Vec2.mul direction v0_parallel_len in
      let v0_perp := Vec2.sub v0 v0_parallel in
      let v0_perp_len := Vec2.length v0_perp in
      if v0_perp_len === 0 then
        directed <-
          DirectedInitialVFlightPath.new p_start p_end a_max v0_parallel_len ;;
        let implementation := DirectedInitialVFlightPath.upcast directed in
        Ok (mk implementation (FlightPath.getMaxTime implementation))
      else
        v0_perp_direction <- Vec2.div v0_perp v0_perp_len ;;
        v0_cancel_path <- BreakFlightPath.new p_start a_max v0_perp ;;
        let time_to_cancel_v0 :=
          BreakFlightPath.getTimeToBreak v0_cancel_path in
        let pos_after_cancel :=
          calculatePositionAfterCancel
            v0_cancel_path v0_parallel time_to_cancel_v0 in
        let time_to_align :=
          calculateAlignmentTime p_end pos_after_cancel v0_parallel_len
            direction v0_perp_direction a_max in
        match time_to_align with
        | None =>
            full_break_path <- BreakFlightPath.new p_start a_max v0 ;;
            final_path <-
              DirectedInitialVFlightPath.new
                (BreakFlightPath.getEndPosition full_break_path)
                p_end a_max 0 ;;
            let implementation :=
              combinePath (BreakFlightPath.upcast full_break_path)
                          (DirectedInitialVFlightPath.upcast final_path) in
            Ok (mk implementation (FlightPath.getMaxTime implementation))
        | Some alignTime =>
            let pos_after_align :=
              calculatePositionAfterAlign
                (BreakFlightPath.getEndPosition v0_cancel_path)
                v0_parallel v0_perp_direction a_max alignTime in
            let vel_after_align :=
              calculateVelocityAfterAlign
                v0_parallel v0_perp_direction a_max alignTime in
            final_path <-
              DirectedInitialVFlightPath.new
                pos_after_align p_end a_max (Vec2.length vel_after_align) ;;
            let totalTime :=
              time_to_cancel_v0 + alignTime
              + DirectedInitialVFlightPath.getMaxTime final_path in
            let implementation :=
              CompositePath.new
                totalTime
                (fun t =>
                   if t <? 0 then Throw TimeNegative
                   else if t <=? time_to_cancel_v0 then
                     p <- BreakFlightPath.rocketPosition v0_cancel_path t ;;
                     Ok (Vec2.add p (Vec2.mul v0_parallel t))
                   else if t <=? time_to_cancel_v0 + alignTime then
                     let align_t := t - time_to_cancel_v0 in
                     Ok (Vec2.sub
                           (Vec2.add
                              (BreakFlightPath.getEndPosition v0_cancel_path)
                              (Vec2.mul v0_parallel align_t))
                           (Vec2.mul v0_perp_direction
                              (0.5 * a_max * align_t * align_t)))
                   else
                     DirectedInitialVFlightPath.rocketPosition final_path
                       (t - time_to_cancel_v0 - alignTime))
                (fun t =>
                   if t <? 0 then Throw TimeNegative
                   else if t <=? time_to_cancel_v0 then
                     v <- BreakFlightPath.rocketVelocity v0_cancel_path t ;;
                     Ok (Vec2.add v v0_parallel)
                   else if t <=? time_to_cancel_v0 + alignTime then
                     let align_t := t - time_to_cancel_v0 in
                     Ok (Vec2.sub v0_parallel
                           (Vec2.mul v0_perp_direction (a_max * align_t)))
                   else
                     DirectedInitialVFlightPath.rocketVelocity final_path
                       (t - time_to_cancel_v0 - alignTime)) in
            Ok (mk implementation totalTime)
        end.

Definition rocketPosition (self : instance) (t : R) : result Vec2.t :=
  FlightPath.rocketPosition (implementation self) t.

Definition rocketVelocity (self : instance) (t : R) : result Vec2.t :=
  FlightPath.rocketVelocity (implementation self) t.

Definition getMaxTime (self : instance) : R := t_max self.

Definition upcast (self : instance) : FlightPath.instance :=
  FlightPath.mk (t_max self) (rocketPosition self) (rocketVelocity self) None.

End InitialVFlightPath.

(** ** trajectory.js: the older JavaScript engine *)

(** [trajectory.js] validates nothing and never throws.  Its vector
    arithmetic is the arithmetic of [Vec2] above; a division by zero (or the
    square root of a negative number) yields [NaN] or an infinity there,
    which is not a real number: the constructors below return [None] in
    that case and the instance otherwise. *)
Module Legacy.

Notation "x <-? m ;; k" :=
  (match m with Some x => k | None => None end)
  (at level 61, m at next level, right associativity).

Definition div (a : Vec2.t) (s : R) : option Vec2.t :=
  if s === 0 then None
  else Some (Vec2.mk (Vec2.x a / s) (Vec2.y a / s)).

Definition normOrZero (a : Vec2.t) : option Vec2.t :=
  let l := Vec2.length a in
  if l === 0 then Some Vec2.zero else div a l.

Module FlightPath.
Record instance : Type := mk {
  t_max : R;
  rocketPosition : R -> Vec2.t;
  rocketVelocity : R -> Vec2.t
}.
End FlightPath.

Module BreakFlightPath.

Record instance : Type := mk {
  time_to_break : R;
  dist_to_break : R;
  norm : Vec2.t;
  p_end : Vec2.t;
  t_max : R;
  a_max : R
}.

Definition new (p_start : Vec2.t) (a_max : R) (initial_v : Vec2.t)
  : option instance :=
  if a_max === 0 then None
  else
    let time_to_break := Vec2.length initial_v / a_max in
    let dist_to_break := 0.5 * a_max * time_to_break * time_to_break in
    norm <-? normOrZero initial_v ;;
    let p_end := Vec2.add p_start (Vec2.mul norm dist_to_break) in
    Some (mk time_to_break dist_to_break norm p_end time_to_break a_max).

Definition rocketPosition (self : instance) (t : R) : Vec2.t :=
  if t <=? time_to_break self then
    let remaining := time_to_break self - t in
    Vec2.sub (p_end self)
      (Vec2.mul (norm self) (0.5 * a_max self * remaining * remaining))
  else p_end self.

Definition rocketVelocity (self : instance) (t : R) : Vec2.t :=
  if t <=? time_to_break self then
    let remaining := time_to_break self - t in
    Vec2.mul (norm self) (a_max self * remaining)
  else Vec2.zero.

Definition upcast (self : instance) : FlightPath.instance :=
  FlightPath.mk (t_max self) (rocketPosition self) (rocketVelocity self).

End BreakFlightPath.

Module LineFlightPath.

Record instance : Type := mk {
  p_start : Vec2.t;
  p_end : Vec2.t;
  a_max : R;
  distance : R;
  direction : Vec2.t;
  t_max : R
}.

Definition new (p_start p_end : Vec2.t) (a_max : R) : option instance :=
  let dd := Vec2.sub p_end p_start in
  let distance := Vec2.length dd in
  direction <-? div dd distance ;;
  if a_max === 0 then None
  else if distance / a_max <? 0 then None
  else Some (mk p_start p_end a_max distance direction
               (2 * sqrt (distance / a_max))).

Definition rocketPosition (self : instance) (t : R) : Vec2.t :=
  if t <=? t_max self / 2 then
    Vec2.add (p_start self)
      (Vec2.mul (direction self) (0.5 * a_max self * t * t))
  else if t <=? t_max self then
    let t_decel := t_max self - t in
    Vec2.add (p_end self)
      (Vec2.mul (direction self) (-0.5 * a_max self * t_decel * t_decel))
  else p_end self.

Definition rocketVelocity (self : instance) (t : R) : Vec2.t :=
  if t <=? t_max self / 2 then
    Vec2.mul (direction self) (a_max self * t)
  else if t <=? t_max self then
    let t_decel := t - t_max self / 2 in
    Vec2.mul (direction self) (a_max self * (t_max self / 2 - t_decel))
  else Vec2.zero.

Definition upcast (self : instance) : FlightPath.instance :=
  FlightPath.mk (t_max self) (rocketPosition self) (rocketVelocity self).

End LineFlightPath.

Definition combinePath (path1 path2 : FlightPath.instance)
  : FlightPath.instance :=
  FlightPath.mk
    (FlightPath.t_max path1 + FlightPath.t_max path2)
    (fun t =>
       if t <=? FlightPath.t_max path1 then FlightPath.rocketPosition path1 t
       else FlightPath.rocketPosition path2 (t - FlightPath.t_max path1))
    (fun t =>
       if t <=? FlightPath.t_max path1 then FlightPath.rocketVelocity path1 t
       else FlightPath.rocketVelocity path2 (t - FlightPath.t_max path1)).

Module DirectedInitialVFlightPath.

Definition new (p_start p_end : Vec2.t) (a_max initial_v : R)
  : option FlightPath.instance :=
  let dd := Vec2.sub p_end p_start in
  let distance := Vec2.length dd in
  direction <-? div dd distance ;;
  break_path <-?
    BreakFlightPath.new p_start a_max (Vec2.mul direction initial_v) ;;
  if (initial_v <? 0)
     || (BreakFlightPath.dist_to_break break_path >? distance)
  then
    final_path <-?
      LineFlightPath.new (BreakFlightPath.p_end break_path) p_end a_max ;;
    let combined :=
      combinePath (BreakFlightPath.upcast break_path)
                  (LineFlightPath.upcast final_path) in
    Some (FlightPath.mk (FlightPath.t_max combined)
            (FlightPath.rocketPosition combined)
            (FlightPath.rocketVelocity combined))
  else
    let fictive_start :=
      Vec2.sub p_start
        (Vec2.mul direction (BreakFlightPath.dist_to_break break_path)) in
    let time_to_initial_v := BreakFlightPath.time_to_break break_path in
    actual_path <-? LineFlightPath.new fictive_start p_end a_max ;;
    Some (FlightPath.mk
            (LineFlightPath.t_max actual_path - time_to_initial_v)
            (fun t =>
               LineFlightPath.rocketPosition actual_path
                 (t + time_to_initial_v))
            (fun t =>
               LineFlightPath.rocketVelocity actual_path
                 (t + time_to_initial_v))).

End DirectedInitialVFlightPath.

Module InitialVFlightPath.

Definition calculateAlignmentTime
    (p_end pos_after_cancel_v0 : Vec2.t) (v0_parallel_len : R)
    (u v0_perp_u : Vec2.t) (a_max : R) : option R :=
  if v0_parallel_len === 0 then None
  else
    let changeBase := fun v => Vec2.mk (Vec2.dot v u) (Vec2.dot v v0_perp_u) in
    let start := changeBase pos_after_cancel_v0 in
    let end_ := Vec2.sub (changeBase p_end) start in
    let inner :=
      (a_max * Vec2.x end_) ^ 2
      + 2 * a_max * v0_parallel_len * v0_parallel_len * Vec2.y end_ in
    if inner <? 0 then None
    else
      let q := ((- a_max * Vec2.x end_) + sqrt inner)
               / (- a_max * v0_parallel_len) in
      let x := v0_parallel_len * q in
      if (q <? 0) || (x <? 0) then None else Some q.

End InitialVFlightPath.

End Legacy.

(** ** Vec2 over IEEE-754 binary64 numbers *)

(** JavaScript's numbers are binary64 floating-point numbers and so are
    Rocq's primitive floats: [+] and [-] round to nearest (ties to even) and
    [===] is [PrimFloat.eqb].  Here the constructor's check
    [Number.isFinite] is not vacuous. *)
Module Double.

Import PrimFloat.

Module Vec2.

Record t : Type := mk { x : float; y : float }.

Definition new (x y : float) : result t :=
  if negb (is_finite x) || negb (is_finite y)
  then Throw CoordinatesNotFinite
  else Ok (mk x y).

Definition add (a v : t) : result t := new (x a + x v) (y a + y v).

Definition sub (a v : t) : result t := new (x a - x v) (y a - y v).

Definition equals (a v : t) : bool :=
  (x a =? x v)%float && (y a =? y v)%float.

End Vec2.

(** [(a.add(b)).sub(b).equals(a)]; an exception in [add] or [sub]
    propagates. *)
Definition add_sub_equals (a b : Vec2.t) : result bool :=
  s <- Vec2.add a b ;;
  d <- Vec2.sub s b ;;
  Ok (Vec2.equals d a).

(** Numbers for the examples: [2^53], above which not every integer is a
    binary64 number, and [Number.MAX_VALUE]. *)
Definition two_pow_53 : float := 9007199254740992.
Definition MAX_VALUE : float := 0x1.fffffffffffffp+1023.

End Double.

(** ** PerformanceMonitor *)

(** The monitor reads the clock with [performance.now()]; each method that
    reads it takes the reading as its argument [now].  [endFrame] also
    takes [performance.memory]: [None] where the browser has none,
    otherwise its [usedJSHeapSize]. *)
Module PerformanceMonitor.

Record PerformanceMetrics : Type := mkMetrics {
  fps : list R;
  calculationTime : list R;
  renderTime : list R;
  memoryUsage : list R
}.

Record instance : Type := mk {
  metrics : PerformanceMetrics;
  maxSamples : nat;
  _lastFrameTime : R;
  _frameCount : R;
  _frameStartTime : R;
  _calculationStartTime : R;
  _renderStartTime : R
}.

(** [arr.push(x); if (arr.length > maxSamples) arr.shift();] *)
Definition push_shift (maxSamples : nat) (arr : list R) (x : R) : list R :=
  let arr' := arr ++ [x] in
  if Nat.ltb maxSamples (List.length arr') then tl arr' else arr'.

Definition new (now : R) : instance :=
  mk (mkMetrics [] [] [] []) 60 now 0 0 0 0.

Definition startFrame (self : instance) (now : R) : instance :=
  mk (metrics self) (maxSamples self) (_lastFrameTime self)
     (_frameCount self) now 0 0.

Definition startCalculation (self : instance) (now : R) : instance :=
  mk (metrics self) (maxSamples self) (_lastFrameTime self)
     (_frameCount self) (_frameStartTime self) now (_renderStartTime self).

(** [if (this._calculationStartTime)]: a number is truthy unless it is
    zero. *)
Definition endCalculation (self : instance) (now : R) : instance :=
  if _calculationStartTime self === 0 then self
  else
    let calcTime := now - _calculationStartTime self in
    mk (mkMetrics (fps (metrics self))
          (push_shift (maxSamples self)
             (calculationTime (metrics self)) calcTime)
          (renderTime (metrics self))
          (memoryUsage (metrics self)))
       (maxSamples self) (_lastFrameTime self) (_frameCount self)
       (_frameStartTime self) (_calculationStartTime self)
       (_renderStartTime self).

Definition startRender (self : instance) (now : R) : instance :=
  mk (metrics self) (maxSamples self) (_lastFrameTime self)
     (_frameCount self) (_frameStartTime self)
     (_calculationStartTime self) now.

Definition endFrame (self : instance) (now : R) (memory : option R)
  : instance :=
  let currentTime := now in
  let frameDelta := currentTime - _lastFrameTime self in
  let frameCount := _frameCount self + 1 in
  let full := frameDelta >=? 1000 in
  let fps' :=
    if full
    then push_shift (maxSamples self) (fps (metrics self))
           (frameCount * 1000 / frameDelta)
    else fps (metrics self) in
  let renderTime' :=
    if _renderStartTime self === 0 then renderTime (metrics self)
    else push_shift (maxSamples self) (renderTime (metrics self))
           (currentTime - _renderStartTime self) in
  let memoryUsage' :=
    match memory with
    | Some usedJSHeapSize =>
        push_shift (maxSamples self) (memoryUsage (metrics self))
          usedJSHeapSize
    | None => memoryUsage (metrics self)
    end in
  mk (mkMetrics fps' (calculationTime (metrics self)) renderTime'
        memoryUsage')
     (maxSamples self)
     (if full then currentTime else _lastFrameTime self)
     (if full then 0 else frameCount)
     (_frameStartTime self) (_calculationStartTime self)
     (_renderStartTime self).

(** The calls a client can make, and a run of them. *)
Inductive call : Type :=
| StartFrame (now : R)
| StartCalculation (now : R)
| EndCalculation (now : R)
| StartRender (now : R)
| EndFrame (now : R) (memory : option R).

Definition step (self : instance) (c : call) : instance :=
  match c with
  | StartFrame now => startFrame self now
  | StartCalculation now => startCalculation self now
  | EndCalculation now => endCalculation self now
  | StartRender now => startRender self now
  | EndFrame now memory => endFrame self now memory
  end.

Definition run (self : instance) (calls : list call) : instance :=
  fold_left step calls self.

End PerformanceMonitor.

(** The last [n] elements of a list. *)
Definition lastn {A : Type} (n : nat) (l : list A) : list A :=
  skipn (List.length l - n) l.

(** What every call preserves: the bound of the constructor and four
    windows within it. *)
Definition windows_bounded (self : PerformanceMonitor.instance) : Prop :=
  PerformanceMonitor.maxSamples self = 60%nat
  /\ (List.length (PerformanceMonitor.fps (PerformanceMonitor.metrics self))
      <= 60)%nat
  /\ (List.length
        (PerformanceMonitor.calculationTime (PerformanceMonitor.metrics self))
      <= 60)%nat
  /\ (List.length
        (PerformanceMonitor.renderTime (PerformanceMonitor.metrics self))
      <= 60)%nat
  /\ (List.length
        (PerformanceMonitor.memoryUsage (PerformanceMonitor.metrics self))
      <= 60)%nat.

(** One measured calculation: [startCalculation] at [fst p],
    [endCalculation] at [snd p]. *)
Definition measure (self : PerformanceMonitor.instance) (p : R * R)
  : PerformanceMonitor.instance :=
  PerformanceMonitor.endCalculation
    (PerformanceMonitor.startCalculation self (fst p)) (snd p).

(** Frames ended one after the other, each with its clock reading and
    memory reading. *)
Definition endFrames (self : PerformanceMonitor.instance)
    (frames : list (R * option R)) : PerformanceMonitor.instance :=
  fold_left (fun m f => PerformanceMonitor.endFrame m (fst f) (snd f))
    frames self.

(** ** Example paths *)

(** A path that stays at [p] for [duration], as a [CompositePath]. *)
Definition hover (p : Vec2.t) (duration : R) : FlightPath.instance :=
  CompositePath.new duration (fun _ => Ok p) (fun _ => Ok Vec2.zero).

(** * Properties *)

(** ** Comparisons *)

Lemma Rltb_true (a b : R) : a < b -> (a <? b) = true.
Proof. intros H. unfold Rltb. destruct (Rlt_dec a b); [reflexivity | contradiction]. Qed.

Lemma Rltb_false (a b : R) : b <= a -> (a <? b) = false.
Proof. intros H. unfold Rltb. destruct (Rlt_dec a b); [lra | reflexivity]. Qed.

Lemma Rleb_true (a b : R) : a <= b -> (a <=? b) = true.
Proof. intros H. unfold Rleb. destruct (Rle_dec a b); [reflexivity | contradiction]. Qed.

Lemma Rleb_false (a b : R) : b < a -> (a <=? b) = false.
Proof. intros H. unfold Rleb. destruct (Rle_dec a b); [lra | reflexivity]. Qed.

Lemma Reqb_true (a b : R) : a = b -> (a === b) = true.
Proof. intros H. unfold Reqb. destruct (Req_dec_T a b); [reflexivity | contradiction]. Qed.

Lemma Reqb_false (a b : R) : a <> b -> (a === b) = false.
Proof. intros H. unfold Reqb. destruct (Req_dec_T a b); [contradiction | reflexivity]. Qed.

Lemma Rltb_spec (a b : R) : (a <? b) = true <-> a < b.
Proof.
  split; [| apply Rltb_true].
  unfold Rltb. destruct (Rlt_dec a b); [trivial | discriminate].
Qed.

Lemma Rleb_spec (a b : R) : (a <=? b) = true <-> a <= b.
Proof.
  split; [| apply Rleb_true].
  unfold Rleb. destruct (Rle_dec a b); [trivial | discriminate].
Qed.

Lemma Reqb_spec (a b : R) : (a === b) = true <-> a = b.
Proof.
  split; [| apply Reqb_true].
  unfold Reqb. destruct (Req_dec_T a b); [trivial | discriminate].
Qed.

(** ** Vectors *)

Lemma Vec2_eq (a b : Vec2.t) :
  Vec2.x a = Vec2.x b -> Vec2.y a = Vec2.y b -> a = b.
Proof. destruct a, b; cbn; intros -> ->; reflexivity. Qed.

Lemma sum_squares_nonneg (a b : R) : 0 <= a * a + b * b.
Proof. nra. Qed.

Lemma length_nonneg (a : Vec2.t) : 0 <= Vec2.length a.
Proof. apply sqrt_pos. Qed.

Lemma length_zero_iff (a : Vec2.t) : Vec2.length a = 0 <-> a = Vec2.zero.
Proof.
  split.
  - intros H. apply sqrt_eq_0 in H; [| apply sum_squares_nonneg].
    apply Vec2_eq; cbn; nra.
  - intros ->. unfold Vec2.length; cbn.
    replace (0 * 0 + 0 * 0) with 0 by ring. apply sqrt_0.
Qed.

Lemma length_mul (a : Vec2.t) (s : R) :
  0 <= s -> Vec2.length (Vec2.mul a s) = Vec2.length a * s.
Proof.
  intros Hs. unfold Vec2.length, Vec2.mul; cbn.
  replace (Vec2.x a * s * (Vec2.x a * s) + Vec2.y a * s * (Vec2.y a * s))
    with ((Vec2.x a * Vec2.x a + Vec2.y a * Vec2.y a) * (s * s)) by ring.
  rewrite sqrt_mult_alt by apply sum_squares_nonneg.
  rewrite (sqrt_square s Hs). reflexivity.
Qed.

(** Dividing a non-zero vector by its length succeeds and gives a unit
    vector. *)
Lemma div_length (a : Vec2.t) :
  Vec2.length a <> 0 ->
  exists d, Vec2.div a (Vec2.length a) = Ok d
            /\ Vec2.length d = 1
            /\ a = Vec2.mul d (Vec2.length a).
Proof.
  intros Hne.
  exists (Vec2.mk (Vec2.x a / Vec2.length a) (Vec2.y a / Vec2.length a)).
  split; [| split].
  - unfold Vec2.div. rewrite Reqb_false by assumption. reflexivity.
  - pose proof (length_nonneg a) as Hpos.
    unfold Vec2.length at 1; cbn.
    apply sqrt_lem_1; [apply sum_squares_nonneg | lra |].
    assert (Hsq : Vec2.length a * Vec2.length a
                  = Vec2.x a * Vec2.x a + Vec2.y a * Vec2.y a)
      by (apply sqrt_sqrt, sum_squares_nonneg).
    field_simplify; [| assumption].
    rewrite <- Rmult_1_l at 1.
    replace (Vec2.x a ^ 2 + Vec2.y a ^ 2) with (Vec2.length a * Vec2.length a)
      by (rewrite Hsq; ring).
    field. assumption.
  - apply Vec2_eq; cbn; field; assumption.
Qed.

Lemma mul_zero_r (a : Vec2.t) : Vec2.mul a 0 = Vec2.zero.
Proof. apply Vec2_eq; cbn; ring. Qed.

Lemma add_zero_r (a : Vec2.t) : Vec2.add a Vec2.zero = a.
Proof. apply Vec2_eq; cbn; ring. Qed.

Lemma sub_zero_r (a : Vec2.t) : Vec2.sub a Vec2.zero = a.
Proof. apply Vec2_eq; cbn; ring. Qed.

Lemma sub_self_zero (a b : Vec2.t) :
  Vec2.length (Vec2.sub a b) = 0 <-> a = b.
Proof.
  rewrite length_zero_iff. split.
  - intros H. apply (f_equal Vec2.x) in H as Hx. apply (f_equal Vec2.y) in H as Hy.
    cbn in Hx, Hy. apply Vec2_eq; lra.
  - intros ->. apply Vec2_eq; cbn; ring.
Qed.

(** [normOrZero] never throws. *)
Lemma normOrZero_total (a : Vec2.t) :
  exists n, Vec2.normOrZero a = Ok n
            /\ a = Vec2.mul n (Vec2.length a)
            /\ (Vec2.length a <> 0 -> Vec2.length n = 1).
Proof.
  unfold Vec2.normOrZero.
  destruct (Req_dec_T (Vec2.length a) 0) as [H0 | Hne].
  - rewrite (Reqb_true _ _ H0). exists Vec2.zero. split; [reflexivity |].
    split; [| contradiction].
    rewrite H0, mul_zero_r. apply length_zero_iff, H0.
  - rewrite (Reqb_false _ _ Hne).
    destruct (div_length a Hne) as (d & Hd & Hlen & Ha).
    exists d. auto.
Qed.

(** ** Vec2: adding and subtracting the same vector *)

(** C9, over the real numbers: [(a.add(b)).sub(b).equals(a)] is true for
    all vectors. *)
Theorem add_sub_equals_over_reals (a b : Vec2.t) :
  Vec2.equals (Vec2.sub (Vec2.add a b) b) a = true.
Proof.
  unfold Vec2.equals; cbn.
  rewrite !Reqb_true by ring. reflexivity.
Qed.

(** Over binary64 numbers it is not: [1 + 2^53] rounds to [2^53], so with
    [a = (1, 0)] and [b = (2^53, 0)], both with finite components,
    [(a.add(b)).sub(b)] is [(0, 0)] and [equals(a)] returns [false]. *)
Lemma add_sub_equals_false_in_binary64 :
  exists a b,
    Double.Vec2.new PrimFloat.one PrimFloat.zero = Ok a
    /\ Double.Vec2.new Double.two_pow_53 PrimFloat.zero = Ok b
    /\ Double.Vec2.add a b = Ok b
    /\ Double.add_sub_equals a b = Ok false.
Proof.
  exists (Double.Vec2.mk PrimFloat.one PrimFloat.zero).
  exists (Double.Vec2.mk Double.two_pow_53 PrimFloat.zero).
  repeat split; reflexivity.
Qed.

(** And the sum of two vectors with finite components need not have finite
    components, in which case [add] throws. *)
Lemma add_overflow_throws_in_binary64 :
  exists a,
    Double.Vec2.new Double.MAX_VALUE PrimFloat.zero = Ok a
    /\ Double.Vec2.add a a = Throw CoordinatesNotFinite
    /\ Double.add_sub_equals a a = Throw CoordinatesNotFinite.
Proof.
  exists (Double.Vec2.mk Double.MAX_VALUE PrimFloat.zero).
  repeat split; reflexivity.
Qed.

(** ** BreakFlightPath *)

(** With a positive [a_max] the constructor succeeds, and its fields are the
    ones the constructor computes. *)
Lemma BreakFlightPath_new_ok (p_start : Vec2.t) (a_max : R) (initial_v : Vec2.t) :
  0 < a_max ->
  exists n,
    Vec2.normOrZero initial_v = Ok n
    /\ BreakFlightPath.new p_start a_max initial_v
       = Ok (BreakFlightPath.mk
               (Vec2.length initial_v / a_max)
               (0.5 * a_max * (Vec2.length initial_v / a_max)
                * (Vec2.length initial_v / a_max))
               n
               (Vec2.add p_start
                  (Vec2.mul n (0.5 * a_max * (Vec2.length initial_v / a_max)
                               * (Vec2.length initial_v / a_max))))
               a_max
               (Vec2.length initial_v / a_max)).
Proof.
  intros Ha.
  destruct (normOrZero_total initial_v) as (n & Hn & _).
  exists n. split; [assumption |].
  unfold BreakFlightPath.new.
  rewrite Rleb_false by assumption. rewrite Hn. reflexivity.
Qed.

Lemma time_to_break_nonneg (a_max : R) (initial_v : Vec2.t) :
  0 < a_max -> 0 <= Vec2.length initial_v / a_max.
Proof.
  intros Ha. pose proof (length_nonneg initial_v).
  apply Rmult_le_pos; [assumption |].
  left. apply Rinv_0_lt_compat. assumption.
Qed.

(** C10: the velocity of a braking path is at every time [t >= 0] a
    non-negative multiple of [normOrZero(initial_v)]: it points along the
    initial velocity (or is zero) and never reverses. *)
Theorem BreakFlightPath_velocity_along_initial_v
    (p_start : Vec2.t) (a_max : R) (initial_v : Vec2.t) (t : R) :
  0 < a_max -> 0 <= t ->
  exists self n k,
    BreakFlightPath.new p_start a_max initial_v = Ok self
    /\ Vec2.normOrZero initial_v = Ok n
    /\ 0 <= k
    /\ BreakFlightPath.rocketVelocity self t = Ok (Vec2.mul n k).
Proof.
  intros Ha Ht.
  destruct (BreakFlightPath_new_ok p_start a_max initial_v Ha) as (n & Hn & Hnew).
  pose proof (time_to_break_nonneg a_max initial_v Ha) as Httb.
  eexists. exists n.
  destruct (Rle_dec t (Vec2.length initial_v / a_max)) as [Hle | Hgt].
  - exists (a_max * (Vec2.length initial_v / a_max - t)).
    repeat split; [exact Hnew | exact Hn | nra |].
    unfold BreakFlightPath.rocketVelocity; cbn.
    rewrite Rltb_false by assumption. rewrite Rleb_true by assumption.
    reflexivity.
  - exists 0.
    repeat split; [exact Hnew | exact Hn | lra |].
    unfold BreakFlightPath.rocketVelocity; cbn.
    rewrite Rltb_false by assumption. rewrite Rleb_false by lra.
    rewrite mul_zero_r. reflexivity.
Qed.

Lemma BreakFlightPath_velocity_along_initial_v_witness :
  exists self n k,
    BreakFlightPath.new Vec2.zero 10 (Vec2.mk 10 0) = Ok self
    /\ Vec2.normOrZero (Vec2.mk 10 0) = Ok n
    /\ 0 <= k
    /\ BreakFlightPath.rocketVelocity self (1 / 2) = Ok (Vec2.mul n k).
Proof.
  apply (BreakFlightPath_velocity_along_initial_v
           Vec2.zero 10 (Vec2.mk 10 0) (1 / 2)); lra.
Defined.

(** The same holds of [BreakFlightPath] in trajectory.js. *)
Lemma Legacy_BreakFlightPath_velocity_along_initial_v
    (p_start : Vec2.t) (a_max : R) (initial_v : Vec2.t) (t : R) :
  0 < a_max ->
  exists self n k,
    Legacy.BreakFlightPath.new p_start a_max initial_v = Some self
    /\ Legacy.normOrZero initial_v = Some n
    /\ 0 <= k
    /\ Legacy.BreakFlightPath.rocketVelocity self t = Vec2.mul n k.
Proof.
  intros Ha.
  pose proof (time_to_break_nonneg a_max initial_v Ha) as Httb.
  assert (Hn : exists n, Legacy.normOrZero initial_v = Some n).
  { unfold Legacy.normOrZero, Legacy.div.
    destruct (Vec2.length initial_v === 0); eauto. }
  destruct Hn as (n & Hn).
  unfold Legacy.BreakFlightPath.new.
  rewrite Reqb_false by lra. rewrite Hn.
  eexists. exists n.
  destruct (Rle_dec t (Vec2.length initial_v / a_max)) as [Hle | Hgt].
  - exists (a_max * (Vec2.length initial_v / a_max - t)).
    repeat split; [nra |].
    unfold Legacy.BreakFlightPath.rocketVelocity; cbn.
    rewrite Rleb_true by assumption. reflexivity.
  - exists 0.
    repeat split; [lra |].
    unfold Legacy.BreakFlightPath.rocketVelocity; cbn.
    rewrite Rleb_false by lra. rewrite mul_zero_r. reflexivity.
Qed.

(** ** combinePath *)

(** C6: the duration of a combined path is the sum of the two durations,
    and at every [t >= 0] its position and velocity are those of [path1] at
    [t] when [t <= path1.getMaxTime()], and those of [path2] at
    [t - path1.getMaxTime()] otherwise. *)
Theorem combinePath_delegates (path1 path2 : FlightPath.instance) (t : R) :
  0 <= t ->
  FlightPath.getMaxTime (combinePath path1 path2)
  = FlightPath.getMaxTime path1 + FlightPath.getMaxTime path2
  /\ (t <= FlightPath.getMaxTime path1 ->
      FlightPath.rocketPosition (combinePath path1 path2) t
      = FlightPath.rocketPosition path1 t
      /\ FlightPath.rocketVelocity (combinePath path1 path2) t
         = FlightPath.rocketVelocity path1 t)
  /\ (FlightPath.getMaxTime path1 < t ->
      FlightPath.rocketPosition (combinePath path1 path2) t
      = FlightPath.rocketPosition path2 (t - FlightPath.getMaxTime path1)
      /\ FlightPath.rocketVelocity (combinePath path1 path2) t
         = FlightPath.rocketVelocity path2 (t - FlightPath.getMaxTime path1)).
Proof.
  intros Ht. split; [reflexivity |]. split; intros Hcase; cbn.
  - rewrite Rltb_false by assumption. rewrite Rleb_true by assumption. auto.
  - rewrite Rltb_false by assumption. rewrite Rleb_false by assumption. auto.
Qed.

(** Staying at the origin for 1, then at [(1, 0)] for 2, queried at 2. *)
Lemma combinePath_delegates_witness :
  let path1 := hover Vec2.zero 1 in
  let path2 := hover (Vec2.mk 1 0) 2 in
  FlightPath.getMaxTime (combinePath path1 path2)
  = FlightPath.getMaxTime path1 + FlightPath.getMaxTime path2
  /\ (2 <= FlightPath.getMaxTime path1 ->
      FlightPath.rocketPosition (combinePath path1 path2) 2
      = FlightPath.rocketPosition path1 2
      /\ FlightPath.rocketVelocity (combinePath path1 path2) 2
         = FlightPath.rocketVelocity path1 2)
  /\ (FlightPath.getMaxTime path1 < 2 ->
      FlightPath.rocketPosition (combinePath path1 path2) 2
      = FlightPath.rocketPosition path2 (2 - FlightPath.getMaxTime path1)
      /\ FlightPath.rocketVelocity (combinePath path1 path2) 2
         = FlightPath.rocketVelocity path2 (2 - FlightPath.getMaxTime path1)).
Proof.
  apply (combinePath_delegates (hover Vec2.zero 1) (hover (Vec2.mk 1 0) 2) 2).
  lra.
Defined.

(** The same holds of [combinePath] in trajectory.js, which does not
    reject negative times. *)
Lemma Legacy_combinePath_delegates (path1 path2 : Legacy.FlightPath.instance) (t : R) :
  Legacy.FlightPath.t_max (Legacy.combinePath path1 path2)
  = Legacy.FlightPath.t_max path1 + Legacy.FlightPath.t_max path2
  /\ (t <= Legacy.FlightPath.t_max path1 ->
      Legacy.FlightPath.rocketPosition (Legacy.combinePath path1 path2) t
      = Legacy.FlightPath.rocketPosition path1 t
      /\ Legacy.FlightPath.rocketVelocity (Legacy.combinePath path1 path2) t
         = Legacy.FlightPath.rocketVelocity path1 t)
  /\ (Legacy.FlightPath.t_max path1 < t ->
      Legacy.FlightPath.rocketPosition (Legacy.combinePath path1 path2) t
      = Legacy.FlightPath.rocketPosition path2 (t - Legacy.FlightPath.t_max path1)
      /\ Legacy.FlightPath.rocketVelocity (Legacy.combinePath path1 path2) t
         = Legacy.FlightPath.rocketVelocity path2 (t - Legacy.FlightPath.t_max path1)).
Proof.
  split; [reflexivity |]. split; intros Hcase; cbn.
  - rewrite Rleb_true by assumption. auto.
  - rewrite Rleb_false by assumption. auto.
Qed.

(** ** The alignment solve *)

(** C7: with [delta] the target relative to the position after cancelling,
    in the basis [(u, v0_perp_u)], [inner] the discriminant and [q] the
    root, [calculateAlignmentTime] returns [undefined] exactly when the
    axial speed is zero, or [inner < 0], or [q < 0], or
    [v0_parallel_len * q < 0]; otherwise it returns [q]. *)
Theorem calculateAlignmentTime_undefined_iff
    (p_end pos_after_cancel_v0 : Vec2.t) (v0_parallel_len : R)
    (u v0_perp_u : Vec2.t) (a_max : R) :
  let delta_x := Vec2.dot p_end u - Vec2.dot pos_after_cancel_v0 u in
  let delta_y :=
    Vec2.dot p_end v0_perp_u - Vec2.dot pos_after_cancel_v0 v0_perp_u in
  let inner :=
    (a_max * delta_x) ^ 2 + 2 * a_max * v0_parallel_len ^ 2 * delta_y in
  let q := (- a_max * delta_x + sqrt inner) / (- a_max * v0_parallel_len) in
  let infeasible :=
    v0_parallel_len = 0 \/ inner < 0 \/ q < 0 \/ v0_parallel_len * q < 0 in
  (infeasible
   /\ InitialVFlightPath.calculateAlignmentTime
        p_end pos_after_cancel_v0 v0_parallel_len u v0_perp_u a_max = None)
  \/ (~ infeasible
      /\ InitialVFlightPath.calculateAlignmentTime
           p_end pos_after_cancel_v0 v0_parallel_len u v0_perp_u a_max
         = Some q).
Proof.
  intros delta_x delta_y inner q infeasible.
  unfold InitialVFlightPath.calculateAlignmentTime.
  cbn [Vec2.x Vec2.y Vec2.sub].
  fold delta_x delta_y.
  replace ((a_max * delta_x) ^ 2
           + 2 * a_max * v0_parallel_len * v0_parallel_len * delta_y)
    with inner by (unfold inner; ring).
  fold q.
  destruct (Req_dec_T v0_parallel_len 0) as [H0 | H0].
  { rewrite (Reqb_true _ _ H0). left. split; [left; exact H0 | reflexivity]. }
  rewrite (Reqb_false _ _ H0).
  destruct (Rlt_dec inner 0) as [Hi | Hi].
  { rewrite (Rltb_true _ _ Hi). left. split; [right; left; exact Hi | reflexivity]. }
  apply Rnot_lt_le in Hi. rewrite (Rltb_false _ _ Hi).
  destruct (Rlt_dec q 0) as [Hq | Hq].
  { rewrite (Rltb_true _ _ Hq). left.
    split; [right; right; left; exact Hq | reflexivity]. }
  apply Rnot_lt_le in Hq. rewrite (Rltb_false _ _ Hq).
  destruct (Rlt_dec (v0_parallel_len * q) 0) as [Hx | Hx].
  { rewrite (Rltb_true _ _ Hx). left.
    split; [right; right; right; exact Hx | reflexivity]. }
  apply Rnot_lt_le in Hx. rewrite (Rltb_false _ _ Hx).
  right. split; [| reflexivity].
  unfold infeasible. intros [H | [H | [H | H]]]; lra.
Qed.

(** [calculateAlignmentTime] of trajectory.js is the same function. *)
Lemma Legacy_calculateAlignmentTime_same
    (p_end pos_after_cancel_v0 : Vec2.t) (v0_parallel_len : R)
    (u v0_perp_u : Vec2.t) (a_max : R) :
  Legacy.InitialVFlightPath.calculateAlignmentTime
    p_end pos_after_cancel_v0 v0_parallel_len u v0_perp_u a_max
  = InitialVFlightPath.calculateAlignmentTime
      p_end pos_after_cancel_v0 v0_parallel_len u v0_perp_u a_max.
Proof. reflexivity. Qed.

(** ** LineFlightPath *)

Lemma distance_pos (p_start p_end : Vec2.t) :
  p_start <> p_end -> 0 < Vec2.length (Vec2.sub p_end p_start).
Proof.
  intros Hne. pose proof (length_nonneg (Vec2.sub p_end p_start)) as Hpos.
  destruct Hpos as [Hpos | Hzero]; [assumption |].
  symmetry in Hzero. apply sub_self_zero in Hzero. congruence.
Qed.

(** Between two distinct points and with a positive [a_max] the constructor
    succeeds; the direction is a unit vector. *)
Lemma LineFlightPath_new_ok (p_start p_end : Vec2.t) (a_max : R) :
  p_start <> p_end -> 0 < a_max ->
  exists direction,
    Vec2.length direction = 1
    /\ Vec2.sub p_end p_start
       = Vec2.mul direction (Vec2.length (Vec2.sub p_end p_start))
    /\ LineFlightPath.new p_start p_end a_max
       = Ok (LineFlightPath.mk p_start p_end a_max
               (Vec2.length (Vec2.sub p_end p_start)) direction
               (2 * sqrt (Vec2.length (Vec2.sub p_end p_start) / a_max))).
Proof.
  intros Hne Ha. pose proof (distance_pos p_start p_end Hne) as Hd.
  destruct (div_length (Vec2.sub p_end p_start)) as (d & Hdiv & Hlen & Hdd);
    [lra |].
  exists d. split; [assumption |]. split; [assumption |].
  unfold LineFlightPath.new.
  rewrite Rleb_false by assumption.
  rewrite Reqb_false by lra.
  rewrite Hdiv. reflexivity.
Qed.

Lemma line_t_max_pos (distance a_max : R) :
  0 < distance -> 0 < a_max -> 0 < 2 * sqrt (distance / a_max).
Proof.
  intros Hd Ha.
  assert (0 < sqrt (distance / a_max)); [| lra].
  apply sqrt_lt_R0. apply Rdiv_lt_0_compat; assumption.
Qed.

(** C5: a line path between two distinct points starts at [p_start] and
    ends at [p_end], both at rest, lasts [2 * sqrt (distance / a_max)], and
    at half time its speed is [a_max * (t_max / 2)]. *)
Theorem LineFlightPath_rest_to_rest (p_start p_end : Vec2.t) (a_max : R) :
  p_start <> p_end -> 0 < a_max ->
  exists self v_mid,
    LineFlightPath.new p_start p_end a_max = Ok self
    /\ LineFlightPath.getMaxTime self
       = 2 * sqrt (Vec2.length (Vec2.sub p_end p_start) / a_max)
    /\ LineFlightPath.rocketPosition self 0 = Ok p_start
    /\ LineFlightPath.rocketPosition self (LineFlightPath.getMaxTime self)
       = Ok p_end
    /\ LineFlightPath.rocketVelocity self 0 = Ok Vec2.zero
    /\ LineFlightPath.rocketVelocity self (LineFlightPath.getMaxTime self)
       = Ok Vec2.zero
    /\ LineFlightPath.rocketVelocity self (LineFlightPath.getMaxTime self / 2)
       = Ok v_mid
    /\ Vec2.length v_mid = a_max * (LineFlightPath.getMaxTime self / 2).
Proof.
  intros Hne Ha.
  destruct (LineFlightPath_new_ok p_start p_end a_max Hne Ha)
    as (d & Hlen & _ & Hnew).
  pose proof (distance_pos p_start p_end Hne) as Hd.
  pose proof (line_t_max_pos _ _ Hd Ha) as Ht.
  set (distance := Vec2.length (Vec2.sub p_end p_start)) in *.
  set (T := 2 * sqrt (distance / a_max)) in *.
  eexists. exists (Vec2.mul d (a_max * (T / 2))).
  split; [exact Hnew |].
  unfold LineFlightPath.getMaxTime, LineFlightPath.rocketPosition,
    LineFlightPath.rocketVelocity.
  cbn [LineFlightPath.t_max LineFlightPath.distance LineFlightPath.direction
       LineFlightPath.p_start LineFlightPath.p_end LineFlightPath.a_max].
  split; [reflexivity |].
  rewrite (Rltb_false 0 0) by lra.
  rewrite (Rltb_false T 0) by lra.
  rewrite (Rltb_false (T / 2) 0) by lra.
  rewrite (Reqb_false distance 0) by lra.
  rewrite (Rleb_true 0 (T / 2)) by lra.
  rewrite (Rleb_false T (T / 2)) by lra.
  rewrite (Rleb_true T T) by lra.
  rewrite (Rleb_true (T / 2) (T / 2)) by lra.
  repeat split.
  - f_equal. apply Vec2_eq; cbn; ring.
  - f_equal. apply Vec2_eq; cbn; ring.
  - f_equal. apply Vec2_eq; cbn; ring.
  - f_equal. apply Vec2_eq; cbn; field.
  - rewrite length_mul by nra. rewrite Hlen. ring.
Qed.

Lemma unit_x_ne_zero : Vec2.zero <> Vec2.mk 1 0.
Proof. intros H. apply (f_equal Vec2.x) in H. cbn in H. lra. Qed.

Lemma LineFlightPath_rest_to_rest_witness :
  exists self v_mid,
    LineFlightPath.new Vec2.zero (Vec2.mk 1 0) 1 = Ok self
    /\ LineFlightPath.getMaxTime self
       = 2 * sqrt (Vec2.length (Vec2.sub (Vec2.mk 1 0) Vec2.zero) / 1)
    /\ LineFlightPath.rocketPosition self 0 = Ok Vec2.zero
    /\ LineFlightPath.rocketPosition self (LineFlightPath.getMaxTime self)
       = Ok (Vec2.mk 1 0)
    /\ LineFlightPath.rocketVelocity self 0 = Ok Vec2.zero
    /\ LineFlightPath.rocketVelocity self (LineFlightPath.getMaxTime self)
       = Ok Vec2.zero
    /\ LineFlightPath.rocketVelocity self (LineFlightPath.getMaxTime self / 2)
       = Ok v_mid
    /\ Vec2.length v_mid = 1 * (LineFlightPath.getMaxTime self / 2).
Proof.
  apply (LineFlightPath_rest_to_rest Vec2.zero (Vec2.mk 1 0) 1);
    [exact unit_x_ne_zero | lra].
Defined.

(** ** InitialVFlightPath: start and end coincide *)

Lemma sub_self (a : Vec2.t) : Vec2.length (Vec2.sub a a) = 0.
Proof. apply sub_self_zero. reflexivity. Qed.

(** C8: when the start is the target, whatever the initial velocity, the
    path ends at rest at [p_start], and from [t_max] on the position is
    [p_start]. *)
Theorem InitialVFlightPath_zero_distance
    (p_start : Vec2.t) (a_max : R) (v0 : Vec2.t) :
  0 < a_max ->
  exists self,
    InitialVFlightPath.new p_start p_start a_max v0 = Ok self
    /\ InitialVFlightPath.rocketPosition self (InitialVFlightPath.getMaxTime self)
       = Ok p_start
    /\ InitialVFlightPath.rocketVelocity self (InitialVFlightPath.getMaxTime self)
       = Ok Vec2.zero
    /\ forall t, InitialVFlightPath.getMaxTime self <= t ->
                 InitialVFlightPath.rocketPosition self t = Ok p_start.
Proof.
  intros Ha.
  destruct (BreakFlightPath_new_ok p_start a_max v0 Ha) as (n & Hn & Hnew).
  pose proof (time_to_break_nonneg a_max v0 Ha) as Httb.
  unfold InitialVFlightPath.new.
  rewrite Rleb_false by assumption.
  rewrite (Reqb_true _ 0 (sub_self p_start)).
  rewrite Hnew. cbn [bind].
  eexists. split; [reflexivity |].
  set (T := Vec2.length v0 / a_max) in *.
  unfold InitialVFlightPath.getMaxTime, BreakFlightPath.getMaxTime.
  cbn [InitialVFlightPath.t_max BreakFlightPath.t_max].
  match goal with
  | |- context [InitialVFlightPath.rocketPosition ?s _] => set (self := s)
  end.
  assert (Hpinned : forall t, T <= t ->
            InitialVFlightPath.rocketPosition self t = Ok p_start).
  { intros t Ht.
    unfold self, InitialVFlightPath.rocketPosition,
      BreakFlightPath.rocketPosition.
    cbn [InitialVFlightPath.implementation CompositePath.new
         FlightPath.rocketPosition BreakFlightPath.time_to_break
         BreakFlightPath.t_max].
    rewrite Rltb_false by lra.
    rewrite (Rleb_true T t) by assumption.
    destruct (Rle_dec t T) as [Hle | Hgt].
    - rewrite (Rleb_true t T Hle). reflexivity.
    - rewrite (Rleb_false t T) by lra. reflexivity. }
  split; [apply Hpinned; lra |]. split; [| exact Hpinned].
  unfold self, InitialVFlightPath.rocketVelocity,
    BreakFlightPath.rocketVelocity.
  cbn [InitialVFlightPath.implementation CompositePath.new
       FlightPath.rocketVelocity BreakFlightPath.time_to_break
       BreakFlightPath.norm BreakFlightPath.a_max].
  rewrite Rltb_false by assumption. rewrite Rleb_true by lra.
  f_equal. apply Vec2_eq; cbn; ring.
Qed.

Lemma InitialVFlightPath_zero_distance_witness :
  exists self,
    InitialVFlightPath.new Vec2.zero Vec2.zero 10 (Vec2.mk 5 5) = Ok self
    /\ InitialVFlightPath.rocketPosition self (InitialVFlightPath.getMaxTime self)
       = Ok Vec2.zero
    /\ InitialVFlightPath.rocketVelocity self (InitialVFlightPath.getMaxTime self)
       = Ok Vec2.zero
    /\ forall t, InitialVFlightPath.getMaxTime self <= t ->
                 InitialVFlightPath.rocketPosition self t = Ok Vec2.zero.
Proof.
  apply (InitialVFlightPath_zero_distance Vec2.zero 10 (Vec2.mk 5 5)). lra.
Defined.

(** ** Terminal states *)

(** A braking path reaches its end position, at rest, at [t_max]. *)
Lemma BreakFlightPath_end_state (p_start : Vec2.t) (a_max : R) (initial_v : Vec2.t) :
  0 < a_max ->
  exists self,
    BreakFlightPath.new p_start a_max initial_v = Ok self
    /\ BreakFlightPath.getMaxTime self = Vec2.length initial_v / a_max
    /\ BreakFlightPath.rocketPosition self (BreakFlightPath.getMaxTime self)
       = Ok (BreakFlightPath.getEndPosition self)
    /\ BreakFlightPath.rocketVelocity self (BreakFlightPath.getMaxTime self)
       = Ok Vec2.zero.
Proof.
  intros Ha.
  destruct (BreakFlightPath_new_ok p_start a_max initial_v Ha) as (n & Hn & Hnew).
  pose proof (time_to_break_nonneg a_max initial_v Ha) as Httb.
  eexists. split; [exact Hnew |]. split; [reflexivity |].
  unfold BreakFlightPath.rocketPosition, BreakFlightPath.rocketVelocity,
    BreakFlightPath.getMaxTime, BreakFlightPath.getEndPosition.
  cbn [BreakFlightPath.t_max BreakFlightPath.time_to_break BreakFlightPath.norm
       BreakFlightPath.a_max BreakFlightPath.p_end].
  rewrite Rltb_false by assumption. rewrite Rleb_true by lra.
  split; f_equal; apply Vec2_eq; cbn; ring.
Qed.

(** A braking path with no velocity to brake stays where it starts. *)
Lemma BreakFlightPath_at_rest (p_start : Vec2.t) (a_max : R) (initial_v : Vec2.t) :
  0 < a_max -> Vec2.length initial_v = 0 ->
  exists self,
    BreakFlightPath.new p_start a_max initial_v = Ok self
    /\ BreakFlightPath.getMaxTime self = 0
    /\ BreakFlightPath.getTimeToBreak self = 0
    /\ BreakFlightPath.getDistanceToBreak self = 0
    /\ BreakFlightPath.getEndPosition self = p_start.
Proof.
  intros Ha H0.
  destruct (BreakFlightPath_new_ok p_start a_max initial_v Ha) as (n & Hn & Hnew).
  eexists. split; [exact Hnew |].
  unfold BreakFlightPath.getMaxTime, BreakFlightPath.getTimeToBreak,
    BreakFlightPath.getDistanceToBreak, BreakFlightPath.getEndPosition.
  cbn [BreakFlightPath.t_max BreakFlightPath.time_to_break
       BreakFlightPath.dist_to_break BreakFlightPath.p_end].
  rewrite H0.
  repeat split; try (unfold Rdiv; ring).
  apply Vec2_eq; cbn; unfold Rdiv; ring.
Qed.

(** A line path between two distinct points reaches [p_end], at rest, at
    its positive [t_max]. *)
Lemma LineFlightPath_end_state (p_start p_end : Vec2.t) (a_max : R) :
  p_start <> p_end -> 0 < a_max ->
  exists self,
    LineFlightPath.new p_start p_end a_max = Ok self
    /\ 0 < LineFlightPath.getMaxTime self
    /\ LineFlightPath.rocketPosition self (LineFlightPath.getMaxTime self)
       = Ok p_end
    /\ LineFlightPath.rocketVelocity self (LineFlightPath.getMaxTime self)
       = Ok Vec2.zero.
Proof.
  intros Hne Ha.
  destruct (LineFlightPath_new_ok p_start p_end a_max Hne Ha)
    as (d & Hlen & _ & Hnew).
  pose proof (distance_pos p_start p_end Hne) as Hd.
  pose proof (line_t_max_pos _ _ Hd Ha) as Ht.
  eexists. split; [exact Hnew |].
  unfold LineFlightPath.getMaxTime, LineFlightPath.rocketPosition,
    LineFlightPath.rocketVelocity.
  cbn [LineFlightPath.t_max LineFlightPath.distance LineFlightPath.direction
       LineFlightPath.p_start LineFlightPath.p_end LineFlightPath.a_max].
  split; [exact Ht |].
  rewrite Rltb_false by lra.
  rewrite Reqb_false by lra.
  rewrite Rleb_false by lra.
  rewrite Rleb_true by lra.
  split; f_equal; apply Vec2_eq; cbn; field.
Qed.

(** ** DirectedInitialVFlightPath from rest *)

(** With [initial_v = 0] the directed path ends at the target at rest; its
    duration is zero only when it starts at the target. *)
Lemma DirectedInitialVFlightPath_from_rest (p_start p_end : Vec2.t) (a_max : R) :
  0 < a_max ->
  exists self,
    DirectedInitialVFlightPath.new p_start p_end a_max 0 = Ok self
    /\ 0 <= DirectedInitialVFlightPath.getMaxTime self
    /\ (DirectedInitialVFlightPath.getMaxTime self = 0 -> p_start = p_end)
    /\ DirectedInitialVFlightPath.rocketPosition self
         (DirectedInitialVFlightPath.getMaxTime self) = Ok p_end
    /\ DirectedInitialVFlightPath.rocketVelocity self
         (DirectedInitialVFlightPath.getMaxTime self) = Ok Vec2.zero.
Proof.
  intros Ha.
  unfold DirectedInitialVFlightPath.new.
  rewrite Rleb_false by assumption.
  destruct (Req_dec_T (Vec2.length (Vec2.sub p_end p_start)) 0) as [H0 | Hne].
  - (* the start is the target: brake a zero velocity in place *)
    rewrite (Reqb_true _ _ H0).
    apply sub_self_zero in H0. subst p_end.
    assert (Hz : Vec2.length (Vec2.mk 0 0) = 0) by (apply length_zero_iff; reflexivity).
    destruct (BreakFlightPath_end_state p_start a_max (Vec2.mk 0 0) Ha)
      as (b & Hb & HT & Hpos & Hvel).
    destruct (BreakFlightPath_at_rest p_start a_max (Vec2.mk 0 0) Ha Hz)
      as (b' & Hb' & HT0 & _ & _ & Hend).
    rewrite Hb in Hb'. injection Hb' as <-.
    rewrite Hb. cbn [bind].
    eexists. split; [reflexivity |].
    unfold DirectedInitialVFlightPath.getMaxTime,
      DirectedInitialVFlightPath.rocketPosition,
      DirectedInitialVFlightPath.rocketVelocity, FlightPath.getMaxTime.
    cbn [DirectedInitialVFlightPath.t_max
         DirectedInitialVFlightPath.implementation BreakFlightPath.upcast
         FlightPath.t_max FlightPath.rocketPosition FlightPath.rocketVelocity].
    unfold BreakFlightPath.getMaxTime in *.
    rewrite Hpos, Hvel, Hend, HT0.
    repeat split; auto. lra.
  - (* otherwise: the line path from the start itself *)
    rewrite (Reqb_false _ _ Hne).
    assert (Hdist : p_start <> p_end)
      by (intros ->; apply Hne, sub_self).
    destruct (div_length _ Hne) as (d & Hd & Hlen & Hdd).
    rewrite Hd. cbn [bind].
    assert (Hz : Vec2.length (Vec2.mul d 0) = 0)
      by (rewrite mul_zero_r; apply length_zero_iff; reflexivity).
    destruct (BreakFlightPath_at_rest p_start a_max (Vec2.mul d 0) Ha Hz)
      as (b & Hb & _ & Httb & Hdtb & _).
    rewrite Hb. cbn [bind].
    pose proof (distance_pos p_start p_end Hdist) as Hpos.
    rewrite (Rltb_false 0 0) by lra.
    rewrite Hdtb, Httb.
    rewrite Rltb_false by lra. cbn [orb].
    rewrite mul_zero_r, sub_zero_r.
    destruct (LineFlightPath_end_state p_start p_end a_max Hdist Ha)
      as (l & Hl & HT & Hp & Hv).
    rewrite Hl. cbn [bind].
    eexists. split; [reflexivity |].
    unfold DirectedInitialVFlightPath.getMaxTime,
      DirectedInitialVFlightPath.rocketPosition,
      DirectedInitialVFlightPath.rocketVelocity.
    cbn [DirectedInitialVFlightPath.t_max
         DirectedInitialVFlightPath.implementation LineFlightPath.upcast
         FlightPath.rocketPosition FlightPath.rocketVelocity].
    rewrite Rminus_0_r.
    repeat split; auto; lra.
Qed.

(** ** InitialVFlightPath: the fallback branch *)

(** C4: between two distinct points, with a positive [a_max] and an initial
    velocity whose perpendicular component is not zero, when
    [calculateAlignmentTime] returns [undefined] the constructed path still
    ends at [p_end] with velocity zero. *)
Theorem InitialVFlightPath_fallback_reaches_target
    (p_start p_end : Vec2.t) (a_max : R) (v0 : Vec2.t)
    (direction v0_perp_direction : Vec2.t)
    (v0_cancel_path : BreakFlightPath.instance) :
  p_start <> p_end ->
  0 < a_max ->
  Vec2.div (Vec2.sub p_end p_start) (Vec2.length (Vec2.sub p_end p_start))
  = Ok direction ->
  let v0_parallel_len := Vec2.dot v0 direction in
  let v0_parallel := Vec2.mul direction v0_parallel_len in
  let v0_perp := Vec2.sub v0 v0_parallel in
  Vec2.length v0_perp <> 0 ->
  Vec2.div v0_perp (Vec2.length v0_perp) = Ok v0_perp_direction ->
  BreakFlightPath.new p_start a_max v0_perp = Ok v0_cancel_path ->
  InitialVFlightPath.calculateAlignmentTime
    p_end
    (InitialVFlightPath.calculatePositionAfterCancel
       v0_cancel_path v0_parallel
       (BreakFlightPath.getTimeToBreak v0_cancel_path))
    v0_parallel_len direction v0_perp_direction a_max = None ->
  exists self,
    InitialVFlightPath.new p_start p_end a_max v0 = Ok self
    /\ InitialVFlightPath.rocketPosition self (InitialVFlightPath.getMaxTime self)
       = Ok p_end
    /\ InitialVFlightPath.rocketVelocity self (InitialVFlightPath.getMaxTime self)
       = Ok Vec2.zero.
Proof.
  intros Hne Ha Hdir v0_parallel_len v0_parallel v0_perp Hperp Hperpdir
    Hcancel Halign.
  pose proof (distance_pos p_start p_end Hne) as Hdist.
  unfold InitialVFlightPath.new.
  rewrite Rleb_false by assumption.
  rewrite Reqb_false by lra.
  rewrite Hdir. cbn [bind].
  fold v0_parallel_len. fold v0_parallel. fold v0_perp.
  rewrite (Reqb_false _ _ Hperp).
  rewrite Hperpdir. cbn [bind].
  rewrite Hcancel. cbn [bind].
  rewrite Halign.
  destruct (BreakFlightPath_end_state p_start a_max v0 Ha)
    as (b & Hb & HT1 & Hbpos & Hbvel).
  rewrite Hb. cbn [bind].
  destruct (DirectedInitialVFlightPath_from_rest
              (BreakFlightPath.getEndPosition b) p_end a_max Ha)
    as (f & Hf & HT2 & Hzero & Hfpos & Hfvel).
  rewrite Hf. cbn [bind].
  eexists. split; [reflexivity |].
  pose proof (time_to_break_nonneg a_max v0 Ha) as HT1pos.
  rewrite <- HT1 in HT1pos.
  unfold InitialVFlightPath.getMaxTime, InitialVFlightPath.rocketPosition,
    InitialVFlightPath.rocketVelocity, combinePath, FlightPath.getMaxTime.
  cbn [InitialVFlightPath.t_max InitialVFlightPath.implementation
       FlightPath.t_max FlightPath.rocketPosition FlightPath.rocketVelocity
       BreakFlightPath.upcast DirectedInitialVFlightPath.upcast].
  change (BreakFlightPath.t_max b) with (BreakFlightPath.getMaxTime b).
  change (DirectedInitialVFlightPath.t_max f)
    with (DirectedInitialVFlightPath.getMaxTime f).
  set (T1 := BreakFlightPath.getMaxTime b) in *.
  set (T2 := DirectedInitialVFlightPath.getMaxTime f) in *.
  rewrite Rltb_false by lra.
  destruct HT2 as [HT2 | HT2].
  - (* the second leg takes time *)
    rewrite Rleb_false by lra.
    replace (T1 + T2 - T1) with T2 by ring.
    split; assumption.
  - (* the braking already ends at the target *)
    rewrite Rleb_true by lra.
    replace (T1 + T2) with T1 by lra.
    rewrite Hbpos, Hbvel.
    rewrite (Hzero (eq_sym HT2)). split; reflexivity.
Qed.

(** The test 'InitialVFlightPath with impossible alignment', scaled: from
    the origin towards [(1, 0)] with the initial velocity [(0, 1)], which
    has no axial part. *)
Lemma example_distance : Vec2.length (Vec2.sub (Vec2.mk 1 0) Vec2.zero) = 1.
Proof.
  unfold Vec2.length; cbn.
  replace ((1 - 0) * (1 - 0) + (0 - 0) * (0 - 0)) with 1 by ring.
  apply sqrt_1.
Qed.

Lemma example_direction :
  Vec2.div (Vec2.sub (Vec2.mk 1 0) Vec2.zero)
           (Vec2.length (Vec2.sub (Vec2.mk 1 0) Vec2.zero))
  = Ok (Vec2.mk 1 0).
Proof.
  rewrite example_distance. unfold Vec2.div. rewrite Reqb_false by lra.
  f_equal. apply Vec2_eq; cbn; lra.
Qed.

Lemma example_v0_perp_length :
  Vec2.length
    (Vec2.sub (Vec2.mk 0 1)
       (Vec2.mul (Vec2.mk 1 0) (Vec2.dot (Vec2.mk 0 1) (Vec2.mk 1 0))))
  = 1.
Proof.
  unfold Vec2.length, Vec2.dot; cbn.
  match goal with |- sqrt ?e = 1 => replace e with 1 by ring end.
  apply sqrt_1.
Qed.

Lemma example_v0_perp_direction :
  Vec2.div
    (Vec2.sub (Vec2.mk 0 1)
       (Vec2.mul (Vec2.mk 1 0) (Vec2.dot (Vec2.mk 0 1) (Vec2.mk 1 0))))
    (Vec2.length
       (Vec2.sub (Vec2.mk 0 1)
          (Vec2.mul (Vec2.mk 1 0) (Vec2.dot (Vec2.mk 0 1) (Vec2.mk 1 0)))))
  = Ok (Vec2.mk 0 1).
Proof.
  rewrite example_v0_perp_length. unfold Vec2.div.
  rewrite Reqb_false by lra.
  f_equal. apply Vec2_eq; unfold Vec2.dot; cbn; lra.
Qed.

Lemma InitialVFlightPath_fallback_reaches_target_witness :
  exists self,
    InitialVFlightPath.new Vec2.zero (Vec2.mk 1 0) 1 (Vec2.mk 0 1) = Ok self
    /\ InitialVFlightPath.rocketPosition self (InitialVFlightPath.getMaxTime self)
       = Ok (Vec2.mk 1 0)
    /\ InitialVFlightPath.rocketVelocity self (InitialVFlightPath.getMaxTime self)
       = Ok Vec2.zero.
Proof.
  destruct (BreakFlightPath_new_ok Vec2.zero 1
              (Vec2.sub (Vec2.mk 0 1)
                 (Vec2.mul (Vec2.mk 1 0)
                    (Vec2.dot (Vec2.mk 0 1) (Vec2.mk 1 0)))))
    as (n & _ & Hcancel); [lra |].
  eapply (InitialVFlightPath_fallback_reaches_target
            Vec2.zero (Vec2.mk 1 0) 1 (Vec2.mk 0 1) (Vec2.mk 1 0) (Vec2.mk 0 1)).
  - exact unit_x_ne_zero.
  - lra.
  - exact example_direction.
  - rewrite example_v0_perp_length. lra.
  - exact example_v0_perp_direction.
  - exact Hcancel.
  - unfold InitialVFlightPath.calculateAlignmentTime.
    rewrite Reqb_true; [reflexivity |]. unfold Vec2.dot; cbn. ring.
Defined.

(** ** The sampling cache *)

Lemma mapM_Forall2 {A B : Type} (f : A -> result B) (l : list A) (l' : list B) :
  mapM f l = Ok l' <-> Forall2 (fun a b => f a = Ok b) l l'.
Proof.
  revert l'. induction l as [| a l IH]; intros l'; cbn.
  - split.
    + intros H. injection H as <-. constructor.
    + intros H. inversion H. reflexivity.
  - split.
    + destruct (f a) as [b | e] eqn:Hfa; cbn; [| discriminate].
      destruct (mapM f l) as [bs | e] eqn:Hl; cbn; [| discriminate].
      intros H. injection H as <-. constructor; [assumption |].
      apply IH. reflexivity.
    + intros H. inversion H as [| a0 b l0 bs Hfa Hrest]; subst.
      rewrite Hfa. cbn. apply IH in Hrest. rewrite Hrest. reflexivity.
Qed.

Lemma mapM_total {A B : Type} (f : A -> result B) (l : list A) :
  (forall a, In a l -> succeeds (f a)) -> exists l', mapM f l = Ok l'.
Proof.
  induction l as [| a l IH]; intros Hall; cbn.
  - exists []. reflexivity.
  - destruct (Hall a (or_introl eq_refl)) as (b & Hb).
    destruct IH as (bs & Hbs); [intros; apply Hall; right; assumption |].
    exists (b :: bs). rewrite Hb, Hbs. reflexivity.
Qed.

Lemma mapM_constant {A B : Type} (f : A -> result B) (b : B) (l : list A) :
  (forall a, In a l -> f a = Ok b) ->
  mapM f l = Ok (repeat b (List.length l)).
Proof.
  induction l as [| a l IH]; intros Hall; cbn; [reflexivity |].
  rewrite (Hall a (or_introl eq_refl)). cbn.
  rewrite IH by (intros; apply Hall; right; assumption). reflexivity.
Qed.

Lemma Forall_repeat {A : Type} (P : A -> Prop) (a : A) (n : nat) :
  P a -> Forall P (repeat a n).
Proof. intros Ha. induction n; cbn; constructor; assumption. Qed.

Lemma INR_cacheResolution : INR FlightPath._cacheResolution = 50.
Proof.
  unfold FlightPath._cacheResolution. rewrite INR_IZR_INZ. reflexivity.
Qed.

(** With [t_max = 0] every sample is taken at time zero. *)
Lemma getCachedPoints_all_at_zero (self : FlightPath.instance) (p v : Vec2.t) :
  FlightPath.t_max self = 0 ->
  FlightPath._cachedPoints self = None ->
  FlightPath.rocketPosition self 0 = Ok p ->
  FlightPath.rocketVelocity self 0 = Ok v ->
  FlightPath.getCachedPoints self
  = Ok (repeat (mkState p v 0) 51,
        FlightPath.with_cache self (repeat (mkState p v 0) 51)).
Proof.
  intros HT Hcache Hp Hv.
  unfold FlightPath.getCachedPoints. rewrite Hcache.
  rewrite (mapM_constant _ (mkState p v 0)).
  - reflexivity.
  - intros i _. unfold FlightPath.sample. rewrite HT.
    replace (0 / INR FlightPath._cacheResolution * INR i) with 0
      by (unfold Rdiv; ring).
    rewrite Hp, Hv. reflexivity.
Qed.

(** C2, as the code has it: the cache of a path of duration zero holds
    [_cacheResolution + 1 = 51] triples, each of them the state at time
    zero. *)
Theorem getCachedPoints_zero_duration
    (self : FlightPath.instance) (p v : Vec2.t) :
  FlightPath.getMaxTime self = 0 ->
  FlightPath._cachedPoints self = None ->
  FlightPath.rocketPosition self 0 = Ok p ->
  FlightPath.rocketVelocity self 0 = Ok v ->
  exists points self',
    FlightPath.getCachedPoints self = Ok (points, self')
    /\ FlightPath._cachedPoints self' = Some points
    /\ List.length points = 51%nat
    /\ Forall (fun s => s = mkState p v 0) points.
Proof.
  intros HT Hcache Hp Hv.
  exists (repeat (mkState p v 0) 51).
  exists (FlightPath.with_cache self (repeat (mkState p v 0) 51)).
  split; [apply getCachedPoints_all_at_zero; assumption |].
  split; [reflexivity |]. split; [apply repeat_length |].
  apply Forall_repeat. reflexivity.
Qed.

(** The line path from a point to itself. *)
Lemma LineFlightPath_new_same (p : Vec2.t) (a_max : R) :
  0 < a_max ->
  LineFlightPath.new p p a_max
  = Ok (LineFlightPath.mk p p a_max (Vec2.length (Vec2.sub p p)) Vec2.zero 0).
Proof.
  intros Ha. unfold LineFlightPath.new.
  rewrite Rleb_false by assumption.
  rewrite (Reqb_true _ 0 (sub_self p)). reflexivity.
Qed.

Lemma LineFlightPath_same_at_zero (p : Vec2.t) (a_max : R) :
  let line :=
    LineFlightPath.mk p p a_max (Vec2.length (Vec2.sub p p)) Vec2.zero 0 in
  LineFlightPath.rocketPosition line 0 = Ok p
  /\ LineFlightPath.rocketVelocity line 0 = Ok Vec2.zero.
Proof.
  unfold LineFlightPath.rocketPosition, LineFlightPath.rocketVelocity; cbn.
  rewrite Rltb_false by lra.
  rewrite (Reqb_true _ 0 (sub_self p)). split; reflexivity.
Qed.

Lemma getCachedPoints_zero_duration_witness :
  exists points self',
    FlightPath.getCachedPoints
      (LineFlightPath.upcast
         (LineFlightPath.mk Vec2.zero Vec2.zero 1
            (Vec2.length (Vec2.sub Vec2.zero Vec2.zero)) Vec2.zero 0))
    = Ok (points, self')
    /\ FlightPath._cachedPoints self' = Some points
    /\ List.length points = 51%nat
    /\ Forall (fun s => s = mkState Vec2.zero Vec2.zero 0) points.
Proof.
  apply (getCachedPoints_zero_duration
           (LineFlightPath.upcast
              (LineFlightPath.mk Vec2.zero Vec2.zero 1
                 (Vec2.length (Vec2.sub Vec2.zero Vec2.zero)) Vec2.zero 0))
           Vec2.zero Vec2.zero).
  - reflexivity.
  - reflexivity.
  - apply (LineFlightPath_same_at_zero Vec2.zero 1).
  - apply (LineFlightPath_same_at_zero Vec2.zero 1).
Defined.

(** The cache of [new LineFlightPath(zero, zero, 1)], whose duration is
    zero, has 51 entries and not one. *)
Lemma zero_duration_cache_has_51_points :
  exists line points self',
    LineFlightPath.new Vec2.zero Vec2.zero 1 = Ok line
    /\ FlightPath.getMaxTime (LineFlightPath.upcast line) = 0
    /\ FlightPath.getCachedPoints (LineFlightPath.upcast line)
       = Ok (points, self')
    /\ List.length points = 51%nat
    /\ List.length points <> 1%nat.
Proof.
  eexists. eexists. eexists.
  split; [apply LineFlightPath_new_same; lra |].
  split; [reflexivity |].
  split.
  - apply (getCachedPoints_all_at_zero _ Vec2.zero Vec2.zero);
      try reflexivity; apply (LineFlightPath_same_at_zero Vec2.zero 1).
  - rewrite repeat_length. split; [reflexivity | discriminate].
Qed.

(** ** getStateAtTime *)

(** A time outside [[0, t_max]] is rejected. *)
Lemma getStateAtTime_outside (self : FlightPath.instance) (t : R) :
  t < 0 \/ FlightPath.t_max self < t ->
  FlightPath.getStateAtTime self t
  = Throw (TimeOutsideRange t (FlightPath.t_max self)).
Proof.
  intros [Hneg | Hlate]; unfold FlightPath.getStateAtTime.
  - rewrite (Rltb_true t 0 Hneg). reflexivity.
  - rewrite (Rltb_true _ t Hlate). rewrite orb_true_r. reflexivity.
Qed.

(** On a path of duration zero the time step is zero, the index is
    [Math.floor(0 / 0) = NaN], both edge-case tests are false and
    [points[NaN]] is [undefined]: reading [p1.time] throws. *)
Lemma getStateAtTime_zero_duration (self : FlightPath.instance) (p v : Vec2.t) :
  FlightPath.t_max self = 0 ->
  FlightPath._cachedPoints self = None ->
  FlightPath.rocketPosition self 0 = Ok p ->
  FlightPath.rocketVelocity self 0 = Ok v ->
  FlightPath.getStateAtTime self 0 = Throw TypeError.
Proof.
  intros HT Hcache Hp Hv.
  unfold FlightPath.getStateAtTime.
  rewrite (getCachedPoints_all_at_zero self p v HT Hcache Hp Hv).
  rewrite HT. rewrite Rltb_false by lra. cbn [orb bind fst snd].
  unfold floor_div.
  rewrite (Reqb_true (0 / INR FlightPath._cacheResolution) 0)
    by (unfold Rdiv; ring).
  rewrite (Reqb_true 0 0) by reflexivity.
  reflexivity.
Qed.

(** C3, at the input where the code departs from it: [getStateAtTime(0)]
    on [new LineFlightPath(zero, zero, 1)], whose valid range is [[0, 0]],
    throws a [TypeError]. *)
Theorem getStateAtTime_throws_inside_range :
  exists line,
    LineFlightPath.new Vec2.zero Vec2.zero 1 = Ok line
    /\ FlightPath.getMaxTime (LineFlightPath.upcast line) = 0
    /\ FlightPath.getStateAtTime (LineFlightPath.upcast line) 0
       = Throw TypeError.
Proof.
  eexists. split; [apply LineFlightPath_new_same; lra |].
  split; [reflexivity |].
  apply (getStateAtTime_zero_duration _ Vec2.zero Vec2.zero);
    try reflexivity; apply (LineFlightPath_same_at_zero Vec2.zero 1).
Qed.

Lemma nth_error_in_range {A : Type} (l : list A) (z : Z) :
  (0 <= z < Z.of_nat (List.length l))%Z -> exists a, get l z = Some a.
Proof.
  intros Hz. unfold get.
  destruct (z <? 0)%Z eqn:Hneg; [lia |].
  destruct (nth_error l (Z.to_nat z)) as [a |] eqn:Hnth; [eauto |].
  apply nth_error_None in Hnth. lia.
Qed.

(** On a path of positive duration whose position and velocity are defined
    from time zero on, every time of [[0, t_max]] is answered with a
    state. *)
Lemma getStateAtTime_inside (self : FlightPath.instance) (t : R) :
  0 < FlightPath.t_max self ->
  FlightPath._cachedPoints self = None ->
  (forall s, 0 <= s -> succeeds (FlightPath.rocketPosition self s)) ->
  (forall s, 0 <= s -> succeeds (FlightPath.rocketVelocity self s)) ->
  0 <= t <= FlightPath.t_max self ->
  exists state self',
    FlightPath.getStateAtTime self t = Ok (Some state, self').
Proof.
  intros HT Hcache Hpos Hvel [Ht0 Ht1].
  unfold FlightPath.getStateAtTime.
  rewrite Rltb_false by assumption.
  rewrite Rltb_false by assumption. cbn [orb].
  unfold FlightPath.getCachedPoints. rewrite Hcache.
  destruct (mapM_total (FlightPath.sample self)
              (seq 0 (FlightPath._cacheResolution + 1))) as (points & Hpts).
  { intros i _. unfold FlightPath.sample.
    assert (Hs : 0 <= FlightPath.t_max self / INR FlightPath._cacheResolution * INR i).
    { rewrite INR_cacheResolution. pose proof (pos_INR i). nra. }
    destruct (Hpos _ Hs) as (p & ->). destruct (Hvel _ Hs) as (v & ->).
    eexists. reflexivity. }
  rewrite Hpts. cbn [bind fst snd].
  assert (Hlen : List.length points = 51%nat).
  { apply mapM_Forall2, Forall2_length in Hpts.
    rewrite length_seq in Hpts. symmetry. exact Hpts. }
  rewrite Hlen.
  unfold floor_div. rewrite INR_cacheResolution.
  rewrite Reqb_false by lra.
  set (z := Zfloor (t / (FlightPath.t_max self / 50))).
  assert (Hz : (0 <= z <= 50)%Z).
  { assert (Hq0 : 0 <= t / (FlightPath.t_max self / 50)).
    { apply Rmult_le_pos; [assumption |].
      left. apply Rinv_0_lt_compat. lra. }
    assert (Hq1 : t / (FlightPath.t_max self / 50) <= 50).
    { apply Rmult_le_reg_r with (FlightPath.t_max self / 50); [lra |].
      unfold Rdiv at 1. rewrite Rmult_assoc, Rinv_l by lra. lra. }
    split.
    - apply (Zfloor_lub 0). exact Hq0.
    - apply le_IZR. pose proof (Zfloor_bound (t / (FlightPath.t_max self / 50))).
      fold z in H. lra. }
  cbn [index_ge index_lt index_get index_succ].
  change (Z.of_nat 51 - 1)%Z with 50%Z.
  destruct (50 <=? z)%Z eqn:Hlast.
  - destruct (nth_error_in_range points 50) as (s & Hs); [lia |].
    rewrite Hs. eauto.
  - apply Z.leb_gt in Hlast.
    destruct (z <? 0)%Z eqn:Hfirst; [lia |].
    destruct (nth_error_in_range points z) as (p1 & Hp1); [lia |].
    destruct (nth_error_in_range points (z + 1)) as (p2 & Hp2); [lia |].
    rewrite Hp1, Hp2. cbn [deref bind]. eauto.
Qed.

(** Past its duration a braking path neither fails nor moves: position and
    velocity are those of [t_max]. *)
Lemma BreakFlightPath_clamps (p_start : Vec2.t) (a_max : R) (initial_v : Vec2.t) (t : R) :
  0 < a_max ->
  exists self,
    BreakFlightPath.new p_start a_max initial_v = Ok self
    /\ (BreakFlightPath.getMaxTime self < t ->
        BreakFlightPath.rocketPosition self t
        = BreakFlightPath.rocketPosition self (BreakFlightPath.getMaxTime self)
        /\ BreakFlightPath.rocketVelocity self t
           = BreakFlightPath.rocketVelocity self (BreakFlightPath.getMaxTime self)
        /\ BreakFlightPath.rocketPosition self t
           = Ok (BreakFlightPath.getEndPosition self)
        /\ BreakFlightPath.rocketVelocity self t = Ok Vec2.zero).
Proof.
  intros Ha.
  destruct (BreakFlightPath_end_state p_start a_max initial_v Ha)
    as (b & Hb & HT & Hpos & Hvel).
  exists b. split; [assumption |]. intros Hlate.
  rewrite Hpos, Hvel.
  pose proof (time_to_break_nonneg a_max initial_v Ha) as Hnn.
  rewrite <- HT in Hnn.
  assert (Htb : BreakFlightPath.time_to_break b = BreakFlightPath.getMaxTime b).
  { unfold BreakFlightPath.new in Hb.
    rewrite Rleb_false in Hb by assumption.
    destruct (Vec2.normOrZero initial_v); cbn in Hb; [| discriminate].
    injection Hb as <-. reflexivity. }
  unfold BreakFlightPath.rocketPosition, BreakFlightPath.rocketVelocity.
  rewrite Htb.
  rewrite Rltb_false by lra. rewrite Rleb_false by lra.
  repeat split; reflexivity.
Qed.

(** ** DirectedInitialVFlightPath: the feasible case *)

Lemma length_unit_mul (d : Vec2.t) (s : R) :
  Vec2.length d = 1 -> 0 <= s -> Vec2.length (Vec2.mul d s) = s.
Proof. intros Hd Hs. rewrite length_mul by assumption. rewrite Hd. ring. Qed.

(** The fictive start lies behind [p_start], hence differs from the
    target; the vector from it to the target is [direction] scaled by the
    whole length. *)
Lemma fictive_start_facts (p_start p_end d : Vec2.t) (back : R) :
  Vec2.length d = 1 ->
  Vec2.sub p_end p_start
  = Vec2.mul d (Vec2.length (Vec2.sub p_end p_start)) ->
  0 <= back ->
  0 < Vec2.length (Vec2.sub p_end p_start) ->
  Vec2.sub p_end (Vec2.sub p_start (Vec2.mul d back))
  = Vec2.mul d (Vec2.length (Vec2.sub p_end p_start) + back)
  /\ Vec2.length (Vec2.sub p_end (Vec2.sub p_start (Vec2.mul d back)))
     = Vec2.length (Vec2.sub p_end p_start) + back
  /\ Vec2.sub p_start (Vec2.mul d back) <> p_end.
Proof.
  intros Hd Hdd Hback Hdist.
  set (dist := Vec2.length (Vec2.sub p_end p_start)) in *.
  assert (Hvec : Vec2.sub p_end (Vec2.sub p_start (Vec2.mul d back))
                 = Vec2.mul d (dist + back)).
  { apply (f_equal Vec2.x) in Hdd as Hx. apply (f_equal Vec2.y) in Hdd as Hy.
    cbn in Hx, Hy. apply Vec2_eq; cbn; lra. }
  assert (Hlen : Vec2.length (Vec2.sub p_end (Vec2.sub p_start (Vec2.mul d back)))
                 = dist + back).
  { rewrite Hvec. apply length_unit_mul; [assumption | lra]. }
  split; [exact Hvec |]. split; [exact Hlen |].
  intros Heq. rewrite Heq in Hlen. rewrite sub_self in Hlen. lra.
Qed.

(** Reaching [initial_v] from rest takes no longer than half the line path
    from the fictive start. *)
Lemma time_to_initial_v_bound (a_max initial_v dist : R) :
  0 < a_max -> 0 <= initial_v ->
  0.5 * a_max * (initial_v / a_max) * (initial_v / a_max) <= dist ->
  initial_v / a_max
  <= 2 * sqrt ((dist + 0.5 * a_max * (initial_v / a_max) * (initial_v / a_max))
               / a_max) / 2.
Proof.
  intros Ha Hv Hfeasible.
  set (q := initial_v / a_max) in *.
  assert (Hq : 0 <= q).
  { apply Rmult_le_pos; [assumption |]. left. apply Rinv_0_lt_compat. assumption. }
  replace (2 * sqrt ((dist + 0.5 * a_max * q * q) / a_max) / 2)
    with (sqrt ((dist + 0.5 * a_max * q * q) / a_max)) by field.
  rewrite <- (sqrt_square q Hq) at 1.
  apply sqrt_le_1; [nra | |].
  - apply Rmult_le_pos; [nra |]. left. apply Rinv_0_lt_compat. assumption.
  - apply Rmult_le_reg_l with a_max; [assumption |].
    replace (a_max * ((dist + 0.5 * a_max * q * q) / a_max))
      with (dist + 0.5 * a_max * q * q) by (field; lra).
    nra.
Qed.

(** In the feasible case (a non-negative [initial_v] whose braking distance
    does not exceed the distance) the TypeScript class keeps the line path
    from the fictive start as its implementation and shortens [t_max], and
    its position and velocity at [t] are the line path's at [t] itself. *)
Lemma DirectedInitialVFlightPath_feasible
    (p_start p_end : Vec2.t) (a_max initial_v : R) :
  p_start <> p_end -> 0 < a_max -> 0 <= initial_v ->
  0.5 * a_max * (initial_v / a_max) * (initial_v / a_max)
  <= Vec2.length (Vec2.sub p_end p_start) ->
  exists direction self actual_path,
    Vec2.div (Vec2.sub p_end p_start) (Vec2.length (Vec2.sub p_end p_start))
    = Ok direction
    /\ DirectedInitialVFlightPath.new p_start p_end a_max initial_v = Ok self
    /\ LineFlightPath.new
         (Vec2.sub p_start
            (Vec2.mul direction
               (0.5 * a_max * (initial_v / a_max) * (initial_v / a_max))))
         p_end a_max
       = Ok actual_path
    /\ DirectedInitialVFlightPath.getMaxTime self
       = LineFlightPath.getMaxTime actual_path - initial_v / a_max
    /\ (forall t, DirectedInitialVFlightPath.rocketPosition self t
                  = LineFlightPath.rocketPosition actual_path t)
    /\ (forall t, DirectedInitialVFlightPath.rocketVelocity self t
                  = LineFlightPath.rocketVelocity actual_path t).
Proof.
  intros Hne Ha Hv Hfeasible.
  pose proof (distance_pos p_start p_end Hne) as Hdist.
  destruct (div_length (Vec2.sub p_end p_start)) as (d & Hd & Hlen & Hdd);
    [lra |].
  destruct (BreakFlightPath_new_ok p_start a_max (Vec2.mul d initial_v) Ha)
    as (n & _ & Hb).
  rewrite (length_unit_mul d initial_v Hlen Hv) in Hb.
  set (back := 0.5 * a_max * (initial_v / a_max) * (initial_v / a_max)) in *.
  assert (Hback : 0 <= back).
  { unfold back. assert (0 <= initial_v / a_max).
    { apply Rmult_le_pos; [assumption |]. left. apply Rinv_0_lt_compat. assumption. }
    apply Rmult_le_pos; [apply Rmult_le_pos; [lra | assumption] | assumption]. }
  destruct (fictive_start_facts p_start p_end d back Hlen Hdd Hback Hdist)
    as (_ & _ & Hfictive).
  destruct (LineFlightPath_new_ok _ _ a_max Hfictive Ha) as (d' & _ & _ & Hl).
  exists d. eexists. eexists.
  split; [exact Hd |].
  split; [| split; [exact Hl |]].
  - unfold DirectedInitialVFlightPath.new.
    rewrite Rleb_false by assumption.
    rewrite Reqb_false by lra.
    rewrite Hd. cbn [bind]. rewrite Hb. cbn [bind].
    unfold BreakFlightPath.getDistanceToBreak, BreakFlightPath.getTimeToBreak.
    cbn [BreakFlightPath.dist_to_break BreakFlightPath.time_to_break].
    rewrite (Rltb_false initial_v 0) by assumption.
    rewrite Rltb_false by assumption. cbn [orb].
    rewrite Hl. cbn [bind]. reflexivity.
  - split; [reflexivity |]. split; intros t; reflexivity.
Qed.

(** A line path between two distinct points starts at [p_start] at rest. *)
Lemma LineFlightPath_start_state (p_start p_end : Vec2.t) (a_max : R) :
  p_start <> p_end -> 0 < a_max ->
  exists self,
    LineFlightPath.new p_start p_end a_max = Ok self
    /\ LineFlightPath.rocketPosition self 0 = Ok p_start
    /\ LineFlightPath.rocketVelocity self 0 = Ok Vec2.zero.
Proof.
  intros Hne Ha.
  destruct (LineFlightPath_new_ok p_start p_end a_max Hne Ha)
    as (d & Hlen & _ & Hnew).
  pose proof (distance_pos p_start p_end Hne) as Hd.
  pose proof (line_t_max_pos _ _ Hd Ha) as Ht.
  eexists. split; [exact Hnew |].
  unfold LineFlightPath.rocketPosition, LineFlightPath.rocketVelocity.
  cbn [LineFlightPath.t_max LineFlightPath.distance LineFlightPath.direction
       LineFlightPath.p_start LineFlightPath.p_end LineFlightPath.a_max].
  rewrite Rltb_false by lra.
  rewrite Reqb_false by lra.
  rewrite Rleb_true by lra.
  split; f_equal; apply Vec2_eq; cbn; ring.
Qed.

(** Hence, in the feasible case, the TypeScript path starts at the fictive
    start with velocity zero, whatever [initial_v] is. *)
Lemma DirectedInitialVFlightPath_feasible_start
    (p_start p_end : Vec2.t) (a_max initial_v : R) :
  p_start <> p_end -> 0 < a_max -> 0 <= initial_v ->
  0.5 * a_max * (initial_v / a_max) * (initial_v / a_max)
  <= Vec2.length (Vec2.sub p_end p_start) ->
  exists direction self,
    Vec2.div (Vec2.sub p_end p_start) (Vec2.length (Vec2.sub p_end p_start))
    = Ok direction
    /\ DirectedInitialVFlightPath.new p_start p_end a_max initial_v = Ok self
    /\ DirectedInitialVFlightPath.rocketPosition self 0
       = Ok (Vec2.sub p_start
               (Vec2.mul direction
                  (0.5 * a_max * (initial_v / a_max) * (initial_v / a_max))))
    /\ DirectedInitialVFlightPath.rocketVelocity self 0 = Ok Vec2.zero.
Proof.
  intros Hne Ha Hv Hfeasible.
  destruct (DirectedInitialVFlightPath_feasible
              p_start p_end a_max initial_v Hne Ha Hv Hfeasible)
    as (d & self & line & Hd & Hnew & Hline & _ & Hpos & Hvel).
  exists d, self. split; [exact Hd |]. split; [exact Hnew |].
  rewrite Hpos, Hvel.
  pose proof (distance_pos p_start p_end Hne) as Hdist.
  destruct (div_length (Vec2.sub p_end p_start)) as (d0 & Hd0 & Hlen & Hdd);
    [lra |].
  rewrite Hd in Hd0. injection Hd0 as <-.
  assert (Hback : 0 <= 0.5 * a_max * (initial_v / a_max) * (initial_v / a_max)).
  { assert (0 <= initial_v / a_max).
    { apply Rmult_le_pos; [assumption |]. left. apply Rinv_0_lt_compat. assumption. }
    apply Rmult_le_pos; [apply Rmult_le_pos; [lra | assumption] | assumption]. }
  destruct (fictive_start_facts p_start p_end d _ Hlen Hdd Hback Hdist)
    as (_ & _ & Hfictive).
  destruct (LineFlightPath_start_state _ _ a_max Hfictive Ha)
    as (line' & Hline' & Hp & Hv0).
  rewrite Hline in Hline'. injection Hline' as <-.
  split; assumption.
Qed.

(** The line path from the fictive start, with its fields. *)
Lemma line_from_fictive_start
    (p_start p_end : Vec2.t) (a_max initial_v : R) :
  p_start <> p_end -> 0 < a_max -> 0 <= initial_v ->
  exists direction,
    Vec2.div (Vec2.sub p_end p_start) (Vec2.length (Vec2.sub p_end p_start))
    = Ok direction
    /\ Vec2.length direction = 1
    /\ Vec2.sub p_end p_start
       = Vec2.mul direction (Vec2.length (Vec2.sub p_end p_start))
    /\ LineFlightPath.new
         (Vec2.sub p_start
            (Vec2.mul direction
               (0.5 * a_max * (initial_v / a_max) * (initial_v / a_max))))
         p_end a_max
       = Ok (LineFlightPath.mk
               (Vec2.sub p_start
                  (Vec2.mul direction
                     (0.5 * a_max * (initial_v / a_max) * (initial_v / a_max))))
               p_end a_max
               (Vec2.length (Vec2.sub p_end p_start)
                + 0.5 * a_max * (initial_v / a_max) * (initial_v / a_max))
               direction
               (2 * sqrt ((Vec2.length (Vec2.sub p_end p_start)
                           + 0.5 * a_max * (initial_v / a_max)
                             * (initial_v / a_max))
                          / a_max))).
Proof.
  intros Hne Ha Hv.
  pose proof (distance_pos p_start p_end Hne) as Hdist.
  destruct (div_length (Vec2.sub p_end p_start)) as (d & Hd & Hlen & Hdd);
    [lra |].
  set (q := initial_v / a_max) in *.
  set (back := 0.5 * a_max * q * q) in *.
  set (dist := Vec2.length (Vec2.sub p_end p_start)) in *.
  assert (Hq : 0 <= q).
  { apply Rmult_le_pos; [assumption |]. left. apply Rinv_0_lt_compat. assumption. }
  assert (Hback : 0 <= back).
  { apply Rmult_le_pos; [apply Rmult_le_pos; [lra | assumption] | assumption]. }
  destruct (fictive_start_facts p_start p_end d back Hlen Hdd Hback Hdist)
    as (Hvec & Hlong & Hfictive).
  fold dist in Hvec, Hlong.
  destruct (LineFlightPath_new_ok _ _ a_max Hfictive Ha)
    as (d' & Hlen' & Hdd' & Hl).
  assert (Hsame : d' = d).
  { rewrite Hlong, Hvec in Hdd'.
    apply (f_equal Vec2.x) in Hdd' as Hx. apply (f_equal Vec2.y) in Hdd' as Hy.
    cbn in Hx, Hy. apply Vec2_eq.
    - apply Rmult_eq_reg_r with (dist + back); lra.
    - apply Rmult_eq_reg_r with (dist + back); lra. }
  subst d'. rewrite Hlong in Hl.
  exists d. auto.
Qed.

(** In the feasible case the TypeScript path is the line path from the
    fictive start read from its beginning and cut at
    [t_max - time_to_break]: at its own [t_max] it is one braking distance
    short of the target and moves at [initial_v]. *)
Lemma DirectedInitialVFlightPath_feasible_end
    (p_start p_end : Vec2.t) (a_max initial_v : R) :
  p_start <> p_end -> 0 < a_max -> 0 <= initial_v ->
  0.5 * a_max * (initial_v / a_max) * (initial_v / a_max)
  <= Vec2.length (Vec2.sub p_end p_start) ->
  exists direction self,
    Vec2.div (Vec2.sub p_end p_start) (Vec2.length (Vec2.sub p_end p_start))
    = Ok direction
    /\ DirectedInitialVFlightPath.new p_start p_end a_max initial_v = Ok self
    /\ DirectedInitialVFlightPath.rocketPosition self
         (DirectedInitialVFlightPath.getMaxTime self)
       = Ok (Vec2.sub p_end
               (Vec2.mul direction
                  (0.5 * a_max * (initial_v / a_max) * (initial_v / a_max))))
    /\ DirectedInitialVFlightPath.rocketVelocity self
         (DirectedInitialVFlightPath.getMaxTime self)
       = Ok (Vec2.mul direction initial_v)
    /\ DirectedInitialVFlightPath.rocketPosition self
         (DirectedInitialVFlightPath.getMaxTime self + initial_v / a_max)
       = Ok p_end.
Proof.
  intros Hne Ha Hv Hfeasible.
  destruct (DirectedInitialVFlightPath_feasible
              p_start p_end a_max initial_v Hne Ha Hv Hfeasible)
    as (d & self & line & Hd & Hnew & Hline & HT & Hpos & Hvel).
  destruct (line_from_fictive_start p_start p_end a_max initial_v Hne Ha Hv)
    as (d0 & Hd0 & Hlen & Hdd & Hline0).
  rewrite Hd in Hd0. injection Hd0 as <-.
  rewrite Hline in Hline0. injection Hline0 as ->.
  exists d, self. split; [exact Hd |]. split; [exact Hnew |].
  rewrite !Hpos, Hvel, HT.
  pose proof (distance_pos p_start p_end Hne) as Hdist.
  pose proof (time_to_initial_v_bound a_max initial_v _ Ha Hv Hfeasible) as Hhalf.
  set (q := initial_v / a_max) in *.
  set (back := 0.5 * a_max * q * q) in *.
  set (dist := Vec2.length (Vec2.sub p_end p_start)) in *.
  assert (Hq : 0 <= q).
  { apply Rmult_le_pos; [assumption |]. left. apply Rinv_0_lt_compat. assumption. }
  assert (Hback : 0 <= back).
  { apply Rmult_le_pos; [apply Rmult_le_pos; [lra | assumption] | assumption]. }
  assert (HD : 0 < (dist + back) / a_max)
    by (apply Rdiv_lt_0_compat; lra).
  pose proof (sqrt_lt_R0 _ HD) as Hroot.
  pose proof (sqrt_sqrt _ (Rlt_le _ _ HD)) as Hsq.
  set (r := sqrt ((dist + back) / a_max)) in *.
  assert (HaD : a_max * (r * r) = dist + back).
  { rewrite Hsq. field. lra. }
  assert (Hv' : initial_v = a_max * q) by (unfold q; field; lra).
  unfold LineFlightPath.getMaxTime, LineFlightPath.rocketPosition,
    LineFlightPath.rocketVelocity.
  cbn [LineFlightPath.t_max LineFlightPath.distance LineFlightPath.direction
       LineFlightPath.p_start LineFlightPath.p_end LineFlightPath.a_max].
  replace (2 * r - q + q) with (2 * r) by ring.
  rewrite (Rltb_false (2 * r - q) 0) by lra.
  rewrite (Rltb_false (2 * r) 0) by lra.
  rewrite (Reqb_false (dist + back) 0) by lra.
  rewrite (Rleb_false (2 * r) (2 * r / 2)) by lra.
  rewrite (Rleb_true (2 * r) (2 * r)) by lra.
  destruct (Rle_dec (2 * r - q) (2 * r / 2)) as [Hle | Hgt].
  - (* [time_to_break] is exactly half of the line path *)
    rewrite (Rleb_true _ _ Hle).
    assert (Hqr : 2 * r - q = q) by lra.
    rewrite Hqr. fold back.
    assert (Hb : back = 0.5 * a_max * r * r)
      by (unfold back; replace q with r by lra; ring).
    assert (Hdb : dist = back) by lra.
    apply (f_equal Vec2.x) in Hdd as Hx. apply (f_equal Vec2.y) in Hdd as Hy.
    cbn in Hx, Hy. fold dist in Hx, Hy. rewrite Hdb in Hx, Hy.
    repeat split; f_equal; apply Vec2_eq; cbn; rewrite ?Hv'; try ring; lra.
  - apply Rnot_le_lt in Hgt. rewrite (Rleb_false _ _ Hgt).
    rewrite (Rleb_true (2 * r - q) (2 * r)) by lra.
    repeat split; f_equal; apply Vec2_eq; cbn; rewrite ?Hv'; unfold back;
      lra.
Qed.

(** C1, at an input where the TypeScript class departs from it: from the
    origin to [(1, 0)] with [a_max = 1] and [initial_v = 1] (braking
    distance 1/2, time to brake 1), the path starts at the fictive start
    [(-1/2, 0)] with velocity zero, not at [p_start] with velocity [(1, 0)],
    and at its [t_max] it is at [(1/2, 0)] with velocity [(1, 0)], not at
    the target at rest: it is the line path read from its own time zero,
    not from [time_to_break]. *)
Theorem DirectedInitialVFlightPath_not_shifted :
  exists self,
    DirectedInitialVFlightPath.new Vec2.zero (Vec2.mk 1 0) 1 1 = Ok self
    /\ DirectedInitialVFlightPath.rocketPosition self 0
       = Ok (Vec2.mk (- (1 / 2)) 0)
    /\ DirectedInitialVFlightPath.rocketVelocity self 0 = Ok Vec2.zero
    /\ DirectedInitialVFlightPath.rocketPosition self
         (DirectedInitialVFlightPath.getMaxTime self)
       = Ok (Vec2.mk (1 / 2) 0)
    /\ DirectedInitialVFlightPath.rocketVelocity self
         (DirectedInitialVFlightPath.getMaxTime self)
       = Ok (Vec2.mk 1 0).
Proof.
  destruct (DirectedInitialVFlightPath_feasible_start
              Vec2.zero (Vec2.mk 1 0) 1 1)
    as (d & self & Hd & Hnew & Hpos & Hvel);
    [exact unit_x_ne_zero | lra | lra | rewrite example_distance; lra |].
  destruct (DirectedInitialVFlightPath_feasible_end
              Vec2.zero (Vec2.mk 1 0) 1 1)
    as (d' & self' & Hd' & Hnew' & Hpos' & Hvel' & _);
    [exact unit_x_ne_zero | lra | lra | rewrite example_distance; lra |].
  rewrite example_direction in Hd, Hd'.
  injection Hd as <-. injection Hd' as <-.
  rewrite Hnew in Hnew'. injection Hnew' as <-.
  exists self. split; [exact Hnew |].
  rewrite Hpos, Hvel, Hpos', Hvel'.
  repeat split; f_equal; apply Vec2_eq; cbn; lra.
Qed.

(** ** trajectory.js: the feasible case *)

Lemma Legacy_div_length (a : Vec2.t) :
  Vec2.length a <> 0 ->
  exists d, Legacy.div a (Vec2.length a) = Some d
            /\ Vec2.length d = 1
            /\ a = Vec2.mul d (Vec2.length a).
Proof.
  intros Hne. destruct (div_length a Hne) as (d & Hd & Hlen & Ha).
  exists d. split; [| auto].
  unfold Vec2.div in Hd. unfold Legacy.div.
  destruct (Vec2.length a === 0); [discriminate |].
  injection Hd as <-. reflexivity.
Qed.

Lemma Legacy_BreakFlightPath_new_ok
    (p_start : Vec2.t) (a_max : R) (initial_v : Vec2.t) :
  0 < a_max ->
  exists self,
    Legacy.BreakFlightPath.new p_start a_max initial_v = Some self
    /\ Legacy.BreakFlightPath.time_to_break self
       = Vec2.length initial_v / a_max
    /\ Legacy.BreakFlightPath.dist_to_break self
       = 0.5 * a_max * (Vec2.length initial_v / a_max)
         * (Vec2.length initial_v / a_max).
Proof.
  intros Ha. unfold Legacy.BreakFlightPath.new.
  rewrite Reqb_false by lra.
  unfold Legacy.normOrZero.
  destruct (Req_dec_T (Vec2.length initial_v) 0) as [H0 | Hne].
  - rewrite (Reqb_true _ _ H0). eexists. split; [reflexivity |]. split; reflexivity.
  - rewrite (Reqb_false _ _ Hne).
    destruct (Legacy_div_length initial_v Hne) as (n & -> & _).
    eexists. split; [reflexivity |]. split; reflexivity.
Qed.

Lemma Legacy_LineFlightPath_new_ok (p_start p_end : Vec2.t) (a_max : R) :
  p_start <> p_end -> 0 < a_max ->
  exists direction,
    Vec2.length direction = 1
    /\ Vec2.sub p_end p_start
       = Vec2.mul direction (Vec2.length (Vec2.sub p_end p_start))
    /\ Legacy.LineFlightPath.new p_start p_end a_max
       = Some (Legacy.LineFlightPath.mk p_start p_end a_max
                 (Vec2.length (Vec2.sub p_end p_start)) direction
                 (2 * sqrt (Vec2.length (Vec2.sub p_end p_start) / a_max))).
Proof.
  intros Hne Ha. pose proof (distance_pos p_start p_end Hne) as Hd.
  destruct (Legacy_div_length (Vec2.sub p_end p_start)) as (d & Hdiv & Hlen & Hdd);
    [lra |].
  exists d. split; [assumption |]. split; [assumption |].
  unfold Legacy.LineFlightPath.new. rewrite Hdiv.
  rewrite Reqb_false by lra.
  rewrite Rltb_false; [reflexivity |].
  left. apply Rdiv_lt_0_compat; assumption.
Qed.

(** trajectory.js does what C1 says: in the feasible case the path is the
    line path from the fictive start read from [time_to_break] on, and it
    starts at [p_start] with velocity [direction * initial_v]. *)
Lemma Legacy_DirectedInitialVFlightPath_feasible
    (p_start p_end : Vec2.t) (a_max initial_v : R) :
  p_start <> p_end -> 0 < a_max -> 0 <= initial_v ->
  0.5 * a_max * (initial_v / a_max) * (initial_v / a_max)
  <= Vec2.length (Vec2.sub p_end p_start) ->
  exists direction path actual_path,
    Legacy.div (Vec2.sub p_end p_start) (Vec2.length (Vec2.sub p_end p_start))
    = Some direction
    /\ Legacy.DirectedInitialVFlightPath.new p_start p_end a_max initial_v
       = Some path
    /\ Legacy.LineFlightPath.new
         (Vec2.sub p_start
            (Vec2.mul direction
               (0.5 * a_max * (initial_v / a_max) * (initial_v / a_max))))
         p_end a_max
       = Some actual_path
    /\ Legacy.FlightPath.t_max path
       = Legacy.LineFlightPath.t_max actual_path - initial_v / a_max
    /\ (forall t,
           Legacy.FlightPath.rocketPosition path t
           = Legacy.LineFlightPath.rocketPosition actual_path
               (t + initial_v / a_max)
           /\ Legacy.FlightPath.rocketVelocity path t
              = Legacy.LineFlightPath.rocketVelocity actual_path
                  (t + initial_v / a_max))
    /\ Legacy.FlightPath.rocketPosition path 0 = p_start
    /\ Legacy.FlightPath.rocketVelocity path 0 = Vec2.mul direction initial_v
    /\ Vec2.length (Legacy.FlightPath.rocketVelocity path 0) = initial_v.
Proof.
  intros Hne Ha Hv Hfeasible.
  pose proof (distance_pos p_start p_end Hne) as Hdist.
  destruct (Legacy_div_length (Vec2.sub p_end p_start)) as (d & Hd & Hlen & Hdd);
    [lra |].
  destruct (Legacy_BreakFlightPath_new_ok p_start a_max (Vec2.mul d initial_v) Ha)
    as (b & Hb & Httb & Hdtb).
  rewrite (length_unit_mul d initial_v Hlen Hv) in Httb, Hdtb.
  set (q := initial_v / a_max) in *.
  set (back := 0.5 * a_max * q * q) in *.
  set (dist := Vec2.length (Vec2.sub p_end p_start)) in *.
  assert (Hq : 0 <= q).
  { apply Rmult_le_pos; [assumption |]. left. apply Rinv_0_lt_compat. assumption. }
  assert (Hback : 0 <= back).
  { apply Rmult_le_pos; [apply Rmult_le_pos; [lra | assumption] | assumption]. }
  destruct (fictive_start_facts p_start p_end d back Hlen Hdd Hback Hdist)
    as (Hvec & Hlong & Hfictive).
  fold dist in Hvec, Hlong.
  destruct (Legacy_LineFlightPath_new_ok _ _ a_max Hfictive Ha)
    as (d' & Hlen' & Hdd' & Hl).
  assert (Hsame : d' = d).
  { rewrite Hlong, Hvec in Hdd'.
    apply (f_equal Vec2.x) in Hdd' as Hx. apply (f_equal Vec2.y) in Hdd' as Hy.
    cbn in Hx, Hy. apply Vec2_eq.
    - apply Rmult_eq_reg_r with (dist + back); lra.
    - apply Rmult_eq_reg_r with (dist + back); lra. }
  subst d'. rewrite Hlong in Hl.
  exists d. eexists. eexists.
  split; [exact Hd |].
  assert (Hnew : Legacy.DirectedInitialVFlightPath.new p_start p_end a_max initial_v
                 = Some (Legacy.FlightPath.mk
                           (2 * sqrt ((dist + back) / a_max) - q)
                           (fun t => Legacy.LineFlightPath.rocketPosition
                                       (Legacy.LineFlightPath.mk
                                          (Vec2.sub p_start (Vec2.mul d back))
                                          p_end a_max (dist + back) d
                                          (2 * sqrt ((dist + back) / a_max)))
                                       (t + q))
                           (fun t => Legacy.LineFlightPath.rocketVelocity
                                       (Legacy.LineFlightPath.mk
                                          (Vec2.sub p_start (Vec2.mul d back))
                                          p_end a_max (dist + back) d
                                          (2 * sqrt ((dist + back) / a_max)))
                                       (t + q)))).
  { unfold Legacy.DirectedInitialVFlightPath.new.
    fold dist. rewrite Hd, Hb. rewrite Hdtb, Httb.
    rewrite (Rltb_false initial_v 0) by assumption.
    rewrite Rltb_false by assumption. cbn [orb].
    rewrite Hl. reflexivity. }
  split; [exact Hnew |]. split; [exact Hl |].
  cbn [Legacy.FlightPath.t_max Legacy.FlightPath.rocketPosition
       Legacy.FlightPath.rocketVelocity Legacy.LineFlightPath.t_max].
  split; [reflexivity |]. split; [intros t; split; reflexivity |].
  pose proof (time_to_initial_v_bound a_max initial_v dist Ha Hv Hfeasible)
    as Hhalf.
  fold q in Hhalf. fold back in Hhalf.
  unfold Legacy.LineFlightPath.rocketPosition,
    Legacy.LineFlightPath.rocketVelocity.
  cbn [Legacy.LineFlightPath.t_max Legacy.LineFlightPath.p_start
       Legacy.LineFlightPath.direction Legacy.LineFlightPath.a_max].
  rewrite Rleb_true by lra.
  assert (Hvel : Vec2.mul d (a_max * (0 + q)) = Vec2.mul d initial_v).
  { apply Vec2_eq; cbn; unfold q; field; lra. }
  split; [| split].
  - apply Vec2_eq; cbn; unfold back; ring.
  - exact Hvel.
  - rewrite Hvel. apply length_unit_mul; assumption.
Qed.

(** * Further properties of the engine *)

(** ** Vec2: scaling, normalising, products *)

(** X1: dividing by zero throws 'Division by zero'; for any other [s],
    [a.mul(s).div(s)] gives back [a] and so does [a.div(s).mul(s)]. *)
Theorem Vec2_mul_div_round_trip (a : Vec2.t) (s : R) :
  s <> 0 ->
  Vec2.div a 0 = Throw DivisionByZero
  /\ Vec2.div (Vec2.mul a s) s = Ok a
  /\ exists d, Vec2.div a s = Ok d /\ Vec2.mul d s = a.
Proof.
  intros Hs. unfold Vec2.div.
  rewrite (Reqb_true 0 0) by reflexivity.
  rewrite (Reqb_false s 0) by assumption.
  split; [reflexivity |]. split.
  - f_equal. apply Vec2_eq; cbn; field; assumption.
  - eexists. split; [reflexivity |]. apply Vec2_eq; cbn; field; assumption.
Qed.

Lemma Vec2_mul_div_round_trip_witness :
  Vec2.div (Vec2.mk 1 2) 0 = Throw DivisionByZero
  /\ Vec2.div (Vec2.mul (Vec2.mk 1 2) 2) 2 = Ok (Vec2.mk 1 2)
  /\ exists d, Vec2.div (Vec2.mk 1 2) 2 = Ok d /\ Vec2.mul d 2 = Vec2.mk 1 2.
Proof. apply (Vec2_mul_div_round_trip (Vec2.mk 1 2) 2). lra. Defined.


(** X3: the dot and the cross product of two vectors are tied to their
    lengths by Lagrange's identity, [dot^2 + cross^2 = |a|^2 * |b|^2]; in
    particular [|a.dot(b)| <= |a| * |b|]. *)
Theorem Vec2_dot_cross_lengths (a b : Vec2.t) :
  Vec2.dot a b ^ 2 + Vec2.cross a b ^ 2
  = Vec2.length a ^ 2 * Vec2.length b ^ 2
  /\ Rabs (Vec2.dot a b) <= Vec2.length a * Vec2.length b.
Proof.
  assert (Hsq : forall v, Vec2.length v ^ 2
                          = Vec2.x v * Vec2.x v + Vec2.y v * Vec2.y v).
  { intros v. unfold Vec2.length. rewrite pow2_sqrt; [reflexivity |].
    apply sum_squares_nonneg. }
  assert (Hlag : Vec2.dot a b ^ 2 + Vec2.cross a b ^ 2
                 = Vec2.length a ^ 2 * Vec2.length b ^ 2).
  { rewrite !Hsq. unfold Vec2.dot, Vec2.cross. ring. }
  split; [exact Hlag |].
  pose proof (length_nonneg a) as Ha. pose proof (length_nonneg b) as Hb.
  assert (HP : 0 <= Vec2.length a * Vec2.length b) by (apply Rmult_le_pos; assumption).
  assert (Hle : Vec2.dot a b ^ 2 <= (Vec2.length a * Vec2.length b) ^ 2).
  { replace ((Vec2.length a * Vec2.length b) ^ 2)
      with (Vec2.length a ^ 2 * Vec2.length b ^ 2) by ring.
    rewrite <- Hlag. pose proof (pow2_ge_0 (Vec2.cross a b)). lra. }
  set (P := Vec2.length a * Vec2.length b) in *.
  set (d := Vec2.dot a b) in *.
  apply Rabs_le. split; nra.
Qed.

(** ** BreakFlightPath: the braking motion *)

Lemma length_mul_abs (a : Vec2.t) (s : R) :
  Vec2.length (Vec2.mul a s) = Vec2.length a * Rabs s.
Proof.
  unfold Vec2.length, Vec2.mul; cbn.
  replace (Vec2.x a * s * (Vec2.x a * s) + Vec2.y a * s * (Vec2.y a * s))
    with ((Vec2.x a * Vec2.x a + Vec2.y a * Vec2.y a) * s²)
    by (unfold Rsqr; ring).
  rewrite sqrt_mult_alt by apply sum_squares_nonneg.
  rewrite sqrt_Rsqr_abs. reflexivity.
Qed.

(** The constructed instance, with the unit vector of the initial velocity
    tied to the velocity itself. *)
Lemma BreakFlightPath_new_fields
    (p_start : Vec2.t) (a_max : R) (initial_v : Vec2.t) :
  0 < a_max ->
  exists n,
    Vec2.normOrZero initial_v = Ok n
    /\ initial_v = Vec2.mul n (Vec2.length initial_v)
    /\ (Vec2.length initial_v <> 0 -> Vec2.length n = 1)
    /\ BreakFlightPath.new p_start a_max initial_v
       = Ok (BreakFlightPath.mk
               (Vec2.length initial_v / a_max)
               (0.5 * a_max * (Vec2.length initial_v / a_max)
                * (Vec2.length initial_v / a_max))
               n
               (Vec2.add p_start
                  (Vec2.mul n (0.5 * a_max * (Vec2.length initial_v / a_max)
                               * (Vec2.length initial_v / a_max))))
               a_max
               (Vec2.length initial_v / a_max)).
Proof.
  intros Ha.
  destruct (normOrZero_total initial_v) as (n & Hn & Hv & Hunit).
  destruct (BreakFlightPath_new_ok p_start a_max initial_v Ha) as (n' & Hn' & Hnew).
  rewrite Hn in Hn'. injection Hn' as <-.
  exists n. auto.
Qed.

(** X4: while braking ([0 <= t <= time_to_break]) the path follows the
    textbook equations from the start: position
    [p_start + initial_v * t - u * (a_max * t^2 / 2)] and velocity
    [initial_v - u * (a_max * t)], with [u = normOrZero(initial_v)]; in
    particular it starts at [p_start] with velocity [initial_v]. *)
Theorem BreakFlightPath_forward_kinematics
    (p_start : Vec2.t) (a_max : R) (initial_v : Vec2.t) (t : R) :
  0 < a_max -> 0 <= t <= Vec2.length initial_v / a_max ->
  exists self u,
    BreakFlightPath.new p_start a_max initial_v = Ok self
    /\ Vec2.normOrZero initial_v = Ok u
    /\ BreakFlightPath.rocketPosition self t
       = Ok (Vec2.sub (Vec2.add p_start (Vec2.mul initial_v t))
                      (Vec2.mul u (a_max * t * t / 2)))
    /\ BreakFlightPath.rocketVelocity self t
       = Ok (Vec2.sub initial_v (Vec2.mul u (a_max * t)))
    /\ BreakFlightPath.rocketPosition self 0 = Ok p_start
    /\ BreakFlightPath.rocketVelocity self 0 = Ok initial_v.
Proof.
  intros Ha [Ht0 Ht1].
  destruct (BreakFlightPath_new_fields p_start a_max initial_v Ha)
    as (n & Hn & Hv & _ & Hnew).
  eexists. exists n. split; [exact Hnew |]. split; [exact Hn |].
  unfold BreakFlightPath.rocketPosition, BreakFlightPath.rocketVelocity.
  cbn [BreakFlightPath.time_to_break BreakFlightPath.p_end
       BreakFlightPath.norm BreakFlightPath.a_max].
  set (L := Vec2.length initial_v) in *.
  set (T := L / a_max) in *.
  assert (HL : L = a_max * T) by (unfold T; field; lra).
  apply (f_equal Vec2.x) in Hv as Hx. apply (f_equal Vec2.y) in Hv as Hy.
  cbn in Hx, Hy. rewrite HL in Hx, Hy.
  rewrite (Rltb_false t 0) by assumption.
  rewrite (Rltb_false 0 0) by lra.
  rewrite (Rleb_true t T) by assumption.
  rewrite (Rleb_true 0 T) by lra.
  repeat split; f_equal; apply Vec2_eq; cbn; rewrite ?Hx, ?Hy; lra.
Qed.

Lemma BreakFlightPath_forward_kinematics_witness :
  exists self u,
    BreakFlightPath.new Vec2.zero 10 (Vec2.mk 10 0) = Ok self
    /\ Vec2.normOrZero (Vec2.mk 10 0) = Ok u
    /\ BreakFlightPath.rocketPosition self 0
       = Ok (Vec2.sub (Vec2.add Vec2.zero (Vec2.mul (Vec2.mk 10 0) 0))
                      (Vec2.mul u (10 * 0 * 0 / 2)))
    /\ BreakFlightPath.rocketVelocity self 0
       = Ok (Vec2.sub (Vec2.mk 10 0) (Vec2.mul u (10 * 0)))
    /\ BreakFlightPath.rocketPosition self 0 = Ok Vec2.zero
    /\ BreakFlightPath.rocketVelocity self 0 = Ok (Vec2.mk 10 0).
Proof.
  apply (BreakFlightPath_forward_kinematics Vec2.zero 10 (Vec2.mk 10 0) 0);
    [lra |].
  split; [lra |]. apply time_to_break_nonneg. lra.
Defined.

(** X5: braking from [initial_v] takes [|initial_v| / a_max], covers the
    distance [|initial_v|^2 / (2 * a_max)] in a straight line, and at every
    time [t] of the braking the speed is [|initial_v| - a_max * t]. *)
Theorem BreakFlightPath_braking_distance
    (p_start : Vec2.t) (a_max : R) (initial_v : Vec2.t) (t : R) :
  0 < a_max -> 0 <= t <= Vec2.length initial_v / a_max ->
  exists self v,
    BreakFlightPath.new p_start a_max initial_v = Ok self
    /\ BreakFlightPath.getMaxTime self = Vec2.length initial_v / a_max
    /\ BreakFlightPath.getDistanceToBreak self
       = Vec2.length initial_v ^ 2 / (2 * a_max)
    /\ Vec2.length (Vec2.sub (BreakFlightPath.getEndPosition self) p_start)
       = BreakFlightPath.getDistanceToBreak self
    /\ BreakFlightPath.rocketVelocity self t = Ok v
    /\ Vec2.length v = Vec2.length initial_v - a_max * t.
Proof.
  intros Ha [Ht0 Ht1].
  destruct (BreakFlightPath_new_fields p_start a_max initial_v Ha)
    as (n & Hn & Hv & Hunit & Hnew).
  eexists. eexists. split; [exact Hnew |].
  unfold BreakFlightPath.getMaxTime, BreakFlightPath.getDistanceToBreak,
    BreakFlightPath.getEndPosition, BreakFlightPath.rocketVelocity.
  cbn [BreakFlightPath.time_to_break BreakFlightPath.p_end
       BreakFlightPath.norm BreakFlightPath.a_max BreakFlightPath.t_max
       BreakFlightPath.dist_to_break].
  pose proof (length_nonneg initial_v) as HL0.
  set (L := Vec2.length initial_v) in *.
  set (T := L / a_max) in *.
  assert (HL : L = a_max * T) by (unfold T; field; lra).
  assert (HT : 0 <= T) by (unfold T; apply time_to_break_nonneg; assumption).
  rewrite (Rltb_false t 0) by assumption.
  rewrite (Rleb_true t T) by assumption.
  assert (Hdtb : L ^ 2 / (2 * a_max) = a_max * T * T / 2)
    by (rewrite HL; field; lra).
  split; [reflexivity |]. split; [lra |].
  assert (Hscaled : forall k, 0 <= k -> Vec2.length (Vec2.mul n k) * a_max
                                        = k * a_max * (if L === 0 then 0 else 1)).
  { intros k Hk. rewrite length_mul by assumption.
    destruct (Req_dec_T L 0) as [H0 | Hne].
    - rewrite (Reqb_true _ _ H0).
      assert (Hz : n = Vec2.zero).
      { unfold Vec2.normOrZero in Hn. fold L in Hn.
        rewrite (Reqb_true _ _ H0) in Hn. injection Hn as <-. reflexivity. }
      rewrite Hz. replace (Vec2.length Vec2.zero) with 0; [ring |].
      symmetry. apply length_zero_iff. reflexivity.
    - rewrite (Reqb_false _ _ Hne). rewrite (Hunit Hne). ring. }
  split; [| split; [reflexivity |]].
  - replace (Vec2.sub (Vec2.add p_start (Vec2.mul n (0.5 * a_max * T * T))) p_start)
      with (Vec2.mul n (0.5 * a_max * T * T)) by (apply Vec2_eq; cbn; ring).
    apply Rmult_eq_reg_r with a_max; [| lra].
    rewrite Hscaled by nra.
    destruct (Req_dec_T L 0) as [H0 | Hne].
    + rewrite (Reqb_true _ _ H0).
      assert (HT0 : T = 0) by (unfold T; rewrite H0; unfold Rdiv; ring).
      rewrite HT0. ring.
    + rewrite (Reqb_false _ _ Hne). ring.
  - apply Rmult_eq_reg_r with a_max; [| lra].
    fold L. fold T.
    rewrite Hscaled by (apply Rmult_le_pos; lra).
    destruct (Req_dec_T L 0) as [H0 | Hne].
    + rewrite (Reqb_true _ _ H0).
      assert (HT0 : T = 0) by (unfold T; rewrite H0; unfold Rdiv; ring).
      assert (Ht : t = 0) by lra. rewrite Ht, HT0, H0. ring.
    + rewrite (Reqb_false _ _ Hne). rewrite HL. ring.
Qed.

Lemma BreakFlightPath_braking_distance_witness :
  exists self v,
    BreakFlightPath.new Vec2.zero 10 (Vec2.mk 10 0) = Ok self
    /\ BreakFlightPath.getMaxTime self = Vec2.length (Vec2.mk 10 0) / 10
    /\ BreakFlightPath.getDistanceToBreak self
       = Vec2.length (Vec2.mk 10 0) ^ 2 / (2 * 10)
    /\ Vec2.length (Vec2.sub (BreakFlightPath.getEndPosition self) Vec2.zero)
       = BreakFlightPath.getDistanceToBreak self
    /\ BreakFlightPath.rocketVelocity self 0 = Ok v
    /\ Vec2.length v = Vec2.length (Vec2.mk 10 0) - 10 * 0.
Proof.
  apply (BreakFlightPath_braking_distance Vec2.zero 10 (Vec2.mk 10 0) 0);
    [lra |].
  split; [lra |]. apply time_to_break_nonneg. lra.
Defined.

(** ** LineFlightPath: the shape of the motion *)

(** Half the duration, squared and scaled by [a_max], is the distance. *)
Lemma line_half_time (dist a_max : R) :
  0 < dist -> 0 < a_max ->
  0 < 2 * sqrt (dist / a_max)
  /\ a_max * (2 * sqrt (dist / a_max) / 2) * (2 * sqrt (dist / a_max) / 2)
     = dist.
Proof.
  intros Hd Ha. split; [apply line_t_max_pos; assumption |].
  replace (2 * sqrt (dist / a_max) / 2) with (sqrt (dist / a_max)) by field.
  rewrite Rmult_assoc, sqrt_sqrt; [field; lra |].
  left. apply Rdiv_lt_0_compat; assumption.
Qed.

(** Position and velocity of a line path at a time [t >= 0], as distance
    [s] travelled along the unit direction and signed speed [sigma]. *)
Lemma LineFlightPath_profile
    (p_start p_end d : Vec2.t) (a_max dist T t : R) :
  0 < dist -> 0 < a_max -> 0 < T -> a_max * (T / 2) * (T / 2) = dist ->
  Vec2.sub p_end p_start = Vec2.mul d dist ->
  0 <= t ->
  exists s sigma,
    LineFlightPath.rocketPosition
      (LineFlightPath.mk p_start p_end a_max dist d T) t
    = Ok (Vec2.add p_start (Vec2.mul d s))
    /\ LineFlightPath.rocketVelocity
         (LineFlightPath.mk p_start p_end a_max dist d T) t
       = Ok (Vec2.mul d sigma)
    /\ ((t <= T / 2 /\ s = a_max * t * t / 2 /\ sigma = a_max * t)
        \/ (T / 2 < t <= T
            /\ s = dist - a_max * (T - t) * (T - t) / 2
            /\ sigma = a_max * (T - t))
        \/ (T < t /\ s = dist /\ sigma = 0)).
Proof.
  intros Hd Ha HT Hhalf Hdd Ht.
  apply (f_equal Vec2.x) in Hdd as Hx. apply (f_equal Vec2.y) in Hdd as Hy.
  cbn in Hx, Hy.
  unfold LineFlightPath.rocketPosition, LineFlightPath.rocketVelocity.
  cbn [LineFlightPath.t_max LineFlightPath.distance LineFlightPath.direction
       LineFlightPath.p_start LineFlightPath.p_end LineFlightPath.a_max].
  rewrite (Rltb_false t 0) by assumption.
  rewrite (Reqb_false dist 0) by lra.
  destruct (Rle_dec t (T / 2)) as [H1 | H1].
  - rewrite (Rleb_true _ _ H1).
    exists (a_max * t * t / 2), (a_max * t).
    split; [f_equal; apply Vec2_eq; cbn; lra |].
    split; [reflexivity |]. left. auto.
  - apply Rnot_le_lt in H1. rewrite (Rleb_false _ _ H1).
    destruct (Rle_dec t T) as [H2 | H2].
    + rewrite (Rleb_true _ _ H2).
      exists (dist - a_max * (T - t) * (T - t) / 2), (a_max * (T - t)).
      split; [f_equal; apply Vec2_eq; cbn; lra |].
      split; [f_equal; apply Vec2_eq; cbn; lra |].
      right; left. auto.
    + apply Rnot_le_lt in H2. rewrite (Rleb_false _ _ H2).
      exists dist, 0.
      split; [f_equal; apply Vec2_eq; cbn; lra |].
      split; [rewrite mul_zero_r; reflexivity |].
      right; right. auto.
Qed.

(** The constructed line path with what the profile needs. *)
Lemma LineFlightPath_new_profile (p_start p_end : Vec2.t) (a_max : R) :
  p_start <> p_end -> 0 < a_max ->
  exists d dist T,
    dist = Vec2.length (Vec2.sub p_end p_start)
    /\ T = 2 * sqrt (dist / a_max)
    /\ 0 < dist /\ 0 < T /\ a_max * (T / 2) * (T / 2) = dist
    /\ Vec2.length d = 1
    /\ Vec2.sub p_end p_start = Vec2.mul d dist
    /\ LineFlightPath.new p_start p_end a_max
       = Ok (LineFlightPath.mk p_start p_end a_max dist d T).
Proof.
  intros Hne Ha.
  destruct (LineFlightPath_new_ok p_start p_end a_max Hne Ha)
    as (d & Hlen & Hdd & Hnew).
  pose proof (distance_pos p_start p_end Hne) as Hd.
  destruct (line_half_time _ _ Hd Ha) as (HT & Hhalf).
  exists d, (Vec2.length (Vec2.sub p_end p_start)),
    (2 * sqrt (Vec2.length (Vec2.sub p_end p_start) / a_max)).
  repeat split; auto.
Qed.

(** X6: at half time a line path is exactly half way between its two
    points, and the formula of the deceleration phase gives the same point
    there: the two phases join without a jump. *)
Theorem LineFlightPath_midpoint (p_start p_end : Vec2.t) (a_max : R) :
  p_start <> p_end -> 0 < a_max ->
  exists self,
    LineFlightPath.new p_start p_end a_max = Ok self
    /\ LineFlightPath.rocketPosition self (LineFlightPath.getMaxTime self / 2)
       = Ok (Vec2.mul (Vec2.add p_start p_end) (1 / 2))
    /\ Vec2.add (LineFlightPath.p_end self)
         (Vec2.mul (LineFlightPath.direction self)
            (-0.5 * LineFlightPath.a_max self
             * (LineFlightPath.getMaxTime self
                - LineFlightPath.getMaxTime self / 2)
             * (LineFlightPath.getMaxTime self
                - LineFlightPath.getMaxTime self / 2)))
       = Vec2.mul (Vec2.add p_start p_end) (1 / 2).
Proof.
  intros Hne Ha.
  destruct (LineFlightPath_new_profile p_start p_end a_max Hne Ha)
    as (d & dist & T & _ & _ & Hd & HT & Hhalf & _ & Hdd & Hnew).
  eexists. split; [exact Hnew |].
  unfold LineFlightPath.getMaxTime.
  cbn [LineFlightPath.t_max LineFlightPath.p_end LineFlightPath.direction
       LineFlightPath.a_max].
  destruct (LineFlightPath_profile p_start p_end d a_max dist T (T / 2)
              Hd Ha HT Hhalf Hdd) as (s & sigma & Hpos & _ & Hcase); [lra |].
  apply (f_equal Vec2.x) in Hdd as Hx. apply (f_equal Vec2.y) in Hdd as Hy.
  cbn in Hx, Hy.
  split.
  - rewrite Hpos. f_equal.
    destruct Hcase as [(_ & Hs & _) | [(? & _) | (? & _)]]; try lra.
    assert (Hs' : s = dist / 2) by lra. rewrite Hs'.
    apply Vec2_eq; cbn; lra.
  - replace (-0.5 * a_max * (T - T / 2) * (T - T / 2)) with (- dist / 2) by lra.
    apply Vec2_eq; cbn; lra.
Qed.

Lemma LineFlightPath_midpoint_witness :
  exists self,
    LineFlightPath.new Vec2.zero (Vec2.mk 1 0) 1 = Ok self
    /\ LineFlightPath.rocketPosition self (LineFlightPath.getMaxTime self / 2)
       = Ok (Vec2.mul (Vec2.add Vec2.zero (Vec2.mk 1 0)) (1 / 2))
    /\ Vec2.add (LineFlightPath.p_end self)
         (Vec2.mul (LineFlightPath.direction self)
            (-0.5 * LineFlightPath.a_max self
             * (LineFlightPath.getMaxTime self
                - LineFlightPath.getMaxTime self / 2)
             * (LineFlightPath.getMaxTime self
                - LineFlightPath.getMaxTime self / 2)))
       = Vec2.mul (Vec2.add Vec2.zero (Vec2.mk 1 0)) (1 / 2).
Proof.
  apply (LineFlightPath_midpoint Vec2.zero (Vec2.mk 1 0) 1);
    [exact unit_x_ne_zero | lra].
Defined.

(** X7: a line path is symmetric in time: for [0 <= t <= t_max] the
    positions at [t] and at [t_max - t] are mirror images about the middle
    of the segment (they add up to [p_start + p_end]) and the velocities at
    the two times are equal. *)
Theorem LineFlightPath_time_symmetry
    (p_start p_end : Vec2.t) (a_max t : R) :
  p_start <> p_end -> 0 < a_max ->
  0 <= t <= 2 * sqrt (Vec2.length (Vec2.sub p_end p_start) / a_max) ->
  exists self p p' v,
    LineFlightPath.new p_start p_end a_max = Ok self
    /\ LineFlightPath.rocketPosition self t = Ok p
    /\ LineFlightPath.rocketPosition self (LineFlightPath.getMaxTime self - t)
       = Ok p'
    /\ Vec2.add p p' = Vec2.add p_start p_end
    /\ LineFlightPath.rocketVelocity self t = Ok v
    /\ LineFlightPath.rocketVelocity self (LineFlightPath.getMaxTime self - t)
       = Ok v.
Proof.
  intros Hne Ha Ht.
  destruct (LineFlightPath_new_profile p_start p_end a_max Hne Ha)
    as (d & dist & T & -> & -> & Hd & HT & Hhalf & _ & Hdd & Hnew).
  set (dist := Vec2.length (Vec2.sub p_end p_start)) in *.
  set (T := 2 * sqrt (dist / a_max)) in *.
  destruct (LineFlightPath_profile p_start p_end d a_max dist T t
              Hd Ha HT Hhalf Hdd) as (s & sigma & Hpos & Hvel & Hcase); [lra |].
  destruct (LineFlightPath_profile p_start p_end d a_max dist T (T - t)
              Hd Ha HT Hhalf Hdd) as (s' & sigma' & Hpos' & Hvel' & Hcase');
    [lra |].
  assert (Hsym : s' = dist - s /\ sigma' = sigma).
  { destruct Hcase as [(H1 & -> & ->) | [(H1 & -> & ->) | (H1 & _)]];
      destruct Hcase' as [(H2 & -> & ->) | [(H2 & -> & ->) | (H2 & _)]];
      try lra.
    assert (Heq : t = T / 2) by lra. rewrite Heq.
    replace (T - T / 2) with (T / 2) by lra. split; lra. }
  destruct Hsym as (-> & ->).
  eexists. exists (Vec2.add p_start (Vec2.mul d s)).
  exists (Vec2.add p_start (Vec2.mul d (dist - s))), (Vec2.mul d sigma).
  split; [exact Hnew |]. unfold LineFlightPath.getMaxTime.
  cbn [LineFlightPath.t_max].
  split; [exact Hpos |]. split; [exact Hpos' |].
  split; [| split; assumption].
  apply (f_equal Vec2.x) in Hdd as Hx. apply (f_equal Vec2.y) in Hdd as Hy.
  cbn in Hx, Hy. apply Vec2_eq; cbn; lra.
Qed.

Lemma example_duration_nonneg :
  0 <= 0 <= 2 * sqrt (Vec2.length (Vec2.sub (Vec2.mk 1 0) Vec2.zero) / 1).
Proof.
  split; [lra |]. pose proof (sqrt_pos (Vec2.length (Vec2.sub (Vec2.mk 1 0) Vec2.zero) / 1)).
  lra.
Qed.

Lemma LineFlightPath_time_symmetry_witness :
  exists self p p' v,
    LineFlightPath.new Vec2.zero (Vec2.mk 1 0) 1 = Ok self
    /\ LineFlightPath.rocketPosition self 0 = Ok p
    /\ LineFlightPath.rocketPosition self (LineFlightPath.getMaxTime self - 0)
       = Ok p'
    /\ Vec2.add p p' = Vec2.add Vec2.zero (Vec2.mk 1 0)
    /\ LineFlightPath.rocketVelocity self 0 = Ok v
    /\ LineFlightPath.rocketVelocity self (LineFlightPath.getMaxTime self - 0)
       = Ok v.
Proof.
  apply (LineFlightPath_time_symmetry Vec2.zero (Vec2.mk 1 0) 1 0);
    [exact unit_x_ne_zero | lra | exact example_duration_nonneg].
Defined.

(** X8: a line path never leaves the segment between its two points: at
    every time [t >= 0] the position is [p_start + (p_end - p_start) * k]
    for some [0 <= k <= 1], and from [t_max] on it is [p_end]. *)
Theorem LineFlightPath_stays_on_segment
    (p_start p_end : Vec2.t) (a_max t : R) :
  p_start <> p_end -> 0 < a_max -> 0 <= t ->
  exists self k,
    LineFlightPath.new p_start p_end a_max = Ok self
    /\ 0 <= k <= 1
    /\ LineFlightPath.rocketPosition self t
       = Ok (Vec2.add p_start (Vec2.mul (Vec2.sub p_end p_start) k))
    /\ (LineFlightPath.getMaxTime self <= t ->
        LineFlightPath.rocketPosition self t = Ok p_end).
Proof.
  intros Hne Ha Ht.
  destruct (LineFlightPath_new_profile p_start p_end a_max Hne Ha)
    as (d & dist & T & _ & _ & Hd & HT & Hhalf & _ & Hdd & Hnew).
  destruct (LineFlightPath_profile p_start p_end d a_max dist T t
              Hd Ha HT Hhalf Hdd Ht) as (s & sigma & Hpos & _ & Hcase).
  assert (Hs : 0 <= s <= dist /\ (T <= t -> s = dist)).
  { destruct Hcase as [(H1 & -> & _) | [(H1 & -> & _) | (H1 & -> & _)]].
    - assert (Hsq : t * t <= T / 2 * (T / 2)) by nra.
      assert (Hsq' : a_max * (t * t) <= a_max * (T / 2 * (T / 2)))
        by (apply Rmult_le_compat_l; lra).
      split; [split; nra | intros; lra].
    - assert (Hsq : (T - t) * (T - t) <= T / 2 * (T / 2)) by nra.
      assert (Hsq' : a_max * ((T - t) * (T - t)) <= a_max * (T / 2 * (T / 2)))
        by (apply Rmult_le_compat_l; lra).
      assert (Hnn : 0 <= a_max * ((T - t) * (T - t)))
        by (apply Rmult_le_pos; [lra | apply Rle_0_sqr]).
      split; [split; lra |]. intros HTt.
      assert (Heq : t = T) by lra. rewrite Heq.
      replace (T - T) with 0 by ring. lra.
    - split; [lra | reflexivity]. }
  destruct Hs as ((Hs0 & Hs1) & Hend).
  eexists. exists (s / dist).
  split; [exact Hnew |].
  assert (Hk : 0 <= s / dist <= 1).
  { split.
    - apply Rmult_le_pos; [assumption |]. left. apply Rinv_0_lt_compat. assumption.
    - apply Rmult_le_reg_r with dist; [assumption |].
      unfold Rdiv. rewrite Rmult_assoc, Rinv_l by lra. lra. }
  split; [exact Hk |].
  apply (f_equal Vec2.x) in Hdd as Hx. apply (f_equal Vec2.y) in Hdd as Hy.
  cbn in Hx, Hy.
  assert (Hscale : forall c, c * dist * (s / dist) = c * s)
    by (intros c; field; lra).
  split.
  - rewrite Hpos. f_equal. apply Vec2_eq; cbn; rewrite ?Hx, ?Hy, Hscale;
      reflexivity.
  - unfold LineFlightPath.getMaxTime. cbn [LineFlightPath.t_max].
    intros HTt. rewrite Hpos, (Hend HTt). f_equal. apply Vec2_eq; cbn; lra.
Qed.

Lemma LineFlightPath_stays_on_segment_witness :
  exists self k,
    LineFlightPath.new Vec2.zero (Vec2.mk 1 0) 1 = Ok self
    /\ 0 <= k <= 1
    /\ LineFlightPath.rocketPosition self 5
       = Ok (Vec2.add Vec2.zero (Vec2.mul (Vec2.sub (Vec2.mk 1 0) Vec2.zero) k))
    /\ (LineFlightPath.getMaxTime self <= 5 ->
        LineFlightPath.rocketPosition self 5 = Ok (Vec2.mk 1 0)).
Proof.
  apply (LineFlightPath_stays_on_segment Vec2.zero (Vec2.mk 1 0) 1 5);
    [exact unit_x_ne_zero | lra | lra].
Defined.

(** X9: a line path respects the acceleration bound: between any two times
    [0 <= t1 <= t2] the velocity changes by at most [a_max * (t2 - t1)] in
    length, and the speed never exceeds the peak [a_max * t_max / 2]. *)
Theorem LineFlightPath_acceleration_bounded
    (p_start p_end : Vec2.t) (a_max t1 t2 : R) :
  p_start <> p_end -> 0 < a_max -> 0 <= t1 <= t2 ->
  exists self v1 v2,
    LineFlightPath.new p_start p_end a_max = Ok self
    /\ LineFlightPath.rocketVelocity self t1 = Ok v1
    /\ LineFlightPath.rocketVelocity self t2 = Ok v2
    /\ Vec2.length (Vec2.sub v2 v1) <= a_max * (t2 - t1)
    /\ Vec2.length v1 <= a_max * (LineFlightPath.getMaxTime self / 2).
Proof.
  intros Hne Ha [Ht1 Ht12].
  destruct (LineFlightPath_new_profile p_start p_end a_max Hne Ha)
    as (d & dist & T & _ & _ & Hd & HT & Hhalf & Hlen & Hdd & Hnew).
  destruct (LineFlightPath_profile p_start p_end d a_max dist T t1
              Hd Ha HT Hhalf Hdd Ht1) as (s1 & g1 & _ & Hv1 & Hc1).
  destruct (LineFlightPath_profile p_start p_end d a_max dist T t2
              Hd Ha HT Hhalf Hdd) as (s2 & g2 & _ & Hv2 & Hc2); [lra |].
  eexists. exists (Vec2.mul d g1), (Vec2.mul d g2).
  split; [exact Hnew |]. split; [exact Hv1 |]. split; [exact Hv2 |].
  unfold LineFlightPath.getMaxTime. cbn [LineFlightPath.t_max].
  replace (Vec2.sub (Vec2.mul d g2) (Vec2.mul d g1)) with (Vec2.mul d (g2 - g1))
    by (apply Vec2_eq; cbn; ring).
  rewrite !length_mul_abs, Hlen, !Rmult_1_l.
  assert (Hg : - (a_max * (t2 - t1)) <= g2 - g1 <= a_max * (t2 - t1)
               /\ 0 <= g1 <= a_max * (T / 2)).
  { destruct Hc1 as [(H1 & _ & ->) | [(H1 & _ & ->) | (H1 & _ & ->)]];
      destruct Hc2 as [(H2 & _ & ->) | [(H2 & _ & ->) | (H2 & _ & ->)]];
      repeat split; nra. }
  destruct Hg as (Hdiff & Hpeak).
  split; [apply Rabs_le; exact Hdiff |].
  rewrite Rabs_pos_eq; lra.
Qed.

Lemma LineFlightPath_acceleration_bounded_witness :
  exists self v1 v2,
    LineFlightPath.new Vec2.zero (Vec2.mk 1 0) 1 = Ok self
    /\ LineFlightPath.rocketVelocity self 0 = Ok v1
    /\ LineFlightPath.rocketVelocity self 1 = Ok v2
    /\ Vec2.length (Vec2.sub v2 v1) <= 1 * (1 - 0)
    /\ Vec2.length v1 <= 1 * (LineFlightPath.getMaxTime self / 2).
Proof.
  apply (LineFlightPath_acceleration_bounded Vec2.zero (Vec2.mk 1 0) 1 0 1);
    [exact unit_x_ne_zero | lra | lra].
Defined.

(** X10: between a point and itself the line path is the constant path:
    duration zero, and at every time [t >= 0] position [p] and velocity
    zero. *)
Theorem LineFlightPath_degenerate (p : Vec2.t) (a_max t : R) :
  0 < a_max -> 0 <= t ->
  exists self,
    LineFlightPath.new p p a_max = Ok self
    /\ LineFlightPath.getMaxTime self = 0
    /\ LineFlightPath.getDirection self = Vec2.zero
    /\ LineFlightPath.rocketPosition self t = Ok p
    /\ LineFlightPath.rocketVelocity self t = Ok Vec2.zero.
Proof.
  intros Ha Ht. eexists.
  split; [apply LineFlightPath_new_same; assumption |].
  unfold LineFlightPath.rocketPosition, LineFlightPath.rocketVelocity.
  cbn [LineFlightPath.distance LineFlightPath.p_start].
  rewrite Rltb_false by assumption.
  rewrite (Reqb_true _ 0 (sub_self p)).
  repeat split; reflexivity.
Qed.

Lemma LineFlightPath_degenerate_witness :
  exists self,
    LineFlightPath.new (Vec2.mk 1 2) (Vec2.mk 1 2) 3 = Ok self
    /\ LineFlightPath.getMaxTime self = 0
    /\ LineFlightPath.getDirection self = Vec2.zero
    /\ LineFlightPath.rocketPosition self 4 = Ok (Vec2.mk 1 2)
    /\ LineFlightPath.rocketVelocity self 4 = Ok Vec2.zero.
Proof.
  apply (LineFlightPath_degenerate (Vec2.mk 1 2) 3 4); lra.
Defined.

(** ** Constructors: what they reject and what they accept *)

Lemma LineFlightPath_new_total (p_start p_end : Vec2.t) (a_max : R) :
  0 < a_max -> exists self, LineFlightPath.new p_start p_end a_max = Ok self.
Proof.
  intros Ha. unfold LineFlightPath.new.
  rewrite Rleb_false by assumption.
  destruct (Req_dec_T (Vec2.length (Vec2.sub p_end p_start)) 0) as [H0 | Hne].
  - rewrite (Reqb_true _ _ H0). eauto.
  - rewrite (Reqb_false _ _ Hne).
    destruct (div_length _ Hne) as (d & -> & _). cbn. eauto.
Qed.

Lemma BreakFlightPath_new_total (p_start : Vec2.t) (a_max : R) (initial_v : Vec2.t) :
  0 < a_max -> exists self, BreakFlightPath.new p_start a_max initial_v = Ok self.
Proof.
  intros Ha.
  destruct (BreakFlightPath_new_ok p_start a_max initial_v Ha) as (n & _ & H).
  eauto.
Qed.

Lemma DirectedInitialVFlightPath_new_total
    (p_start p_end : Vec2.t) (a_max initial_v : R) :
  0 < a_max ->
  exists self, DirectedInitialVFlightPath.new p_start p_end a_max initial_v = Ok self.
Proof.
  intros Ha. unfold DirectedInitialVFlightPath.new.
  rewrite Rleb_false by assumption.
  destruct (Req_dec_T (Vec2.length (Vec2.sub p_end p_start)) 0) as [H0 | Hne].
  - rewrite (Reqb_true _ _ H0).
    destruct (BreakFlightPath_new_total p_start a_max (Vec2.mk initial_v 0) Ha)
      as (b & ->). cbn. eauto.
  - rewrite (Reqb_false _ _ Hne).
    destruct (div_length _ Hne) as (d & -> & _). cbn [bind].
    destruct (BreakFlightPath_new_total p_start a_max (Vec2.mul d initial_v) Ha)
      as (b & ->). cbn [bind].
    destruct ((initial_v <? 0)
              || (BreakFlightPath.getDistanceToBreak b
                  >? Vec2.length (Vec2.sub p_end p_start))).
    + destruct (LineFlightPath_new_total
                  (BreakFlightPath.getEndPosition b) p_end a_max Ha) as (l & ->).
      cbn. eauto.
    + destruct (LineFlightPath_new_total
                  (Vec2.sub p_start
                     (Vec2.mul d (BreakFlightPath.getDistanceToBreak b)))
                  p_end a_max Ha) as (l & ->).
      cbn. eauto.
Qed.



(** ** Negative times *)

Lemma BreakFlightPath_rejects_negative (self : BreakFlightPath.instance) (t : R) :
  t < 0 ->
  BreakFlightPath.rocketPosition self t = Throw TimeNegative
  /\ BreakFlightPath.rocketVelocity self t = Throw TimeNegative.
Proof.
  intros Ht. unfold BreakFlightPath.rocketPosition, BreakFlightPath.rocketVelocity.
  rewrite (Rltb_true t 0 Ht). split; reflexivity.
Qed.

Lemma LineFlightPath_rejects_negative (self : LineFlightPath.instance) (t : R) :
  t < 0 ->
  LineFlightPath.rocketPosition self t = Throw TimeNegative
  /\ LineFlightPath.rocketVelocity self t = Throw TimeNegative.
Proof.
  intros Ht. unfold LineFlightPath.rocketPosition, LineFlightPath.rocketVelocity.
  rewrite (Rltb_true t 0 Ht). split; reflexivity.
Qed.

Lemma combinePath_rejects_negative (path1 path2 : FlightPath.instance) (t : R) :
  t < 0 ->
  FlightPath.rocketPosition (combinePath path1 path2) t = Throw TimeNegative
  /\ FlightPath.rocketVelocity (combinePath path1 path2) t = Throw TimeNegative.
Proof.
  intros Ht. cbn. rewrite (Rltb_true t 0 Ht). split; reflexivity.
Qed.

Lemma DirectedInitialVFlightPath_rejects_negative
    (p_start p_end : Vec2.t) (a_max initial_v : R)
    (self : DirectedInitialVFlightPath.instance) (t : R) :
  DirectedInitialVFlightPath.new p_start p_end a_max initial_v = Ok self ->
  t < 0 ->
  DirectedInitialVFlightPath.rocketPosition self t = Throw TimeNegative
  /\ DirectedInitialVFlightPath.rocketVelocity self t = Throw TimeNegative.
Proof.
  intros Hnew Ht. unfold DirectedInitialVFlightPath.new in Hnew.
  unfold DirectedInitialVFlightPath.rocketPosition,
    DirectedInitialVFlightPath.rocketVelocity.
  destruct (a_max <=? 0); [discriminate |].
  destruct (Vec2.length (Vec2.sub p_end p_start) === 0).
  - destruct (BreakFlightPath.new _ _ _) as [b |]; cbn in Hnew; [| discriminate].
    injection Hnew as <-. cbn.
    apply BreakFlightPath_rejects_negative; assumption.
  - destruct (Vec2.div _ _) as [d |]; cbn in Hnew; [| discriminate].
    destruct (BreakFlightPath.new _ _ _) as [b |]; cbn in Hnew; [| discriminate].
    destruct ((initial_v <? 0) || _).
    + destruct (LineFlightPath.new _ _ _) as [l |]; cbn in Hnew; [| discriminate].
      injection Hnew as <-.
      cbn [DirectedInitialVFlightPath.implementation].
      apply combinePath_rejects_negative; assumption.
    + destruct (LineFlightPath.new _ _ _) as [l |]; cbn in Hnew; [| discriminate].
      injection Hnew as <-. cbn.
      apply LineFlightPath_rejects_negative; assumption.
Qed.

Lemma InitialVFlightPath_rejects_negative
    (p_start p_end : Vec2.t) (a_max : R) (v0 : Vec2.t)
    (self : InitialVFlightPath.instance) (t : R) :
  InitialVFlightPath.new p_start p_end a_max v0 = Ok self ->
  t < 0 ->
  InitialVFlightPath.rocketPosition self t = Throw TimeNegative
  /\ InitialVFlightPath.rocketVelocity self t = Throw TimeNegative.
Proof.
  intros Hnew Ht. unfold InitialVFlightPath.new in Hnew.
  unfold InitialVFlightPath.rocketPosition, InitialVFlightPath.rocketVelocity.
  destruct (a_max <=? 0); [discriminate |].
  destruct (Vec2.length (Vec2.sub p_end p_start) === 0).
  - destruct (BreakFlightPath.new _ _ _) as [b |]; cbn in Hnew; [| discriminate].
    injection Hnew as <-. cbn.
    rewrite (Rltb_true t 0 Ht).
    split; [reflexivity | apply BreakFlightPath_rejects_negative; assumption].
  - destruct (Vec2.div _ _) as [d |]; cbn [bind] in Hnew; [| discriminate].
    destruct (Vec2.length _ === 0).
    + destruct (DirectedInitialVFlightPath.new _ _ _ _) as [f |] eqn:Hf;
        cbn in Hnew; [| discriminate].
      injection Hnew as <-. cbn.
      apply (DirectedInitialVFlightPath_rejects_negative _ _ _ _ f t Hf Ht).
    + destruct (Vec2.div _ _) as [u |]; cbn [bind] in Hnew; [| discriminate].
      destruct (BreakFlightPath.new _ _ _) as [c |]; cbn [bind] in Hnew;
        [| discriminate].
      destruct (InitialVFlightPath.calculateAlignmentTime _ _ _ _ _ _)
        as [alignTime |].
      * destruct (DirectedInitialVFlightPath.new _ _ _ _) as [f |];
          cbn in Hnew; [| discriminate].
        injection Hnew as <-. cbn.
        rewrite (Rltb_true t 0 Ht). split; reflexivity.
      * destruct (BreakFlightPath.new _ _ _) as [b |]; cbn [bind] in Hnew;
          [| discriminate].
        destruct (DirectedInitialVFlightPath.new _ _ _ _) as [f |];
          cbn in Hnew; [| discriminate].
        injection Hnew as <-.
        cbn [InitialVFlightPath.implementation].
        apply combinePath_rejects_negative; assumption.
Qed.

(** X12: no path answers a negative time: every path built by one of the
    four constructors, and every combination of two paths, throws 'Time
    cannot be negative' from both [rocketPosition] and [rocketVelocity]. *)
Theorem negative_time_is_rejected
    (p_start p_end v0 : Vec2.t) (a_max initial_v : R)
    (path1 path2 : FlightPath.instance) (t : R) :
  t < 0 ->
  (forall self, BreakFlightPath.new p_start a_max v0 = Ok self ->
     BreakFlightPath.rocketPosition self t = Throw TimeNegative
     /\ BreakFlightPath.rocketVelocity self t = Throw TimeNegative)
  /\ (forall self, LineFlightPath.new p_start p_end a_max = Ok self ->
        LineFlightPath.rocketPosition self t = Throw TimeNegative
        /\ LineFlightPath.rocketVelocity self t = Throw TimeNegative)
  /\ (forall self,
        DirectedInitialVFlightPath.new p_start p_end a_max initial_v = Ok self ->
        DirectedInitialVFlightPath.rocketPosition self t = Throw TimeNegative
        /\ DirectedInitialVFlightPath.rocketVelocity self t = Throw TimeNegative)
  /\ (forall self, InitialVFlightPath.new p_start p_end a_max v0 = Ok self ->
        InitialVFlightPath.rocketPosition self t = Throw TimeNegative
        /\ InitialVFlightPath.rocketVelocity self t = Throw TimeNegative)
  /\ FlightPath.rocketPosition (combinePath path1 path2) t = Throw TimeNegative
  /\ FlightPath.rocketVelocity (combinePath path1 path2) t = Throw TimeNegative.
Proof.
  intros Ht.
  split; [intros self _; apply BreakFlightPath_rejects_negative; assumption |].
  split; [intros self _; apply LineFlightPath_rejects_negative; assumption |].
  split; [intros self H;
          apply (DirectedInitialVFlightPath_rejects_negative _ _ _ _ self t H Ht) |].
  split; [intros self H;
          apply (InitialVFlightPath_rejects_negative _ _ _ _ self t H Ht) |].
  apply combinePath_rejects_negative; assumption.
Qed.

Lemma negative_time_is_rejected_witness :
  (forall self, BreakFlightPath.new Vec2.zero 1 (Vec2.mk 0 1) = Ok self ->
     BreakFlightPath.rocketPosition self (-1) = Throw TimeNegative
     /\ BreakFlightPath.rocketVelocity self (-1) = Throw TimeNegative)
  /\ (forall self, LineFlightPath.new Vec2.zero (Vec2.mk 1 0) 1 = Ok self ->
        LineFlightPath.rocketPosition self (-1) = Throw TimeNegative
        /\ LineFlightPath.rocketVelocity self (-1) = Throw TimeNegative)
  /\ (forall self,
        DirectedInitialVFlightPath.new Vec2.zero (Vec2.mk 1 0) 1 1 = Ok self ->
        DirectedInitialVFlightPath.rocketPosition self (-1) = Throw TimeNegative
        /\ DirectedInitialVFlightPath.rocketVelocity self (-1) = Throw TimeNegative)
  /\ (forall self,
        InitialVFlightPath.new Vec2.zero (Vec2.mk 1 0) 1 (Vec2.mk 0 1) = Ok self ->
        InitialVFlightPath.rocketPosition self (-1) = Throw TimeNegative
        /\ InitialVFlightPath.rocketVelocity self (-1) = Throw TimeNegative)
  /\ FlightPath.rocketPosition
       (combinePath (hover Vec2.zero 1) (hover (Vec2.mk 1 0) 2)) (-1)
     = Throw TimeNegative
  /\ FlightPath.rocketVelocity
       (combinePath (hover Vec2.zero 1) (hover (Vec2.mk 1 0) 2)) (-1)
     = Throw TimeNegative.
Proof.
  apply (negative_time_is_rejected Vec2.zero (Vec2.mk 1 0) (Vec2.mk 0 1) 1 1
           (hover Vec2.zero 1) (hover (Vec2.mk 1 0) 2) (-1)).
  lra.
Defined.

(** ** Combining paths *)

(** X13: combining is associative on the time line: when the middle path
    has a non-negative duration, [combinePath(combinePath(a, b), c)] and
    [combinePath(a, combinePath(b, c))] have the same duration and, at
    every time [t >= 0], the same position and the same velocity. *)
Theorem combinePath_associative (a b c : FlightPath.instance) (t : R) :
  0 <= FlightPath.getMaxTime b -> 0 <= t ->
  FlightPath.getMaxTime (combinePath (combinePath a b) c)
  = FlightPath.getMaxTime (combinePath a (combinePath b c))
  /\ FlightPath.rocketPosition (combinePath (combinePath a b) c) t
     = FlightPath.rocketPosition (combinePath a (combinePath b c)) t
  /\ FlightPath.rocketVelocity (combinePath (combinePath a b) c) t
     = FlightPath.rocketVelocity (combinePath a (combinePath b c)) t.
Proof.
  intros Hb Ht. unfold combinePath, FlightPath.getMaxTime in *.
  cbn [FlightPath.t_max FlightPath.rocketPosition FlightPath.rocketVelocity].
  split; [ring |].
  rewrite (Rltb_false t 0) by assumption.
  destruct (Rle_dec t (FlightPath.t_max a)) as [H1 | H1].
  - rewrite (Rleb_true _ _ H1).
    rewrite (Rleb_true t (FlightPath.t_max a + FlightPath.t_max b)) by lra.
    split; reflexivity.
  - apply Rnot_le_lt in H1. rewrite (Rleb_false _ _ H1).
    rewrite (Rltb_false (t - FlightPath.t_max a) 0) by lra.
    destruct (Rle_dec t (FlightPath.t_max a + FlightPath.t_max b)) as [H2 | H2].
    + rewrite (Rleb_true _ _ H2).
      rewrite (Rleb_true (t - FlightPath.t_max a) (FlightPath.t_max b)) by lra.
      split; reflexivity.
    + apply Rnot_le_lt in H2. rewrite (Rleb_false _ _ H2).
      rewrite (Rleb_false (t - FlightPath.t_max a) (FlightPath.t_max b)) by lra.
      replace (t - (FlightPath.t_max a + FlightPath.t_max b))
        with (t - FlightPath.t_max a - FlightPath.t_max b) by ring.
      split; reflexivity.
Qed.

Lemma combinePath_associative_witness :
  FlightPath.getMaxTime
    (combinePath (combinePath (hover Vec2.zero 1) (hover (Vec2.mk 1 0) 2))
                 (hover (Vec2.mk 2 0) 3))
  = FlightPath.getMaxTime
      (combinePath (hover Vec2.zero 1)
                   (combinePath (hover (Vec2.mk 1 0) 2) (hover (Vec2.mk 2 0) 3)))
  /\ FlightPath.rocketPosition
       (combinePath (combinePath (hover Vec2.zero 1) (hover (Vec2.mk 1 0) 2))
                    (hover (Vec2.mk 2 0) 3)) 4
     = FlightPath.rocketPosition
         (combinePath (hover Vec2.zero 1)
                      (combinePath (hover (Vec2.mk 1 0) 2) (hover (Vec2.mk 2 0) 3))) 4
  /\ FlightPath.rocketVelocity
       (combinePath (combinePath (hover Vec2.zero 1) (hover (Vec2.mk 1 0) 2))
                    (hover (Vec2.mk 2 0) 3)) 4
     = FlightPath.rocketVelocity
         (combinePath (hover Vec2.zero 1)
                      (combinePath (hover (Vec2.mk 1 0) 2) (hover (Vec2.mk 2 0) 3))) 4.
Proof.
  apply (combinePath_associative (hover Vec2.zero 1) (hover (Vec2.mk 1 0) 2)
           (hover (Vec2.mk 2 0) 3) 4).
  - cbn. lra.
  - lra.
Defined.

(** Two legs that each end at rest, the second starting where the first
    stops: the combination ends where the second leg ends, at rest, and
    starts as the first leg starts. *)
Lemma combinePath_end_state
    (path1 path2 : FlightPath.instance) (mid target : Vec2.t) :
  0 <= FlightPath.getMaxTime path1 ->
  0 <= FlightPath.getMaxTime path2 ->
  FlightPath.rocketPosition path1 (FlightPath.getMaxTime path1) = Ok mid ->
  FlightPath.rocketVelocity path1 (FlightPath.getMaxTime path1) = Ok Vec2.zero ->
  FlightPath.rocketPosition path2 (FlightPath.getMaxTime path2) = Ok target ->
  FlightPath.rocketVelocity path2 (FlightPath.getMaxTime path2) = Ok Vec2.zero ->
  (FlightPath.getMaxTime path2 = 0 -> mid = target) ->
  FlightPath.rocketPosition (combinePath path1 path2)
    (FlightPath.getMaxTime (combinePath path1 path2)) = Ok target
  /\ FlightPath.rocketVelocity (combinePath path1 path2)
       (FlightPath.getMaxTime (combinePath path1 path2)) = Ok Vec2.zero
  /\ FlightPath.rocketPosition (combinePath path1 path2) 0
     = FlightPath.rocketPosition path1 0
  /\ FlightPath.rocketVelocity (combinePath path1 path2) 0
     = FlightPath.rocketVelocity path1 0.
Proof.
  unfold combinePath, FlightPath.getMaxTime.
  cbn [FlightPath.t_max FlightPath.rocketPosition FlightPath.rocketVelocity].
  intros HT1 HT2 Hp1 Hv1 Hp2 Hv2 Hzero.
  set (T1 := FlightPath.t_max path1) in *.
  set (T2 := FlightPath.t_max path2) in *.
  rewrite (Rltb_false (T1 + T2) 0) by lra.
  rewrite (Rltb_false 0 0) by lra.
  rewrite (Rleb_true 0 T1) by assumption.
  split; [| split; [| split; reflexivity]].
  - destruct HT2 as [HT2 | HT2].
    + rewrite Rleb_false by lra.
      replace (T1 + T2 - T1) with T2 by ring. assumption.
    + rewrite Rleb_true by lra.
      replace (T1 + T2) with T1 by lra.
      rewrite Hp1, (Hzero (eq_sym HT2)). reflexivity.
  - destruct HT2 as [HT2 | HT2].
    + rewrite Rleb_false by lra.
      replace (T1 + T2 - T1) with T2 by ring. assumption.
    + rewrite Rleb_true by lra.
      replace (T1 + T2) with T1 by lra. assumption.
Qed.

(** A line path between any two points ends at the target at rest. *)
Lemma LineFlightPath_end_state_total (p_start p_end : Vec2.t) (a_max : R) :
  0 < a_max ->
  exists self,
    LineFlightPath.new p_start p_end a_max = Ok self
    /\ 0 <= LineFlightPath.getMaxTime self
    /\ (LineFlightPath.getMaxTime self = 0 -> p_start = p_end)
    /\ LineFlightPath.rocketPosition self (LineFlightPath.getMaxTime self)
       = Ok p_end
    /\ LineFlightPath.rocketVelocity self (LineFlightPath.getMaxTime self)
       = Ok Vec2.zero.
Proof.
  intros Ha.
  destruct (Req_dec_T (Vec2.length (Vec2.sub p_end p_start)) 0) as [H0 | Hne].
  - apply sub_self_zero in H0. subst p_end.
    eexists. split; [apply LineFlightPath_new_same; assumption |].
    destruct (LineFlightPath_same_at_zero p_start a_max) as (Hp & Hv).
    unfold LineFlightPath.getMaxTime. cbn [LineFlightPath.t_max].
    repeat split; auto. lra.
  - assert (Hdist : p_start <> p_end) by (intros ->; apply Hne, sub_self).
    destruct (LineFlightPath_end_state p_start p_end a_max Hdist Ha)
      as (l & Hl & HT & Hp & Hv).
    exists l. repeat split; auto; lra.
Qed.

(** A braking path starts at [p_start] with velocity [initial_v]. *)
Lemma BreakFlightPath_start_state
    (p_start : Vec2.t) (a_max : R) (initial_v : Vec2.t) :
  0 < a_max ->
  exists self,
    BreakFlightPath.new p_start a_max initial_v = Ok self
    /\ BreakFlightPath.rocketPosition self 0 = Ok p_start
    /\ BreakFlightPath.rocketVelocity self 0 = Ok initial_v.
Proof.
  intros Ha.
  destruct (BreakFlightPath_new_fields p_start a_max initial_v Ha)
    as (n & Hn & Hv & _ & Hnew).
  pose proof (time_to_break_nonneg a_max initial_v Ha) as HT.
  eexists. split; [exact Hnew |].
  unfold BreakFlightPath.rocketPosition, BreakFlightPath.rocketVelocity.
  cbn [BreakFlightPath.time_to_break BreakFlightPath.p_end
       BreakFlightPath.norm BreakFlightPath.a_max].
  set (L := Vec2.length initial_v) in *.
  assert (HL : L = a_max * (L / a_max)) by (field; lra).
  apply (f_equal Vec2.x) in Hv as Hx. apply (f_equal Vec2.y) in Hv as Hy.
  cbn in Hx, Hy. rewrite HL in Hx, Hy.
  rewrite (Rltb_false 0 0) by lra.
  rewrite (Rleb_true 0 (L / a_max)) by assumption.
  split; f_equal; apply Vec2_eq; cbn; rewrite ?Hx, ?Hy; lra.
Qed.

(** ** DirectedInitialVFlightPath: braking first, and the zero distance *)

Lemma Rabs_square (v : R) : Rabs v * Rabs v = v * v.
Proof. unfold Rabs. destruct (Rcase_abs v); ring. Qed.

(** X14: when the rocket moves away from the target ([initial_v < 0]) or
    cannot stop before it (braking distance [initial_v^2 / (2 a_max)]
    beyond the distance), the directed path brakes and then flies a line:
    it starts at [p_start] with velocity [direction * initial_v], ends at
    [p_end] at rest, and lasts at least the braking time. *)
Theorem DirectedInitialVFlightPath_brake_then_line
    (p_start p_end : Vec2.t) (a_max initial_v : R) :
  p_start <> p_end -> 0 < a_max ->
  initial_v < 0
  \/ Vec2.length (Vec2.sub p_end p_start) < initial_v * initial_v / (2 * a_max) ->
  exists direction self,
    Vec2.div (Vec2.sub p_end p_start) (Vec2.length (Vec2.sub p_end p_start))
    = Ok direction
    /\ DirectedInitialVFlightPath.new p_start p_end a_max initial_v = Ok self
    /\ DirectedInitialVFlightPath.rocketPosition self 0 = Ok p_start
    /\ DirectedInitialVFlightPath.rocketVelocity self 0
       = Ok (Vec2.mul direction initial_v)
    /\ DirectedInitialVFlightPath.rocketPosition self
         (DirectedInitialVFlightPath.getMaxTime self) = Ok p_end
    /\ DirectedInitialVFlightPath.rocketVelocity self
         (DirectedInitialVFlightPath.getMaxTime self) = Ok Vec2.zero
    /\ Rabs initial_v / a_max <= DirectedInitialVFlightPath.getMaxTime self.
Proof.
  intros Hne Ha Hcase.
  pose proof (distance_pos p_start p_end Hne) as Hdist.
  destruct (div_length (Vec2.sub p_end p_start)) as (d & Hd & Hlen & _);
    [lra |].
  assert (HL : Vec2.length (Vec2.mul d initial_v) = Rabs initial_v)
    by (rewrite length_mul_abs, Hlen; ring).
  destruct (BreakFlightPath_new_fields p_start a_max (Vec2.mul d initial_v) Ha)
    as (n & _ & _ & _ & Hb).
  destruct (BreakFlightPath_start_state p_start a_max (Vec2.mul d initial_v) Ha)
    as (b0 & Hb0 & Hp0 & Hv0).
  destruct (BreakFlightPath_end_state p_start a_max (Vec2.mul d initial_v) Ha)
    as (b1 & Hb1 & HT1 & Hp1 & Hv1).
  rewrite Hb in Hb0, Hb1. injection Hb0 as <-. injection Hb1 as <-.
  rewrite HL in *.
  set (q := Rabs initial_v / a_max) in *.
  assert (Hq : 0 <= q).
  { unfold q. apply Rmult_le_pos; [apply Rabs_pos |].
    left. apply Rinv_0_lt_compat. assumption. }
  set (b := BreakFlightPath.mk q (0.5 * a_max * q * q) n
              (Vec2.add p_start (Vec2.mul n (0.5 * a_max * q * q))) a_max q) in *.
  destruct (LineFlightPath_end_state_total
              (BreakFlightPath.getEndPosition b) p_end a_max Ha)
    as (l & Hl & HT2 & Hzero & Hp2 & Hv2).
  assert (Hcond : (initial_v <? 0)
                  || (BreakFlightPath.getDistanceToBreak b
                      >? Vec2.length (Vec2.sub p_end p_start)) = true).
  { destruct Hcase as [Hneg | Hfar].
    - rewrite (Rltb_true _ _ Hneg). reflexivity.
    - rewrite orb_true_iff. right. apply Rltb_true.
      unfold BreakFlightPath.getDistanceToBreak, b.
      cbn [BreakFlightPath.dist_to_break].
      assert (Hdtb : initial_v * initial_v / (2 * a_max) = a_max * q * q / 2).
      { rewrite <- Rabs_square. unfold q. field. lra. }
      lra. }
  exists d.
  assert (Hnew : DirectedInitialVFlightPath.new p_start p_end a_max initial_v
                 = Ok (DirectedInitialVFlightPath.mk
                         (combinePath (BreakFlightPath.upcast b)
                                      (LineFlightPath.upcast l))
                         (FlightPath.getMaxTime
                            (combinePath (BreakFlightPath.upcast b)
                                         (LineFlightPath.upcast l))))).
  { unfold DirectedInitialVFlightPath.new.
    rewrite Rleb_false by assumption.
    rewrite Reqb_false by lra.
    rewrite Hd. cbn [bind]. rewrite Hb. cbn [bind].
    fold b. rewrite Hcond. rewrite Hl. reflexivity. }
  eexists. split; [exact Hd |]. split; [exact Hnew |].
  unfold DirectedInitialVFlightPath.rocketPosition,
    DirectedInitialVFlightPath.rocketVelocity,
    DirectedInitialVFlightPath.getMaxTime.
  cbn [DirectedInitialVFlightPath.implementation DirectedInitialVFlightPath.t_max].
  destruct (combinePath_end_state
              (BreakFlightPath.upcast b) (LineFlightPath.upcast l)
              (BreakFlightPath.getEndPosition b) p_end)
    as (Hpe & Hve & Hps & Hvs); try assumption.
  rewrite Hpe, Hve, Hps, Hvs.
  repeat split; try assumption; try reflexivity.
  change (q <= q + LineFlightPath.t_max l).
  unfold LineFlightPath.getMaxTime in HT2. lra.
Qed.

Lemma DirectedInitialVFlightPath_brake_then_line_witness :
  exists direction self,
    Vec2.div (Vec2.sub (Vec2.mk 1 0) Vec2.zero)
             (Vec2.length (Vec2.sub (Vec2.mk 1 0) Vec2.zero))
    = Ok direction
    /\ DirectedInitialVFlightPath.new Vec2.zero (Vec2.mk 1 0) 1 (-1) = Ok self
    /\ DirectedInitialVFlightPath.rocketPosition self 0 = Ok Vec2.zero
    /\ DirectedInitialVFlightPath.rocketVelocity self 0
       = Ok (Vec2.mul direction (-1))
    /\ DirectedInitialVFlightPath.rocketPosition self
         (DirectedInitialVFlightPath.getMaxTime self) = Ok (Vec2.mk 1 0)
    /\ DirectedInitialVFlightPath.rocketVelocity self
         (DirectedInitialVFlightPath.getMaxTime self) = Ok Vec2.zero
    /\ Rabs (-1) / 1 <= DirectedInitialVFlightPath.getMaxTime self.
Proof.
  apply (DirectedInitialVFlightPath_brake_then_line Vec2.zero (Vec2.mk 1 0) 1 (-1));
    [exact unit_x_ne_zero | lra | left; lra].
Defined.

Lemma length_along_x (v : R) : Vec2.length (Vec2.mk v 0) = Rabs v.
Proof.
  unfold Vec2.length; cbn.
  replace (v * v + 0 * 0) with v² by (unfold Rsqr; ring).
  apply sqrt_Rsqr_abs.
Qed.

(** X15: when start and target coincide the directed path is a braking
    path along the x axis: it starts at the point with velocity
    [(initial_v, 0)], takes [|initial_v| / a_max], and comes to rest at
    [(initial_v * |initial_v| / (2 a_max), 0)] from the point, not at the
    point itself. *)
Theorem DirectedInitialVFlightPath_zero_distance
    (p : Vec2.t) (a_max initial_v : R) :
  0 < a_max ->
  exists self,
    DirectedInitialVFlightPath.new p p a_max initial_v = Ok self
    /\ DirectedInitialVFlightPath.getMaxTime self = Rabs initial_v / a_max
    /\ DirectedInitialVFlightPath.rocketPosition self 0 = Ok p
    /\ DirectedInitialVFlightPath.rocketVelocity self 0
       = Ok (Vec2.mk initial_v 0)
    /\ DirectedInitialVFlightPath.rocketPosition self
         (DirectedInitialVFlightPath.getMaxTime self)
       = Ok (Vec2.add p
               (Vec2.mk (initial_v * Rabs initial_v / (2 * a_max)) 0))
    /\ DirectedInitialVFlightPath.rocketVelocity self
         (DirectedInitialVFlightPath.getMaxTime self) = Ok Vec2.zero.
Proof.
  intros Ha.
  destruct (BreakFlightPath_new_fields p a_max (Vec2.mk initial_v 0) Ha)
    as (n & _ & Hv & _ & Hb).
  destruct (BreakFlightPath_start_state p a_max (Vec2.mk initial_v 0) Ha)
    as (b0 & Hb0 & Hp0 & Hv0).
  destruct (BreakFlightPath_end_state p a_max (Vec2.mk initial_v 0) Ha)
    as (b1 & Hb1 & HT1 & Hp1 & Hv1).
  rewrite Hb in Hb0, Hb1. injection Hb0 as <-. injection Hb1 as <-.
  rewrite length_along_x in *.
  set (L := Rabs initial_v) in *.
  set (q := L / a_max) in *.
  assert (HL : L = a_max * q) by (unfold q; field; lra).
  unfold DirectedInitialVFlightPath.new.
  rewrite Rleb_false by assumption.
  rewrite (Reqb_true _ 0 (sub_self p)).
  rewrite Hb. cbn [bind].
  eexists. split; [reflexivity |].
  unfold DirectedInitialVFlightPath.rocketPosition,
    DirectedInitialVFlightPath.rocketVelocity,
    DirectedInitialVFlightPath.getMaxTime, FlightPath.getMaxTime.
  cbn [DirectedInitialVFlightPath.implementation DirectedInitialVFlightPath.t_max
       BreakFlightPath.upcast FlightPath.t_max FlightPath.rocketPosition
       FlightPath.rocketVelocity BreakFlightPath.t_max].
  unfold BreakFlightPath.getMaxTime, BreakFlightPath.getEndPosition in *.
  cbn [BreakFlightPath.t_max BreakFlightPath.p_end] in *.
  rewrite Hp0, Hv0, Hp1, Hv1.
  repeat split; try reflexivity.
  f_equal.
  apply (f_equal Vec2.x) in Hv as Hx. apply (f_equal Vec2.y) in Hv as Hy.
  cbn in Hx, Hy.
  assert (Hxd : initial_v * L / (2 * a_max) = Vec2.x n * (a_max * q * q / 2)).
  { rewrite Hx, HL. field. lra. }
  assert (Hyd : 0 = Vec2.y n * (a_max * q * q / 2)).
  { replace (Vec2.y n * (a_max * q * q / 2)) with (Vec2.y n * L * q / 2)
      by (rewrite HL; field).
    rewrite <- Hy. field. }
  apply Vec2_eq; cbn; [rewrite Hxd |]; lra.
Qed.

Lemma DirectedInitialVFlightPath_zero_distance_witness :
  exists self,
    DirectedInitialVFlightPath.new Vec2.zero Vec2.zero 10 5 = Ok self
    /\ DirectedInitialVFlightPath.getMaxTime self = Rabs 5 / 10
    /\ DirectedInitialVFlightPath.rocketPosition self 0 = Ok Vec2.zero
    /\ DirectedInitialVFlightPath.rocketVelocity self 0 = Ok (Vec2.mk 5 0)
    /\ DirectedInitialVFlightPath.rocketPosition self
         (DirectedInitialVFlightPath.getMaxTime self)
       = Ok (Vec2.add Vec2.zero (Vec2.mk (5 * Rabs 5 / (2 * 10)) 0))
    /\ DirectedInitialVFlightPath.rocketVelocity self
         (DirectedInitialVFlightPath.getMaxTime self) = Ok Vec2.zero.
Proof.
  apply (DirectedInitialVFlightPath_zero_distance Vec2.zero 10 5). lra.
Defined.

(** ** InitialVFlightPath: where it starts *)

(** X16: when start and target coincide, or when the initial velocity has a
    component perpendicular to the line to the target, the general path is
    constructed (with or without a feasible alignment) and starts at
    [p_start] with velocity [v0]. *)
Theorem InitialVFlightPath_start_state
    (p_start p_end : Vec2.t) (a_max : R) (v0 : Vec2.t) :
  0 < a_max ->
  p_start = p_end
  \/ (forall direction,
        Vec2.div (Vec2.sub p_end p_start)
                 (Vec2.length (Vec2.sub p_end p_start)) = Ok direction ->
        Vec2.length
          (Vec2.sub v0 (Vec2.mul direction (Vec2.dot v0 direction))) <> 0) ->
  exists self,
    InitialVFlightPath.new p_start p_end a_max v0 = Ok self
    /\ InitialVFlightPath.rocketPosition self 0 = Ok p_start
    /\ InitialVFlightPath.rocketVelocity self 0 = Ok v0.
Proof.
  intros Ha Hcase.
  destruct (BreakFlightPath_start_state p_start a_max v0 Ha)
    as (b & Hb & Hbp & Hbv).
  unfold InitialVFlightPath.new.
  rewrite Rleb_false by assumption.
  unfold InitialVFlightPath.rocketPosition, InitialVFlightPath.rocketVelocity.
  destruct (Req_dec_T (Vec2.length (Vec2.sub p_end p_start)) 0) as [H0 | Hne].
  - (* start and target coincide *)
    rewrite (Reqb_true _ _ H0). rewrite Hb. cbn [bind].
    eexists. split; [reflexivity |].
    cbn [InitialVFlightPath.implementation CompositePath.new
         FlightPath.rocketPosition FlightPath.rocketVelocity].
    rewrite (Rltb_false 0 0) by lra. rewrite Hbp, Hbv. cbn [bind].
    destruct (0 >=? BreakFlightPath.getMaxTime b); split; reflexivity.
  - rewrite (Reqb_false _ _ Hne).
    destruct Hcase as [Heq | Hperp];
      [exfalso; apply Hne; subst; apply sub_self |].
    destruct (div_length _ Hne) as (d & Hd & _).
    specialize (Hperp d Hd).
    rewrite Hd. cbn [bind].
    set (v0_parallel := Vec2.mul d (Vec2.dot v0 d)) in *.
    set (v0_perp := Vec2.sub v0 v0_parallel) in *.
    rewrite (Reqb_false _ _ Hperp).
    destruct (div_length _ Hperp) as (u & -> & _). cbn [bind].
    destruct (BreakFlightPath_start_state p_start a_max v0_perp Ha)
      as (c & Hc & Hcp & Hcv).
    rewrite Hc. cbn [bind].
    assert (HTc : 0 <= BreakFlightPath.getTimeToBreak c).
    { destruct (BreakFlightPath_new_ok p_start a_max v0_perp Ha) as (n & _ & Hc').
      rewrite Hc in Hc'. injection Hc' as ->.
      apply time_to_break_nonneg. assumption. }
    destruct (InitialVFlightPath.calculateAlignmentTime _ _ _ _ _ _)
      as [alignTime |].
    + (* alignment, then the directed path *)
      destruct (DirectedInitialVFlightPath_new_total
                  (InitialVFlightPath.calculatePositionAfterAlign
                     (BreakFlightPath.getEndPosition c) v0_parallel u a_max
                     alignTime)
                  p_end a_max
                  (Vec2.length
                     (InitialVFlightPath.calculateVelocityAfterAlign
                        v0_parallel u a_max alignTime))
                  Ha) as (f & ->).
      cbn [bind]. eexists. split; [reflexivity |].
      cbn [InitialVFlightPath.implementation CompositePath.new
           FlightPath.rocketPosition FlightPath.rocketVelocity].
      rewrite (Rltb_false 0 0) by lra.
      rewrite (Rleb_true 0 _ HTc). rewrite Hcp, Hcv. cbn [bind].
      split; f_equal; apply Vec2_eq; cbn; ring.
    + (* no alignment: brake fully, then the directed path from rest *)
      rewrite Hb. cbn [bind].
      destruct (DirectedInitialVFlightPath_new_total
                  (BreakFlightPath.getEndPosition b) p_end a_max 0 Ha)
        as (f & ->).
      cbn [bind]. eexists. split; [reflexivity |].
      cbn [InitialVFlightPath.implementation combinePath
           FlightPath.rocketPosition FlightPath.rocketVelocity].
      rewrite (Rltb_false 0 0) by lra.
      assert (HTb : 0 <= FlightPath.getMaxTime (BreakFlightPath.upcast b)).
      { destruct (BreakFlightPath_new_ok p_start a_max v0 Ha) as (n & _ & Hb').
        rewrite Hb in Hb'. injection Hb' as ->.
        apply time_to_break_nonneg. assumption. }
      rewrite (Rleb_true 0 _ HTb). split; assumption.
Qed.

Lemma example_has_perpendicular_part :
  Vec2.zero = Vec2.mk 1 0
  \/ (forall direction,
        Vec2.div (Vec2.sub (Vec2.mk 1 0) Vec2.zero)
                 (Vec2.length (Vec2.sub (Vec2.mk 1 0) Vec2.zero)) = Ok direction ->
        Vec2.length
          (Vec2.sub (Vec2.mk 0 1)
             (Vec2.mul direction (Vec2.dot (Vec2.mk 0 1) direction))) <> 0).
Proof.
  right. intros direction Hd. rewrite example_direction in Hd.
  injection Hd as <-. rewrite example_v0_perp_length. lra.
Qed.

Lemma InitialVFlightPath_start_state_witness :
  exists self,
    InitialVFlightPath.new Vec2.zero (Vec2.mk 1 0) 1 (Vec2.mk 0 1) = Ok self
    /\ InitialVFlightPath.rocketPosition self 0 = Ok Vec2.zero
    /\ InitialVFlightPath.rocketVelocity self 0 = Ok (Vec2.mk 0 1).
Proof.
  apply (InitialVFlightPath_start_state Vec2.zero (Vec2.mk 1 0) 1 (Vec2.mk 0 1));
    [lra | exact example_has_perpendicular_part].
Defined.

(** ** The sampling cache: what it holds *)

Lemma Forall2_nth_error_r {A B : Type} (R : A -> B -> Prop)
    (l : list A) (l' : list B) (i : nat) (b : B) :
  Forall2 R l l' -> nth_error l' i = Some b ->
  exists a, nth_error l i = Some a /\ R a b.
Proof.
  intros H. revert i. induction H as [| a0 b0 l l' Hab _ IH]; intros i Hi.
  - destruct i; discriminate.
  - destruct i as [| i]; cbn in *.
    + injection Hi as <-. eauto.
    + apply IH. assumption.
Qed.

Lemma nth_error_seq_0 (n i a : nat) :
  nth_error (seq 0 n) i = Some a -> a = i.
Proof.
  intros H.
  assert (Hlt : (i < n)%nat).
  { rewrite <- (length_seq n 0). apply nth_error_Some. congruence. }
  rewrite nth_error_nth' with (d := 0%nat) in H by (rewrite length_seq; lia).
  rewrite seq_nth in H by assumption. injection H as <-. lia.
Qed.

(** X17: the cache is built once: after a successful [getCachedPoints] the
    instance holds the returned array, its duration and methods are
    unchanged, and a second call returns the same array without changing
    the instance again. *)
Theorem getCachedPoints_memoizes
    (self self' : FlightPath.instance) (points : list TrajectoryState) :
  FlightPath.getCachedPoints self = Ok (points, self') ->
  FlightPath._cachedPoints self' = Some points
  /\ FlightPath.getMaxTime self' = FlightPath.getMaxTime self
  /\ FlightPath.rocketPosition self' = FlightPath.rocketPosition self
  /\ FlightPath.rocketVelocity self' = FlightPath.rocketVelocity self
  /\ FlightPath.getCachedPoints self' = Ok (points, self').
Proof.
  unfold FlightPath.getCachedPoints.
  destruct (FlightPath._cachedPoints self) as [cached |] eqn:Hc.
  - intros H. injection H as <- <-. rewrite Hc. repeat split; reflexivity.
  - destruct (mapM _ _) as [pts |]; cbn; [| discriminate].
    intros H. injection H as <- <-. cbn. repeat split; reflexivity.
Qed.

Lemma getCachedPoints_memoizes_witness :
  FlightPath._cachedPoints
    (FlightPath.with_cache (hover Vec2.zero 0)
       (repeat (mkState Vec2.zero Vec2.zero 0) 51))
  = Some (repeat (mkState Vec2.zero Vec2.zero 0) 51)
  /\ FlightPath.getMaxTime
       (FlightPath.with_cache (hover Vec2.zero 0)
          (repeat (mkState Vec2.zero Vec2.zero 0) 51))
     = FlightPath.getMaxTime (hover Vec2.zero 0)
  /\ FlightPath.rocketPosition
       (FlightPath.with_cache (hover Vec2.zero 0)
          (repeat (mkState Vec2.zero Vec2.zero 0) 51))
     = FlightPath.rocketPosition (hover Vec2.zero 0)
  /\ FlightPath.rocketVelocity
       (FlightPath.with_cache (hover Vec2.zero 0)
          (repeat (mkState Vec2.zero Vec2.zero 0) 51))
     = FlightPath.rocketVelocity (hover Vec2.zero 0)
  /\ FlightPath.getCachedPoints
       (FlightPath.with_cache (hover Vec2.zero 0)
          (repeat (mkState Vec2.zero Vec2.zero 0) 51))
     = Ok (repeat (mkState Vec2.zero Vec2.zero 0) 51,
           FlightPath.with_cache (hover Vec2.zero 0)
             (repeat (mkState Vec2.zero Vec2.zero 0) 51)).
Proof.
  apply (getCachedPoints_memoizes (hover Vec2.zero 0)).
  apply (getCachedPoints_all_at_zero (hover Vec2.zero 0) Vec2.zero Vec2.zero);
    reflexivity.
Defined.

(** What a freshly built cache holds, sample by sample. *)
Lemma getCachedPoints_samples_of
    (self self' : FlightPath.instance) (points : list TrajectoryState) :
  FlightPath._cachedPoints self = None ->
  FlightPath.getCachedPoints self = Ok (points, self') ->
  List.length points = 51%nat
  /\ (forall i s, nth_error points i = Some s ->
        time s = FlightPath.getMaxTime self / 50 * INR i
        /\ FlightPath.rocketPosition self (time s) = Ok (position s)
        /\ FlightPath.rocketVelocity self (time s) = Ok (velocity s)).
Proof.
  intros Hc H. unfold FlightPath.getCachedPoints in H. rewrite Hc in H.
  destruct (mapM _ _) as [pts |] eqn:Hm; cbn in H; [| discriminate].
  injection H as <- <-.
  apply mapM_Forall2 in Hm.
  split.
  { apply Forall2_length in Hm. rewrite length_seq in Hm. symmetry. exact Hm. }
  intros i s Hs.
  destruct (Forall2_nth_error_r _ _ _ i s Hm Hs) as (k & Hk & Hsample).
  apply nth_error_seq_0 in Hk. subst k.
  unfold FlightPath.sample in Hsample.
  rewrite INR_cacheResolution in Hsample.
  destruct (FlightPath.rocketPosition self _) as [p |] eqn:Hp;
    cbn in Hsample; [| discriminate].
  destruct (FlightPath.rocketVelocity self _) as [v |] eqn:Hv;
    cbn in Hsample; [| discriminate].
  injection Hsample as <-. cbn. auto.
Qed.

(** X18: a freshly built cache holds 51 samples, and sample number [i] is
    the exact state of the path at time [(t_max / 50) * i]: its position
    and velocity are what [rocketPosition] and [rocketVelocity] return
    there.  The first sample is taken at time zero. *)
Theorem getCachedPoints_samples
    (self self' : FlightPath.instance) (points : list TrajectoryState) :
  FlightPath._cachedPoints self = None ->
  FlightPath.getCachedPoints self = Ok (points, self') ->
  List.length points = 51%nat
  /\ (forall i s, nth_error points i = Some s ->
        time s = FlightPath.getMaxTime self / 50 * INR i
        /\ FlightPath.rocketPosition self (time s) = Ok (position s)
        /\ FlightPath.rocketVelocity self (time s) = Ok (velocity s))
  /\ (exists s0, nth_error points 0 = Some s0 /\ time s0 = 0).
Proof.
  intros Hc H.
  destruct (getCachedPoints_samples_of self self' points Hc H) as (Hlen & Hall).
  split; [exact Hlen |]. split; [exact Hall |].
  destruct points as [| s0 rest]; [discriminate |].
  exists s0. split; [reflexivity |].
  destruct (Hall 0%nat s0 eq_refl) as (Ht & _). rewrite Ht. cbn. ring.
Qed.

Lemma getCachedPoints_samples_witness :
  List.length (repeat (mkState Vec2.zero Vec2.zero 0) 51) = 51%nat
  /\ (forall i s,
        nth_error (repeat (mkState Vec2.zero Vec2.zero 0) 51) i = Some s ->
        time s = FlightPath.getMaxTime (hover Vec2.zero 0) / 50 * INR i
        /\ FlightPath.rocketPosition (hover Vec2.zero 0) (time s)
           = Ok (position s)
        /\ FlightPath.rocketVelocity (hover Vec2.zero 0) (time s)
           = Ok (velocity s))
  /\ (exists s0,
        nth_error (repeat (mkState Vec2.zero Vec2.zero 0) 51) 0 = Some s0
        /\ time s0 = 0).
Proof.
  apply (getCachedPoints_samples (hover Vec2.zero 0)
           (FlightPath.with_cache (hover Vec2.zero 0)
              (repeat (mkState Vec2.zero Vec2.zero 0) 51))).
  - reflexivity.
  - apply (getCachedPoints_all_at_zero (hover Vec2.zero 0) Vec2.zero Vec2.zero);
      reflexivity.
Defined.

(** ** getStateAtTime: reading between the samples *)

(** The two ways a time of the range is answered on a path of positive
    duration: the last sample when the index reaches 50, the linear
    interpolation of samples [z] and [z + 1] otherwise. *)
Lemma getStateAtTime_shape
    (self self' : FlightPath.instance) (points : list TrajectoryState) (t : R) :
  0 < FlightPath.t_max self ->
  FlightPath.getCachedPoints self = Ok (points, self') ->
  List.length points = 51%nat ->
  0 <= t <= FlightPath.t_max self ->
  (0 <= Zfloor (t / (FlightPath.t_max self / 50)) <= 50)%Z
  /\ ((Zfloor (t / (FlightPath.t_max self / 50)) = 50%Z
       /\ FlightPath.getStateAtTime self t = Ok (get points 50, self'))
      \/ ((Zfloor (t / (FlightPath.t_max self / 50)) < 50)%Z
          /\ exists p1 p2,
               get points (Zfloor (t / (FlightPath.t_max self / 50))) = Some p1
               /\ get points (Zfloor (t / (FlightPath.t_max self / 50)) + 1)
                  = Some p2
               /\ FlightPath.getStateAtTime self t
                  = Ok (Some (mkState
                          (Vec2.add (position p1)
                             (Vec2.mul (Vec2.sub (position p2) (position p1))
                                ((t - time p1) / (FlightPath.t_max self / 50))))
                          (Vec2.add (velocity p1)
                             (Vec2.mul (Vec2.sub (velocity p2) (velocity p1))
                                ((t - time p1) / (FlightPath.t_max self / 50))))
                          t),
                        self'))).
Proof.
  intros HT Hpts Hlen [Ht0 Ht1].
  unfold FlightPath.getStateAtTime.
  rewrite Rltb_false by assumption.
  rewrite Rltb_false by assumption. cbn [orb].
  rewrite Hpts. cbn [bind fst snd].
  rewrite Hlen.
  unfold floor_div. rewrite INR_cacheResolution.
  rewrite Reqb_false by lra.
  set (z := Zfloor (t / (FlightPath.t_max self / 50))).
  assert (Hz : (0 <= z <= 50)%Z).
  { assert (Hq0 : 0 <= t / (FlightPath.t_max self / 50)).
    { apply Rmult_le_pos; [assumption |].
      left. apply Rinv_0_lt_compat. lra. }
    assert (Hq1 : t / (FlightPath.t_max self / 50) <= 50).
    { apply Rmult_le_reg_r with (FlightPath.t_max self / 50); [lra |].
      unfold Rdiv at 1. rewrite Rmult_assoc, Rinv_l by lra. lra. }
    split.
    - apply (Zfloor_lub 0). exact Hq0.
    - apply le_IZR. pose proof (Zfloor_bound (t / (FlightPath.t_max self / 50))).
      fold z in H. lra. }
  split; [exact Hz |].
  cbn [index_ge index_lt index_get index_succ].
  change (Z.of_nat 51 - 1)%Z with 50%Z.
  destruct (50 <=? z)%Z eqn:Hlast.
  - left. apply Z.leb_le in Hlast. split; [lia | reflexivity].
  - right. apply Z.leb_gt in Hlast. split; [exact Hlast |].
    destruct (z <? 0)%Z eqn:Hfirst; [lia |].
    destruct (nth_error_in_range points z) as (p1 & Hp1); [lia |].
    destruct (nth_error_in_range points (z + 1)) as (p2 & Hp2); [lia |].
    exists p1, p2. rewrite Hp1, Hp2. cbn [deref bind]. auto.
Qed.

Lemma floor_of_grid_time (T : R) (k : nat) :
  0 < T -> Zfloor (T / 50 * INR k / (T / 50)) = Z.of_nat k.
Proof.
  intros HT.
  replace (T / 50 * INR k / (T / 50)) with (INR k) by (field; lra).
  rewrite INR_IZR_INZ. apply ZfloorZ.
Qed.

Lemma get_nth_error {A : Type} (l : list A) (k : nat) :
  get l (Z.of_nat k) = nth_error l k.
Proof.
  unfold get. destruct (Z.of_nat k <? 0)%Z eqn:H; [apply Z.ltb_lt in H; lia |].
  rewrite Nat2Z.id. reflexivity.
Qed.

Lemma hover_cache (p : Vec2.t) (T : R) :
  exists points,
    FlightPath.getCachedPoints (hover p T)
    = Ok (points, FlightPath.with_cache (hover p T) points).
Proof.
  unfold FlightPath.getCachedPoints. cbn [FlightPath._cachedPoints hover].
  destruct (mapM_total (FlightPath.sample (hover p T))
              (seq 0 (FlightPath._cacheResolution + 1))) as (points & Hpts).
  { intros i _. unfold FlightPath.sample. cbn. eexists. reflexivity. }
  exists points. rewrite Hpts. reflexivity.
Qed.

(** X19: at a sampling time [(t_max / 50) * k], [k <= 50], of a path of
    positive duration [getStateAtTime] is exact: the state it returns
    carries that time and the position and velocity that [rocketPosition]
    and [rocketVelocity] give there, and the instance it leaves behind is
    the one with the cache filled. *)
Theorem getStateAtTime_exact_at_samples
    (self self' : FlightPath.instance) (points : list TrajectoryState)
    (k : nat) :
  0 < FlightPath.t_max self ->
  FlightPath._cachedPoints self = None ->
  FlightPath.getCachedPoints self = Ok (points, self') ->
  (k <= 50)%nat ->
  exists s,
    FlightPath.getStateAtTime self (FlightPath.t_max self / 50 * INR k)
    = Ok (Some s, self')
    /\ time s = FlightPath.t_max self / 50 * INR k
    /\ FlightPath.rocketPosition self (FlightPath.t_max self / 50 * INR k)
       = Ok (position s)
    /\ FlightPath.rocketVelocity self (FlightPath.t_max self / 50 * INR k)
       = Ok (velocity s).
Proof.
  intros HT Hc Hpts Hk.
  destruct (getCachedPoints_samples_of self self' points Hc Hpts)
    as (Hlen & Hall).
  assert (Hk50 : INR k <= 50).
  { replace 50 with (INR 50) by (cbn; lra). apply le_INR. exact Hk. }
  pose proof (pos_INR k) as Hk0.
  assert (Hrange : 0 <= FlightPath.t_max self / 50 * INR k
                   <= FlightPath.t_max self) by (split; nra).
  destruct (getStateAtTime_shape self self' points _ HT Hpts Hlen Hrange)
    as (_ & Hshape).
  rewrite floor_of_grid_time in Hshape by assumption.
  destruct Hshape as [(Hz & Hget) | (Hz & p1 & p2 & Hp1 & Hp2 & Hget)].
  - assert (Hk' : k = 50%nat) by lia. subst k.
    destruct (nth_error points 50) as [s |] eqn:Hs.
    2:{ apply nth_error_None in Hs. lia. }
    exists s. destruct (Hall 50%nat s Hs) as (Hts & Hps & Hvs).
    change (get points 50) with (get points (Z.of_nat 50)) in Hget.
    rewrite get_nth_error, Hs in Hget.
    unfold FlightPath.getMaxTime in Hts.
    rewrite <- Hts in Hget |- *. auto.
  - rewrite get_nth_error in Hp1.
    destruct (Hall k p1 Hp1) as (Ht1 & Hps & Hvs).
    unfold FlightPath.getMaxTime in Ht1.
    eexists. split; [exact Hget |]. cbn [time position velocity].
    rewrite <- Ht1.
    replace ((time p1 - time p1) / (FlightPath.t_max self / 50)) with 0
      by (unfold Rdiv; ring).
    split; [reflexivity |].
    rewrite Hps, Hvs. split; f_equal; apply Vec2_eq; cbn; ring.
Qed.

Lemma getStateAtTime_exact_at_samples_witness :
  exists points s,
    FlightPath.getStateAtTime (hover Vec2.zero 1)
      (FlightPath.t_max (hover Vec2.zero 1) / 50 * INR 25)
    = Ok (Some s, FlightPath.with_cache (hover Vec2.zero 1) points)
    /\ time s = FlightPath.t_max (hover Vec2.zero 1) / 50 * INR 25
    /\ FlightPath.rocketPosition (hover Vec2.zero 1)
         (FlightPath.t_max (hover Vec2.zero 1) / 50 * INR 25)
       = Ok (position s)
    /\ FlightPath.rocketVelocity (hover Vec2.zero 1)
         (FlightPath.t_max (hover Vec2.zero 1) / 50 * INR 25)
       = Ok (velocity s).
Proof.
  destruct (hover_cache Vec2.zero 1) as (points & Hpts).
  exists points.
  apply (getStateAtTime_exact_at_samples (hover Vec2.zero 1) _ points 25).
  - cbn. lra.
  - reflexivity.
  - exact Hpts.
  - lia.
Defined.

(** X20: strictly inside the range of a path of positive duration the
    answer of [getStateAtTime] is the linear interpolation of two
    neighbouring samples: it carries the queried time, and its position
    and velocity are [p1 + (p2 - p1) * alpha] for samples [k] and [k + 1]
    with [0 <= alpha < 1] and [t = time p1 + alpha * (t_max / 50)]; at
    [t_max] itself the answer is the last sample. *)
Theorem getStateAtTime_interpolates
    (self self' : FlightPath.instance) (points : list TrajectoryState)
    (t : R) :
  0 < FlightPath.t_max self ->
  FlightPath._cachedPoints self = None ->
  FlightPath.getCachedPoints self = Ok (points, self') ->
  0 <= t <= FlightPath.t_max self ->
  (t = FlightPath.t_max self ->
   FlightPath.getStateAtTime self t = Ok (nth_error points 50, self'))
  /\ (t < FlightPath.t_max self ->
      exists (k : nat) (alpha : R) (p1 p2 s : TrajectoryState),
        (k < 50)%nat
        /\ nth_error points k = Some p1
        /\ nth_error points (k + 1) = Some p2
        /\ 0 <= alpha < 1
        /\ t = time p1 + alpha * (FlightPath.t_max self / 50)
        /\ FlightPath.getStateAtTime self t = Ok (Some s, self')
        /\ time s = t
        /\ position s
           = Vec2.add (position p1)
               (Vec2.mul (Vec2.sub (position p2) (position p1)) alpha)
        /\ velocity s
           = Vec2.add (velocity p1)
               (Vec2.mul (Vec2.sub (velocity p2) (velocity p1)) alpha)).
Proof.
  intros HT Hc Hpts Hrange.
  destruct (getCachedPoints_samples_of self self' points Hc Hpts)
    as (Hlen & Hall).
  destruct (getStateAtTime_shape self self' points t HT Hpts Hlen Hrange)
    as (Hz & Hshape).
  pose proof (Zfloor_bound (t / (FlightPath.t_max self / 50))) as Hfl.
  set (z := Zfloor (t / (FlightPath.t_max self / 50))) in *.
  assert (Hq : t = t / (FlightPath.t_max self / 50)
                   * (FlightPath.t_max self / 50)) by (field; lra).
  split.
  - intros ->.
    assert (Hz50 : z = 50%Z).
    { unfold z.
      replace (FlightPath.t_max self / (FlightPath.t_max self / 50))
        with (IZR 50) by (field; lra).
      apply ZfloorZ. }
    destruct Hshape as [(_ & Hget) | (Hlt & _)]; [| lia].
    change (get points 50) with (get points (Z.of_nat 50)) in Hget.
    rewrite get_nth_error in Hget. exact Hget.
  - intros Hlt.
    destruct Hshape as [(Hz50 & _) | (Hzlt & p1 & p2 & Hp1 & Hp2 & Hget)].
    + exfalso. rewrite Hz50 in Hfl.
      assert (50 * (FlightPath.t_max self / 50)
              <= t / (FlightPath.t_max self / 50)
                 * (FlightPath.t_max self / 50)).
      { apply Rmult_le_compat_r; lra. }
      lra.
    + assert (Hzk : z = Z.of_nat (Z.to_nat z)) by lia.
      rewrite Hzk in Hp1. rewrite get_nth_error in Hp1.
      replace (z + 1)%Z with (Z.of_nat (Z.to_nat z + 1)) in Hp2 by lia.
      rewrite get_nth_error in Hp2.
      destruct (Hall _ p1 Hp1) as (Ht1 & _).
      unfold FlightPath.getMaxTime in Ht1.
      rewrite INR_IZR_INZ, <- Hzk in Ht1.
      exists (Z.to_nat z), ((t - time p1) / (FlightPath.t_max self / 50)),
        p1, p2.
      eexists. split; [lia |]. split; [exact Hp1 |]. split; [exact Hp2 |].
      assert (Halpha : (t - time p1) / (FlightPath.t_max self / 50)
                       = t / (FlightPath.t_max self / 50) - IZR z).
      { rewrite Ht1. field. lra. }
      split; [rewrite Halpha; lra |].
      split; [field; lra |].
      split; [exact Hget |].
      cbn [time position velocity]. auto.
Qed.

Lemma getStateAtTime_interpolates_witness :
  exists points,
    (0.5 = FlightPath.t_max (hover Vec2.zero 1) ->
     FlightPath.getStateAtTime (hover Vec2.zero 1) 0.5
     = Ok (nth_error points 50, FlightPath.with_cache (hover Vec2.zero 1) points))
    /\ (0.5 < FlightPath.t_max (hover Vec2.zero 1) ->
        exists (k : nat) (alpha : R) (p1 p2 s : TrajectoryState),
          (k < 50)%nat
          /\ nth_error points k = Some p1
          /\ nth_error points (k + 1) = Some p2
          /\ 0 <= alpha < 1
          /\ 0.5 = time p1 + alpha * (FlightPath.t_max (hover Vec2.zero 1) / 50)
          /\ FlightPath.getStateAtTime (hover Vec2.zero 1) 0.5
             = Ok (Some s, FlightPath.with_cache (hover Vec2.zero 1) points)
          /\ time s = 0.5
          /\ position s
             = Vec2.add (position p1)
                 (Vec2.mul (Vec2.sub (position p2) (position p1)) alpha)
          /\ velocity s
             = Vec2.add (velocity p1)
                 (Vec2.mul (Vec2.sub (velocity p2) (velocity p1)) alpha)).
Proof.
  destruct (hover_cache Vec2.zero 1) as (points & Hpts).
  exists points.
  apply (getStateAtTime_interpolates (hover Vec2.zero 1) _ points 0.5).
  - cbn. lra.
  - reflexivity.
  - exact Hpts.
  - cbn. lra.
Defined.

(** ** The alignment solve: what the returned time satisfies *)

Lemma example_alignment_time :
  InitialVFlightPath.calculateAlignmentTime
    (Vec2.mk 3 (-4)) Vec2.zero 1 (Vec2.mk 1 0) (Vec2.mk 0 1) 1
  = Some 2.
Proof.
  unfold InitialVFlightPath.calculateAlignmentTime.
  unfold Vec2.dot, Vec2.sub, Vec2.zero. cbn [Vec2.x Vec2.y].
  rewrite Reqb_false by lra.
  match goal with
  | |- context [sqrt ?e] => replace e with 1 by lra
  end.
  rewrite sqrt_1.
  rewrite Rltb_false by lra.
  match goal with
  | |- context [?n / ?d] => replace (n / d) with 2 by (field; lra)
  end.
  rewrite Rltb_false by lra. rewrite Rltb_false by lra.
  reflexivity.
Qed.

(** X21: a time [q] returned by [calculateAlignmentTime] is not negative,
    moves the ship forward along the axis ([v0_parallel_len * q >= 0]),
    and is a root of the quadratic the function solves: with
    [(ex, ey)] the target relative to the position after cancelling, in
    the basis [(u, v0_perp_u)],
    [a_max * v * q^2 - 2 * a_max * ex * q - 2 * v * ey = 0], the root on
    the branch [a_max * (ex - v * q) >= 0]. *)
Theorem calculateAlignmentTime_root
    (p_end pos_after_cancel_v0 : Vec2.t) (v0_parallel_len : R)
    (u v0_perp_u : Vec2.t) (a_max q : R) :
  0 < a_max ->
  InitialVFlightPath.calculateAlignmentTime
    p_end pos_after_cancel_v0 v0_parallel_len u v0_perp_u a_max = Some q ->
  0 <= q
  /\ 0 <= v0_parallel_len * q
  /\ v0_parallel_len <> 0
  /\ a_max * v0_parallel_len * q * q
     - 2 * a_max
       * (Vec2.dot p_end u - Vec2.dot pos_after_cancel_v0 u) * q
     - 2 * v0_parallel_len
       * (Vec2.dot p_end v0_perp_u - Vec2.dot pos_after_cancel_v0 v0_perp_u)
     = 0
  /\ 0 <= a_max * ((Vec2.dot p_end u - Vec2.dot pos_after_cancel_v0 u)
                   - v0_parallel_len * q).
Proof.
  intros Ha. unfold InitialVFlightPath.calculateAlignmentTime.
  destruct (Req_dec_T v0_parallel_len 0) as [Hv | Hv].
  { rewrite (Reqb_true _ _ Hv). discriminate. }
  rewrite (Reqb_false _ _ Hv).
  cbn [Vec2.sub Vec2.x Vec2.y].
  set (ex := Vec2.dot p_end u - Vec2.dot pos_after_cancel_v0 u).
  set (ey := Vec2.dot p_end v0_perp_u - Vec2.dot pos_after_cancel_v0 v0_perp_u).
  set (inner := (a_max * ex) ^ 2
                + 2 * a_max * v0_parallel_len * v0_parallel_len * ey).
  destruct (Rlt_dec inner 0) as [Hi | Hi].
  { rewrite Rltb_true by assumption. discriminate. }
  rewrite Rltb_false by lra.
  set (r := (- a_max * ex + sqrt inner) / (- a_max * v0_parallel_len)).
  destruct (Rlt_dec r 0) as [Hr | Hr].
  { rewrite Rltb_true by assumption. discriminate. }
  rewrite Rltb_false by lra.
  destruct (Rlt_dec (v0_parallel_len * r) 0) as [Hx | Hx].
  { rewrite Rltb_true by assumption. discriminate. }
  rewrite Rltb_false by lra. cbn [orb].
  intros H. injection H as <-.
  assert (Hs : sqrt inner * sqrt inner = inner) by (apply sqrt_sqrt; lra).
  pose proof (sqrt_pos inner) as Hs0.
  assert (Hden : - a_max * v0_parallel_len <> 0) by nra.
  assert (Hr' : r * (- a_max * v0_parallel_len) = - a_max * ex + sqrt inner).
  { unfold r. field. split; [assumption | lra]. }
  assert (Hsq : sqrt inner = a_max * (ex - v0_parallel_len * r)) by lra.
  split; [lra |]. split; [lra |]. split; [assumption |].
  split; [| rewrite <- Hsq; assumption].
  rewrite Hsq in Hs. unfold inner in Hs.
  assert (Hprod : a_max * v0_parallel_len
                  * (a_max * v0_parallel_len * r * r - 2 * a_max * ex * r
                     - 2 * v0_parallel_len * ey) = 0) by (ring_simplify; ring_simplify in Hs; lra).
  apply Rmult_integral in Hprod. destruct Hprod as [Hz | Hz]; [| exact Hz].
  apply Rmult_integral in Hz. destruct Hz; [lra | contradiction].
Qed.

Lemma calculateAlignmentTime_root_witness :
  0 <= 2
  /\ 0 <= 1 * 2
  /\ 1 <> 0
  /\ 1 * 1 * 2 * 2
     - 2 * 1
       * (Vec2.dot (Vec2.mk 3 (-4)) (Vec2.mk 1 0)
          - Vec2.dot Vec2.zero (Vec2.mk 1 0)) * 2
     - 2 * 1
       * (Vec2.dot (Vec2.mk 3 (-4)) (Vec2.mk 0 1)
          - Vec2.dot Vec2.zero (Vec2.mk 0 1))
     = 0
  /\ 0 <= 1 * ((Vec2.dot (Vec2.mk 3 (-4)) (Vec2.mk 1 0)
                - Vec2.dot Vec2.zero (Vec2.mk 1 0))
               - 1 * 2).
Proof.
  apply (calculateAlignmentTime_root
           (Vec2.mk 3 (-4)) Vec2.zero 1 (Vec2.mk 1 0) (Vec2.mk 0 1) 1 2).
  - lra.
  - exact example_alignment_time.
Defined.

(** ** InitialVFlightPath: a velocity along the line *)




(** ** trajectory.js: the feasible directed path from start to target *)

(** X23: in [trajectory.js] the directed path of the feasible case (a
    non-negative [initial_v] whose braking distance does not exceed the
    distance) is a whole manoeuvre: its duration is not negative, it
    starts at [p_start] with velocity [direction * initial_v], and at
    [t_max] it is at [p_end] with zero velocity. *)
Theorem Legacy_DirectedInitialVFlightPath_start_to_target
    (p_start p_end : Vec2.t) (a_max initial_v : R) :
  p_start <> p_end -> 0 < a_max -> 0 <= initial_v ->
  0.5 * a_max * (initial_v / a_max) * (initial_v / a_max)
  <= Vec2.length (Vec2.sub p_end p_start) ->
  exists direction path,
    Legacy.div (Vec2.sub p_end p_start) (Vec2.length (Vec2.sub p_end p_start))
    = Some direction
    /\ Legacy.DirectedInitialVFlightPath.new p_start p_end a_max initial_v
       = Some path
    /\ 0 <= Legacy.FlightPath.t_max path
    /\ Legacy.FlightPath.rocketPosition path 0 = p_start
    /\ Legacy.FlightPath.rocketVelocity path 0 = Vec2.mul direction initial_v
    /\ Legacy.FlightPath.rocketPosition path (Legacy.FlightPath.t_max path)
       = p_end
    /\ Legacy.FlightPath.rocketVelocity path (Legacy.FlightPath.t_max path)
       = Vec2.zero.
Proof.
  intros Hne Ha Hv Hfeasible.
  destruct (Legacy_DirectedInitialVFlightPath_feasible
              p_start p_end a_max initial_v Hne Ha Hv Hfeasible)
    as (direction & path & actual & Hdiv & Hnew & Hline & HT & Hall
        & Hp0 & Hv0 & _).
  pose proof (distance_pos p_start p_end Hne) as Hdist.
  destruct (Legacy_div_length (Vec2.sub p_end p_start))
    as (d & Hd & Hlen & Hdd); [lra |].
  rewrite Hd in Hdiv. injection Hdiv as <-.
  set (q := initial_v / a_max) in *.
  set (back := 0.5 * a_max * q * q) in *.
  set (dist := Vec2.length (Vec2.sub p_end p_start)) in *.
  assert (Hq : 0 <= q).
  { apply Rmult_le_pos; [assumption |]. left. apply Rinv_0_lt_compat. assumption. }
  assert (Hback : 0 <= back).
  { apply Rmult_le_pos; [apply Rmult_le_pos; [lra | assumption] | assumption]. }
  destruct (fictive_start_facts p_start p_end d back Hlen Hdd Hback Hdist)
    as (_ & Hlong & Hfictive).
  fold dist in Hlong.
  destruct (Legacy_LineFlightPath_new_ok _ _ a_max Hfictive Ha)
    as (d' & _ & _ & Hl).
  rewrite Hl in Hline. injection Hline as <-.
  rewrite Hlong in HT, Hall.
  cbn [Legacy.LineFlightPath.t_max] in HT.
  pose proof (time_to_initial_v_bound a_max initial_v dist Ha Hv Hfeasible)
    as Hbound.
  fold q in Hbound. fold back in Hbound.
  set (T := 2 * sqrt ((dist + back) / a_max)) in *.
  assert (HTpos : 0 < T).
  { unfold T. apply Rmult_lt_0_compat; [lra |].
    apply sqrt_lt_R0. apply Rdiv_lt_0_compat; lra. }
  exists d, path.
  split; [exact Hd |]. split; [exact Hnew |].
  split; [rewrite HT; lra |].
  split; [exact Hp0 |]. split; [exact Hv0 |].
  destruct (Hall (Legacy.FlightPath.t_max path)) as (Hpos & Hvel).
  rewrite Hpos, Hvel, HT.
  replace (T - q + q) with T by ring.
  unfold Legacy.LineFlightPath.rocketPosition,
    Legacy.LineFlightPath.rocketVelocity.
  cbn [Legacy.LineFlightPath.t_max Legacy.LineFlightPath.p_end
       Legacy.LineFlightPath.direction Legacy.LineFlightPath.a_max
       Legacy.LineFlightPath.p_start].
  fold T.
  rewrite Rleb_false by lra. rewrite Rleb_true by lra.
  split; apply Vec2_eq; cbn; lra.
Qed.

Lemma Legacy_DirectedInitialVFlightPath_start_to_target_witness :
  exists direction path,
    Legacy.div (Vec2.sub (Vec2.mk 1 0) Vec2.zero)
      (Vec2.length (Vec2.sub (Vec2.mk 1 0) Vec2.zero))
    = Some direction
    /\ Legacy.DirectedInitialVFlightPath.new Vec2.zero (Vec2.mk 1 0) 1 1
       = Some path
    /\ 0 <= Legacy.FlightPath.t_max path
    /\ Legacy.FlightPath.rocketPosition path 0 = Vec2.zero
    /\ Legacy.FlightPath.rocketVelocity path 0 = Vec2.mul direction 1
    /\ Legacy.FlightPath.rocketPosition path (Legacy.FlightPath.t_max path)
       = Vec2.mk 1 0
    /\ Legacy.FlightPath.rocketVelocity path (Legacy.FlightPath.t_max path)
       = Vec2.zero.
Proof.
  apply (Legacy_DirectedInitialVFlightPath_start_to_target
           Vec2.zero (Vec2.mk 1 0) 1 1).
  - exact unit_x_ne_zero.
  - lra.
  - lra.
  - rewrite example_distance. lra.
Defined.

(** ** PerformanceMonitor: the sample windows *)

Lemma push_shift_length (maxSamples : nat) (arr : list R) (x : R) :
  (List.length arr <= maxSamples)%nat ->
  (List.length (PerformanceMonitor.push_shift maxSamples arr x)
   <= maxSamples)%nat.
Proof.
  intros H. unfold PerformanceMonitor.push_shift.
  assert (Hlen : List.length (arr ++ [x]) = S (List.length arr)).
  { rewrite length_app. cbn. lia. }
  destruct (Nat.ltb maxSamples (List.length (arr ++ [x]))) eqn:Hcmp.
  - destruct (arr ++ [x]) as [| a rest]; cbn in *; lia.
  - apply Nat.ltb_ge in Hcmp. exact Hcmp.
Qed.

Lemma tl_skipn {A : Type} (k : nat) (l : list A) :
  tl (skipn k l) = skipn (S k) l.
Proof.
  revert l. induction k as [| k IH]; intros l.
  - destruct l; reflexivity.
  - destruct l as [| a l]; [reflexivity |]. cbn [skipn]. apply IH.
Qed.

Lemma push_shift_lastn (maxSamples : nat) (l : list R) (x : R) :
  PerformanceMonitor.push_shift maxSamples (lastn maxSamples l) x
  = lastn maxSamples (l ++ [x]).
Proof.
  unfold PerformanceMonitor.push_shift, lastn.
  assert (Hlen : List.length (l ++ [x]) = S (List.length l)).
  { rewrite length_app. cbn. lia. }
  rewrite Hlen.
  assert (Hwin : List.length (skipn (List.length l - maxSamples) l ++ [x])
                 = S (List.length l - (List.length l - maxSamples))).
  { rewrite length_app, length_skipn. cbn. lia. }
  rewrite Hwin.
  destruct (Nat.le_gt_cases maxSamples (List.length l)) as [Hge | Hlt].
  - replace (Nat.ltb maxSamples
               (S (List.length l - (List.length l - maxSamples)))) with true
      by (symmetry; apply Nat.ltb_lt; lia).
    replace (S (List.length l) - maxSamples)%nat
      with (S (List.length l - maxSamples)) by lia.
    remember (List.length l - maxSamples)%nat as k eqn:Hk.
    rewrite skipn_app.
    destruct (skipn k l) as [| a rest] eqn:Hs.
    + assert (Hall : (List.length l <= k)%nat).
      { apply (f_equal (@List.length R)) in Hs.
        rewrite length_skipn in Hs. cbn in Hs. lia. }
      rewrite (skipn_all2 l) by lia.
      replace (S k - List.length l)%nat with 1%nat by lia.
      reflexivity.
    + assert (Hsome : (k < List.length l)%nat).
      { apply (f_equal (@List.length R)) in Hs.
        rewrite length_skipn in Hs. cbn in Hs. lia. }
      rewrite <- tl_skipn, Hs.
      replace (S k - List.length l)%nat with 0%nat by lia.
      reflexivity.
  - replace (List.length l - maxSamples)%nat with 0%nat by lia.
    replace (S (List.length l) - maxSamples)%nat with 0%nat by lia.
    replace (Nat.ltb maxSamples (S (List.length l - 0))) with false
      by (symmetry; apply Nat.ltb_ge; lia).
    reflexivity.
Qed.

Lemma lastn_short {A : Type} (n : nat) (l : list A) :
  (List.length l <= n)%nat -> lastn n l = l.
Proof.
  intros H. unfold lastn.
  replace (List.length l - n)%nat with 0%nat by lia. reflexivity.
Qed.

Lemma step_windows_bounded
    (self : PerformanceMonitor.instance) (c : PerformanceMonitor.call) :
  windows_bounded self -> windows_bounded (PerformanceMonitor.step self c).
Proof.
  intros (Hmax & Hf & Hc & Hr & Hm).
  destruct c as [now | now | now | now | now memory];
    unfold windows_bounded; cbn [PerformanceMonitor.step].
  - cbn. auto.
  - cbn. auto.
  - unfold PerformanceMonitor.endCalculation.
    destruct (PerformanceMonitor._calculationStartTime self === 0);
      [unfold windows_bounded; auto |].
    cbn. rewrite Hmax. repeat split; auto.
    apply push_shift_length. assumption.
  - cbn. auto.
  - unfold PerformanceMonitor.endFrame. cbn. rewrite Hmax.
    split; [reflexivity |]. split; [| split; [assumption | split]].
    + destruct (1000 <=? now - PerformanceMonitor._lastFrameTime self);
        [apply push_shift_length |]; assumption.
    + destruct (PerformanceMonitor._renderStartTime self === 0);
        [| apply push_shift_length]; assumption.
    + destruct memory; [apply push_shift_length |]; assumption.
Qed.

Lemma run_windows_bounded
    (calls : list PerformanceMonitor.call) (self : PerformanceMonitor.instance) :
  windows_bounded self -> windows_bounded (PerformanceMonitor.run self calls).
Proof.
  revert self. induction calls as [| c calls IH]; intros self H.
  - exact H.
  - cbn. apply IH. apply step_windows_bounded. exact H.
Qed.

(** X24: whatever calls a client makes on a new monitor, in whatever
    order and with whatever clock readings, none of the four metric
    arrays ever holds more than 60 samples, and [maxSamples] stays 60. *)
Theorem PerformanceMonitor_windows_never_exceed_60
    (now : R) (calls : list PerformanceMonitor.call) :
  PerformanceMonitor.maxSamples
    (PerformanceMonitor.run (PerformanceMonitor.new now) calls) = 60%nat
  /\ (List.length
        (PerformanceMonitor.fps
           (PerformanceMonitor.metrics
              (PerformanceMonitor.run (PerformanceMonitor.new now) calls)))
      <= 60)%nat
  /\ (List.length
        (PerformanceMonitor.calculationTime
           (PerformanceMonitor.metrics
              (PerformanceMonitor.run (PerformanceMonitor.new now) calls)))
      <= 60)%nat
  /\ (List.length
        (PerformanceMonitor.renderTime
           (PerformanceMonitor.metrics
              (PerformanceMonitor.run (PerformanceMonitor.new now) calls)))
      <= 60)%nat
  /\ (List.length
        (PerformanceMonitor.memoryUsage
           (PerformanceMonitor.metrics
              (PerformanceMonitor.run (PerformanceMonitor.new now) calls)))
      <= 60)%nat.
Proof.
  apply (run_windows_bounded calls (PerformanceMonitor.new now)).
  unfold windows_bounded. cbn. repeat split; lia.
Qed.

Lemma measure_calculationTime
    (self : PerformanceMonitor.instance) (p : R * R) :
  fst p <> 0 ->
  PerformanceMonitor.calculationTime
    (PerformanceMonitor.metrics (measure self p))
  = PerformanceMonitor.push_shift (PerformanceMonitor.maxSamples self)
      (PerformanceMonitor.calculationTime (PerformanceMonitor.metrics self))
      (snd p - fst p)
  /\ PerformanceMonitor.maxSamples (measure self p)
     = PerformanceMonitor.maxSamples self.
Proof.
  intros Hp. unfold measure, PerformanceMonitor.endCalculation.
  cbn [PerformanceMonitor.startCalculation
       PerformanceMonitor._calculationStartTime].
  rewrite Reqb_false by assumption. cbn. auto.
Qed.

Lemma measure_all
    (ps : list (R * R)) (self : PerformanceMonitor.instance) (l : list R) :
  Forall (fun p => fst p <> 0) ps ->
  PerformanceMonitor.calculationTime (PerformanceMonitor.metrics self)
  = lastn (PerformanceMonitor.maxSamples self) l ->
  PerformanceMonitor.calculationTime
    (PerformanceMonitor.metrics (fold_left measure ps self))
  = lastn (PerformanceMonitor.maxSamples self)
      (l ++ map (fun p => snd p - fst p) ps).
Proof.
  revert self l. induction ps as [| p ps IH]; intros self l Hall Hself.
  - cbn. rewrite app_nil_r. exact Hself.
  - inversion Hall as [| p' ps' Hp Hps]; subst.
    destruct (measure_calculationTime self p Hp) as (Hcalc & Hmax).
    cbn [fold_left map].
    rewrite (IH (measure self p) (l ++ [snd p - fst p]) Hps).
    + rewrite Hmax, <- app_assoc. reflexivity.
    + rewrite Hmax, Hcalc, Hself. apply push_shift_lastn.
Qed.

(** X25: the calculation window is a sliding window: after any number of
    measured calculations on a new monitor (each started at a non-zero
    clock reading), [calculationTime] holds the durations [end - start]
    of the last 60 of them, oldest first. *)
Theorem PerformanceMonitor_keeps_last_60_durations
    (now : R) (ps : list (R * R)) :
  Forall (fun p => fst p <> 0) ps ->
  PerformanceMonitor.calculationTime
    (PerformanceMonitor.metrics
       (fold_left measure ps (PerformanceMonitor.new now)))
  = lastn 60 (map (fun p => snd p - fst p) ps).
Proof.
  intros Hall.
  apply (measure_all ps (PerformanceMonitor.new now) [] Hall).
  reflexivity.
Qed.

Lemma PerformanceMonitor_keeps_last_60_durations_witness :
  PerformanceMonitor.calculationTime
    (PerformanceMonitor.metrics
       (fold_left measure [(1, 3); (5, 6)] (PerformanceMonitor.new 0)))
  = lastn 60 (map (fun p => snd p - fst p) [(1, 3); (5, 6)]).
Proof.
  apply (PerformanceMonitor_keeps_last_60_durations 0 [(1, 3); (5, 6)]).
  repeat constructor; cbn; lra.
Defined.

Lemma endFrame_short
    (self : PerformanceMonitor.instance) (now : R) (memory : option R) :
  now - PerformanceMonitor._lastFrameTime self < 1000 ->
  PerformanceMonitor.fps
    (PerformanceMonitor.metrics (PerformanceMonitor.endFrame self now memory))
  = PerformanceMonitor.fps (PerformanceMonitor.metrics self)
  /\ PerformanceMonitor._frameCount (PerformanceMonitor.endFrame self now memory)
     = PerformanceMonitor._frameCount self + 1
  /\ PerformanceMonitor._lastFrameTime
       (PerformanceMonitor.endFrame self now memory)
     = PerformanceMonitor._lastFrameTime self
  /\ PerformanceMonitor.maxSamples (PerformanceMonitor.endFrame self now memory)
     = PerformanceMonitor.maxSamples self.
Proof.
  intros H. unfold PerformanceMonitor.endFrame. cbn.
  rewrite Rleb_false by lra. auto.
Qed.

Lemma endFrames_short
    (frames : list (R * option R)) (self : PerformanceMonitor.instance) :
  Forall (fun f => fst f - PerformanceMonitor._lastFrameTime self < 1000)
    frames ->
  PerformanceMonitor.fps (PerformanceMonitor.metrics (endFrames self frames))
  = PerformanceMonitor.fps (PerformanceMonitor.metrics self)
  /\ PerformanceMonitor._frameCount (endFrames self frames)
     = PerformanceMonitor._frameCount self + INR (List.length frames)
  /\ PerformanceMonitor._lastFrameTime (endFrames self frames)
     = PerformanceMonitor._lastFrameTime self
  /\ PerformanceMonitor.maxSamples (endFrames self frames)
     = PerformanceMonitor.maxSamples self.
Proof.
  revert self. induction frames as [| f frames IH]; intros self Hall.
  - cbn. repeat split; auto. ring.
  - inversion Hall as [| f' fs' Hf Hfs]; subst.
    destruct (endFrame_short self (fst f) (snd f) Hf) as (H1 & H2 & H3 & H4).
    unfold endFrames. cbn [fold_left]. fold (endFrames
      (PerformanceMonitor.endFrame self (fst f) (snd f)) frames).
    destruct (IH (PerformanceMonitor.endFrame self (fst f) (snd f)))
      as (I1 & I2 & I3 & I4).
    { rewrite H3. exact Hfs. }
    rewrite I1, I2, I3, I4, H1, H2, H3, H4.
    repeat split; auto.
    change (List.length (f :: frames)) with (S (List.length frames)).
    rewrite S_INR. ring.
Qed.

(** X26: the frame rate is measured over at least a second: frames that
    end less than 1000 ms after [_lastFrameTime] only count up; the first
    frame that ends 1000 ms or more after it pushes
    [frames * 1000 / elapsed] (all frames since the last sample, this one
    included) onto the [fps] window, resets the count and restarts the
    interval at its own clock reading. *)
Theorem PerformanceMonitor_fps_sample
    (self : PerformanceMonitor.instance) (frames : list (R * option R))
    (now : R) (memory : option R) :
  Forall (fun f => fst f - PerformanceMonitor._lastFrameTime self < 1000)
    frames ->
  1000 <= now - PerformanceMonitor._lastFrameTime self ->
  PerformanceMonitor.fps (PerformanceMonitor.metrics (endFrames self frames))
  = PerformanceMonitor.fps (PerformanceMonitor.metrics self)
  /\ PerformanceMonitor.fps
       (PerformanceMonitor.metrics
          (PerformanceMonitor.endFrame (endFrames self frames) now memory))
     = PerformanceMonitor.push_shift (PerformanceMonitor.maxSamples self)
         (PerformanceMonitor.fps (PerformanceMonitor.metrics self))
         ((PerformanceMonitor._frameCount self
           + INR (List.length frames) + 1) * 1000
          / (now - PerformanceMonitor._lastFrameTime self))
  /\ PerformanceMonitor._frameCount
       (PerformanceMonitor.endFrame (endFrames self frames) now memory) = 0
  /\ PerformanceMonitor._lastFrameTime
       (PerformanceMonitor.endFrame (endFrames self frames) now memory) = now.
Proof.
  intros Hall Hnow.
  destruct (endFrames_short frames self Hall) as (I1 & I2 & I3 & I4).
  split; [exact I1 |].
  unfold PerformanceMonitor.endFrame.
  cbn [PerformanceMonitor.fps PerformanceMonitor.metrics
       PerformanceMonitor._frameCount PerformanceMonitor._lastFrameTime].
  rewrite I1, I2, I3, I4.
  rewrite Rleb_true by assumption. auto.
Qed.

Lemma PerformanceMonitor_fps_sample_witness :
  PerformanceMonitor.fps
    (PerformanceMonitor.metrics
       (endFrames (PerformanceMonitor.new 0) [(400, None); (800, None)]))
  = PerformanceMonitor.fps
      (PerformanceMonitor.metrics (PerformanceMonitor.new 0))
  /\ PerformanceMonitor.fps
       (PerformanceMonitor.metrics
          (PerformanceMonitor.endFrame
             (endFrames (PerformanceMonitor.new 0)
                [(400, None); (800, None)]) 1200 None))
     = PerformanceMonitor.push_shift
         (PerformanceMonitor.maxSamples (PerformanceMonitor.new 0))
         (PerformanceMonitor.fps
            (PerformanceMonitor.metrics (PerformanceMonitor.new 0)))
         ((PerformanceMonitor._frameCount (PerformanceMonitor.new 0)
           + INR (List.length [(400, @None R); (800, @None R)]) + 1) * 1000
          / (1200 - PerformanceMonitor._lastFrameTime
                      (PerformanceMonitor.new 0)))
  /\ PerformanceMonitor._frameCount
       (PerformanceMonitor.endFrame
          (endFrames (PerformanceMonitor.new 0)
             [(400, None); (800, None)]) 1200 None) = 0
  /\ PerformanceMonitor._lastFrameTime
       (PerformanceMonitor.endFrame
          (endFrames (PerformanceMonitor.new 0)
             [(400, None); (800, None)]) 1200 None) = 1200.
Proof.
  apply (PerformanceMonitor_fps_sample (PerformanceMonitor.new 0)
           [(400, None); (800, None)] 1200 None).
  - repeat constructor; cbn; lra.
  - cbn. lra.
Defined.

(** ** Vec2 over binary64: what the constructor's check buys *)

Lemma finite_eqb_refl (x : PrimFloat.float) :
  PrimFloat.is_finite x = true -> PrimFloat.eqb x x = true.
Proof.
  unfold PrimFloat.is_finite, PrimFloat.is_nan. intros H.
  destruct (PrimFloat.eqb x x); [reflexivity | discriminate].
Qed.

Lemma Double_new_finite (x y : PrimFloat.float) (c : Double.Vec2.t) :
  Double.Vec2.new x y = Ok c ->
  c = Double.Vec2.mk x y
  /\ PrimFloat.is_finite (Double.Vec2.x c) = true
  /\ PrimFloat.is_finite (Double.Vec2.y c) = true
  /\ Double.Vec2.equals c c = true.
Proof.
  unfold Double.Vec2.new.
  destruct (PrimFloat.is_finite x) eqn:Hx; cbn; [| discriminate].
  destruct (PrimFloat.is_finite y) eqn:Hy; cbn; [| discriminate].
  intros H. injection H as <-. cbn.
  unfold Double.Vec2.equals. cbn.
  rewrite (finite_eqb_refl x Hx), (finite_eqb_refl y Hy). auto.
Qed.

(** X27: over binary64 numbers the constructor's finiteness check keeps
    [NaN] and the infinities out of every vector: a vector that [new]
    returns has the two given components, both finite, and equals itself
    under [equals]; the same holds for every vector that [add] or [sub]
    returns, since both build their result with the constructor. *)
Theorem Double_Vec2_constructed_is_finite
    (x y : PrimFloat.float) (c : Double.Vec2.t) :
  Double.Vec2.new x y = Ok c ->
  c = Double.Vec2.mk x y
  /\ PrimFloat.is_finite (Double.Vec2.x c) = true
  /\ PrimFloat.is_finite (Double.Vec2.y c) = true
  /\ Double.Vec2.equals c c = true
  /\ (forall v d,
        Double.Vec2.add c v = Ok d \/ Double.Vec2.sub c v = Ok d ->
        PrimFloat.is_finite (Double.Vec2.x d) = true
        /\ PrimFloat.is_finite (Double.Vec2.y d) = true
        /\ Double.Vec2.equals d d = true).
Proof.
  intros H. destruct (Double_new_finite x y c H) as (Hc & Hx & Hy & He).
  repeat split; try assumption.
  all: destruct H0 as [Hd | Hd];
    unfold Double.Vec2.add, Double.Vec2.sub in Hd;
    apply Double_new_finite in Hd; tauto.
Qed.

Lemma Double_Vec2_constructed_is_finite_witness :
  Double.Vec2.mk Double.two_pow_53 Double.MAX_VALUE
  = Double.Vec2.mk Double.two_pow_53 Double.MAX_VALUE
  /\ PrimFloat.is_finite
       (Double.Vec2.x (Double.Vec2.mk Double.two_pow_53 Double.MAX_VALUE))
     = true
  /\ PrimFloat.is_finite
       (Double.Vec2.y (Double.Vec2.mk Double.two_pow_53 Double.MAX_VALUE))
     = true
  /\ Double.Vec2.equals
       (Double.Vec2.mk Double.two_pow_53 Double.MAX_VALUE)
       (Double.Vec2.mk Double.two_pow_53 Double.MAX_VALUE) = true
  /\ (forall v d,
        Double.Vec2.add
          (Double.Vec2.mk Double.two_pow_53 Double.MAX_VALUE) v = Ok d
        \/ Double.Vec2.sub
             (Double.Vec2.mk Double.two_pow_53 Double.MAX_VALUE) v = Ok d ->
        PrimFloat.is_finite (Double.Vec2.x d) = true
        /\ PrimFloat.is_finite (Double.Vec2.y d) = true
        /\ Double.Vec2.equals d d = true).
Proof.
  apply (Double_Vec2_constructed_is_finite
           Double.two_pow_53 Double.MAX_VALUE).
  vm_compute. reflexivity.
Defined.

(** ** Past the end of a path *)

Lemma LineFlightPath_clamps (p_start p_end : Vec2.t) (a_max t : R) :
  0 < a_max ->
  exists self,
    LineFlightPath.new p_start p_end a_max = Ok self
    /\ (LineFlightPath.getMaxTime self < t ->
        LineFlightPath.rocketPosition self t = Ok p_end
        /\ LineFlightPath.rocketVelocity self t = Ok Vec2.zero).
Proof.
  intros Ha.
  destruct (Req_dec_T (Vec2.length (Vec2.sub p_end p_start)) 0) as [H0 | Hne].
  - apply sub_self_zero in H0. subst p_end.
    eexists. split; [apply LineFlightPath_new_same; assumption |].
    unfold LineFlightPath.getMaxTime. cbn [LineFlightPath.t_max]. intros Ht.
    unfold LineFlightPath.rocketPosition, LineFlightPath.rocketVelocity; cbn.
    rewrite Rltb_false by lra.
    rewrite (Reqb_true _ 0 (sub_self p_start)). split; reflexivity.
  - assert (Hdist : p_start <> p_end) by (intros ->; apply Hne, sub_self).
    destruct (LineFlightPath_new_profile p_start p_end a_max Hdist Ha)
      as (d & dist & T & _ & _ & Hd & HT & Hhalf & _ & Hdd & Hnew).
    eexists. split; [exact Hnew |].
    unfold LineFlightPath.getMaxTime. cbn [LineFlightPath.t_max]. intros Ht.
    destruct (LineFlightPath_profile p_start p_end d a_max dist T t
                Hd Ha HT Hhalf Hdd) as (s & sigma & Hp & Hv & Hcases); [lra |].
    rewrite Hp, Hv.
    destruct Hcases as [(Hc & _) | [(Hc & _) | (_ & -> & ->)]]; try lra.
    apply (f_equal Vec2.x) in Hdd as Hx. apply (f_equal Vec2.y) in Hdd as Hy.
    cbn in Hx, Hy.
    split; f_equal; apply Vec2_eq; cbn; lra.
Qed.

(** X28: [rocketPosition] and [rocketVelocity] accept times past [t_max]
    and hold the end state there: a braking path stays at its end
    position, a line path at [p_end], both with zero velocity; only
    [getStateAtTime] refuses such a time, with 'Time ... is outside
    valid range'. *)
Theorem paths_hold_their_end_state
    (p_start p_end : Vec2.t) (a_max : R) (initial_v : Vec2.t) (t : R) :
  0 < a_max ->
  exists b l,
    BreakFlightPath.new p_start a_max initial_v = Ok b
    /\ LineFlightPath.new p_start p_end a_max = Ok l
    /\ (BreakFlightPath.getMaxTime b < t ->
        BreakFlightPath.rocketPosition b t
        = Ok (BreakFlightPath.getEndPosition b)
        /\ BreakFlightPath.rocketVelocity b t = Ok Vec2.zero
        /\ FlightPath.getStateAtTime (BreakFlightPath.upcast b) t
           = Throw (TimeOutsideRange t (BreakFlightPath.getMaxTime b)))
    /\ (LineFlightPath.getMaxTime l < t ->
        LineFlightPath.rocketPosition l t = Ok p_end
        /\ LineFlightPath.rocketVelocity l t = Ok Vec2.zero
        /\ FlightPath.getStateAtTime (LineFlightPath.upcast l) t
           = Throw (TimeOutsideRange t (LineFlightPath.getMaxTime l))).
Proof.
  intros Ha.
  destruct (BreakFlightPath_clamps p_start a_max initial_v t Ha)
    as (b & Hb & Hbreak).
  destruct (LineFlightPath_clamps p_start p_end a_max t Ha)
    as (l & Hl & Hline).
  exists b, l. split; [exact Hb |]. split; [exact Hl |]. split.
  - intros Hlate. destruct (Hbreak Hlate) as (_ & _ & Hp & Hv).
    split; [exact Hp |]. split; [exact Hv |].
    apply (getStateAtTime_outside (BreakFlightPath.upcast b) t).
    right. exact Hlate.
  - intros Hlate. destruct (Hline Hlate) as (Hp & Hv).
    split; [exact Hp |]. split; [exact Hv |].
    apply (getStateAtTime_outside (LineFlightPath.upcast l) t).
    right. exact Hlate.
Qed.

Lemma paths_hold_their_end_state_witness :
  exists b l,
    BreakFlightPath.new Vec2.zero 1 (Vec2.mk 1 0) = Ok b
    /\ LineFlightPath.new Vec2.zero (Vec2.mk 1 0) 1 = Ok l
    /\ (BreakFlightPath.getMaxTime b < 5 ->
        BreakFlightPath.rocketPosition b 5
        = Ok (BreakFlightPath.getEndPosition b)
        /\ BreakFlightPath.rocketVelocity b 5 = Ok Vec2.zero
        /\ FlightPath.getStateAtTime (BreakFlightPath.upcast b) 5
           = Throw (TimeOutsideRange 5 (BreakFlightPath.getMaxTime b)))
    /\ (LineFlightPath.getMaxTime l < 5 ->
        LineFlightPath.rocketPosition l 5 = Ok (Vec2.mk 1 0)
        /\ LineFlightPath.rocketVelocity l 5 = Ok Vec2.zero
        /\ FlightPath.getStateAtTime (LineFlightPath.upcast l) 5
           = Throw (TimeOutsideRange 5 (LineFlightPath.getMaxTime l))).
Proof.
  apply (paths_hold_their_end_state Vec2.zero (Vec2.mk 1 0) 1 (Vec2.mk 1 0) 5).
  lra.
Defined.
